(** * pontos: release helpers, version command and conventional-commit changelog

    A shallow embedding of
      - [pontos/changelog/conventional_commits.py]  (ChangelogBuilder),
      - [pontos/release/helper.py]                  (version calculators),
      - [pontos/release/prepare.py]                 (prepare),
      - [pontos/release/release.py]                 (release),
      - [pontos/release/sign.py]                    (sign),
      - [pontos/version/version.py]                 (VersionCommand),
      - [pontos/github/api/pull_requests.py]        (pull_request_files),
    and the properties of these functions.

    Conventions.  Python [str] values are [string]; a character is a code
    point below 256.  Python integers that are never negative here (version
    numbers, years, months) are [N], without a bound on their size.  A
    [dict] is a [gmap].  Code that talks to the terminal, the shell or the
    file system runs in the monad [M]: it appends to the trace of external
    calls and ends by returning, by [sys.exit] or by an uncaught
    exception. *)

From Stdlib Require Import Ascii NArith DecimalString DecimalPos DecimalN.
From stdpp Require Import gmap strings list fin_maps.

Local Open Scope N_scope.

(** ** Python text primitives *)

Module Py.

Definition nl : string := String "010"%char "".
Definition quote : string := String "034"%char "".

Definition ord (c : ascii) : N := N_of_ascii c.

(** [str.isspace] on one character; also what [\s] matches in a [str]
    pattern, and what [str.strip()] removes. *)
Definition isspace (c : ascii) : bool :=
  let n := ord c in
  (9 <=? n) && (n <=? 13) || (28 <=? n) && (n <=? 32)
  || (n =? 133) || (n =? 160).

(** Simple lower-case mapping, as [re.IGNORECASE] applies it. *)
Definition tolower (c : ascii) : ascii :=
  let n := ord c in
  if (65 <=? n) && (n <=? 90)
     || (192 <=? n) && (n <=? 222) && negb (n =? 215)
  then ascii_of_N (n + 32) else c.

Definition caseless_eqb (a b : ascii) : bool :=
  Ascii.eqb (tolower a) (tolower b).

Definition isdigit (c : ascii) : bool :=
  let n := ord c in (48 <=? n) && (n <=? 57).

(** [str.lower] *)
Fixpoint lower (s : string) : string :=
  match s with
  | "" => ""
  | String c s' => String (tolower c) (lower s')
  end.

(** [s.split(' ', maxsplit=1)]: the text before the first blank and, when
    there is a blank, the text after it. *)
Fixpoint split1 (s : string) : string * option string :=
  match s with
  | "" => ("", None)
  | String c s' =>
      if Ascii.eqb c " " then ("", Some s')
      else let '(h, t) := split1 s' in (String c h, t)
  end.

(** [s.split(sep)] for a one-character separator. *)
Fixpoint split (sep : ascii) (s : string) : list string :=
  match s with
  | "" => [""]
  | String c s' =>
      if Ascii.eqb c sep then "" :: split sep s'
      else match split sep s' with
           | h :: t => String c h :: t
           | [] => [String c ""]
           end
  end.

Fixpoint lstrip (s : string) : string :=
  match s with
  | "" => ""
  | String c s' => if isspace c then lstrip s' else s
  end.

Fixpoint rstrip (s : string) : string :=
  match s with
  | "" => ""
  | String c s' =>
      match rstrip s' with
      | "" => if isspace c then "" else String c ""
      | r => String c r
      end
  end.

Definition strip (s : string) : string := rstrip (lstrip s).

Fixpoint startswith (p s : string) : bool :=
  match p, s with
  | "", _ => true
  | String a p', String b s' => Ascii.eqb a b && startswith p' s'
  | _, "" => false
  end.

Fixpoint take (n : nat) (s : string) : string :=
  match n, s with
  | S k, String c s' => String c (take k s')
  | _, _ => ""
  end.

(** [s.replace(old, '')]: the occurrences of [old] are removed from left
    to right, without overlap; [skip] counts the characters of the
    occurrence being removed that are still ahead. *)
Fixpoint remove_from (old : string) (skip : nat) (s : string) : string :=
  match s with
  | "" => ""
  | String c s' =>
      match skip with
      | S k => remove_from old k s'
      | O =>
          if startswith old s && negb (String.eqb old "")
          then remove_from old (String.length old - 1) s'
          else String c (remove_from old 0 s')
      end
  end.

Definition remove (old s : string) : string := remove_from old 0 s.

(** [sep.join(l)] *)
Fixpoint join (sep : string) (l : list string) : string :=
  match l with
  | [] => ""
  | [x] => x
  | x :: l' => x +:+ sep +:+ join sep l'
  end.

(** [str(n)] for a non-negative integer. *)
Definition str (n : N) : string := NilEmpty.string_of_uint (N.to_uint n).

Fixpoint all_digits (s : string) : bool :=
  match s with
  | "" => true
  | String c s' => isdigit c && all_digits s'
  end.

(** [int(s)] for a non-empty string of ASCII digits. *)
Definition int (s : string) : option N :=
  match s with
  | "" => None
  | _ => if all_digits s
         then N.of_uint <$> NilEmpty.uint_of_string s
         else None
  end.

(** Truth value of an optional string: [None] and [''] are false. *)
Definition truthy (o : option string) : bool :=
  match o with
  | Some s => negb (String.eqb s "")
  | None => false
  end.

End Py.

(** ** Regular expressions

    The fragment of Python's [re] that the commit-type rules need.  A rule's
    [message] is a regular-expression fragment; it is held as the sequence of
    its items, so that the textual concatenation with [\s?[:|-]] in
    [_sort_commits] is the concatenation of the item lists.  Alternation,
    groups and unbounded repetition are outside this fragment.  Matching is
    the backtracking search of [re], under [re.IGNORECASE], anchored at the
    start of the text as [Pattern.match] is. *)

Module Re.

Inductive atom :=
| Lit (c : ascii)             (* an ordinary character *)
| Dot                         (* .  : any character but a newline *)
| Bol                         (* ^  : the start of the text *)
| Space                       (* \s *)
| Class (cs : list ascii).    (* [...] *)

Inductive item :=
| One (a : atom)              (* a  *)
| Opt (a : atom).             (* a? *)

Definition pattern := list item.

(** One atom at position [pos], in front of the text [s]. *)
Definition step (a : atom) (pos : nat) (s : string) : option (nat * string) :=
  match a, s with
  | Bol, _ => match pos with O => Some (pos, s) | S _ => None end
  | Lit c, String d s' =>
      if Py.caseless_eqb c d then Some (S pos, s') else None
  | Dot, String d s' =>
      if Ascii.eqb d "010" then None else Some (S pos, s')
  | Space, String d s' =>
      if Py.isspace d then Some (S pos, s') else None
  | Class cs, String d s' =>
      if existsb (Py.caseless_eqb d) cs then Some (S pos, s') else None
  | _, "" => None
  end.

(** The end position of the first match in backtracking order: an optional
    item is tried first, and given up when the rest does not match. *)
Fixpoint match_items (p : pattern) (pos : nat) (s : string) : option nat :=
  match p with
  | [] => Some pos
  | One a :: p' =>
      match step a pos s with
      | Some (pos', s') => match_items p' pos' s'
      | None => None
      end
  | Opt a :: p' =>
      match step a pos s with
      | Some (pos', s') =>
          match match_items p' pos' s' with
          | Some n => Some n
          | None => match_items p' pos s
          end
      | None => match_items p' pos s
      end
  end.

(** [reg.match(s)], reduced to [match.group(0)]. *)
Definition match_ (p : pattern) (s : string) : option string :=
  (fun n => Py.take n s) <$> match_items p 0 s.

(** A fragment without special characters. *)
Fixpoint literal (s : string) : pattern :=
  match s with
  | "" => []
  | String c s' => One (Lit c) :: literal s'
  end.

End Re.

(** ** Effects *)

Inductive exn :=
| IndexError
| UnboundLocalError
| FileNotFoundError (path : string)
| InvalidVersion (text : string)
| VersionError (text : string)
| CalledProcessError (returncode : N)
| AttributeError (name : string).

Inductive outcome (A : Type) :=
| Return (a : A)
| SysExit (code : N)
| Raise (e : exn).
Arguments Return {A} a.
Arguments SysExit {A} code.
Arguments Raise {A} e.

Inductive level := Info | Warning | Error | Ok | Print.

(** The calls that leave the process. *)
Inductive event :=
| Term (l : level) (text : string)          (* terminal output *)
| Shell (cmd : string)                      (* shell_cmd_runner(cmd) *)
| ListTags                                  (* Git().list_tags() *)
| CurrentVersion (file_name : string)       (* cmd().get_current_version() *)
| VersionMain (args : list string)          (* pontos.version.main(args=...) *)
| CreateChangelog (output : string)         (* changelog_builder.create_changelog_file() *)
| ReadText (path : string)                  (* Path.read_text *)
| WriteText (path text : string).           (* Path.write_text *)

(** What the collaborators answer; an answer may depend on the calls made
    so far. *)
Record Env := {
  today_year : N;
  today_month : N;
  today_iso : string;                                  (* date.today().isoformat() *)
  shell_result : list event -> string -> N * string;   (* return code, stdout *)
  list_tags : list event -> list string;
  version_of : list event -> string -> string;
  version_main : list event -> list string -> bool * string;
  (* the file that the changelog builder of prepare.py writes and its text;
     [None] when the builder ends the process *)
  built_changelog : list event -> string -> option (string * string);
  (* pontos.changelog.update(text, release_version, git_tag_prefix,
     containing_version), a pure function *)
  changelog_update : string -> string -> string -> option string -> string * string;
}.

Record World := {
  trace : list event;
  files : gmap string string;
}.

(** State and early exit: a computation maps a state to how it ended and
    the state it left. *)
Definition St (S A : Type) : Type := S -> outcome A * S.

Definition ret {S A} (a : A) : St S A := fun w => (Return a, w).

Definition bind {S A B} (m : St S A) (k : A -> St S B) : St S B :=
  fun w =>
    match m w with
    | (Return a, w') => k a w'
    | (SysExit c, w') => (SysExit c, w')
    | (Raise e, w') => (Raise e, w')
    end.

Declare Scope py_scope.
Delimit Scope py_scope with py.
Notation "'let*' x ':=' m 'in' k" := (bind m (fun x => k))
  (at level 10, x pattern, m at level 100, k at level 200) : py_scope.
Notation "m ';;' k" := (bind m (fun _ => k))
  (at level 100, k at level 200, right associativity) : py_scope.
Local Open Scope py_scope.

Definition sys_exit {S A} (code : N) : St S A := fun w => (SysExit code, w).
Definition raise {S A} (e : exn) : St S A := fun w => (Raise e, w).

(** [for x in l: st = body(st, x)] *)
Fixpoint for_each {S A B} (l : list A) (body : B -> A -> St S B) (st : B) : St S B :=
  match l with
  | [] => ret st
  | x :: l' => let* st' := body st x in for_each l' body st'
  end.

Abbreviation M := (St World).

Definition emit (e : event) : M unit :=
  fun w => (Return tt, {| trace := trace w ++ [e]; files := files w |}).

Definition get_trace : M (list event) := fun w => (Return (trace w), w).

Definition terminal (l : level) (text : string) : M unit := emit (Term l text).

Section WithEnv.
Context (env : Env).

(** [subprocess.run(cmd, shell=True, check=True, ...)], reduced to its
    standard output. *)
Definition shell_cmd_runner (cmd : string) : M string :=
  let* t := get_trace in
  emit (Shell cmd);;
  match shell_result env t cmd with
  | (0, stdout) => ret stdout
  | (rc, _) => raise (CalledProcessError rc)
  end.

(** [Git().list_tags()] *)
Definition git_list_tags : M (list string) :=
  let* t := get_trace in
  emit ListTags;;
  ret (list_tags env t).

Definition path_exists (path : string) : M bool :=
  fun w => (Return (bool_decide (is_Some (files w !! path))), w).

Definition read_text (path : string) : M string :=
  emit (ReadText path);;
  fun w => match files w !! path with
           | Some text => (Return text, w)
           | None => (Raise (FileNotFoundError path), w)
           end.

Definition write_text (path text : string) : M unit :=
  emit (WriteText path text);;
  fun w => (Return tt, {| trace := trace w; files := <[path := text]> (files w) |}).

End WithEnv.

(** ** pontos/changelog/conventional_commits.py *)

Module Changelog.

Definition ADDRESS : string := "https://github.com/".

(** One record of [commit_types] in the configuration file. *)
Record CommitType := {
  message : Re.pattern;
  group : string;
}.

(** The fields of a [ChangelogBuilder]; [commit_types] stands for
    [self.config.get('commit_types')]. *)
Record ChangelogBuilder := {
  commit_types : list CommitType;
  project : string;
  space : string;
  output_file : string;
  current_version : option string;
  next_version : option string;
}.

(** An f-string field: [None] prints as its name. *)
Definition fmt (o : option string) : string := default "None" o.

(** [re.compile(fr'{commit_type["message"]}\s?[:|-]', flags=re.I)] *)
Definition reg (commit_type : CommitType) : Re.pattern :=
  message commit_type ++ [Re.Opt Re.Space; Re.One (Re.Class [":"; "|"; "-"]%char)].

Definition entry (commit_link hash cleaned_msg : string) : string :=
  cleaned_msg +:+ " [" +:+ hash +:+ "](" +:+ commit_link +:+ hash +:+ ")".

(** [commit[1].replace(match.group(0), '').strip()] *)
Definition clean (msg group0 : string) : string :=
  Py.strip (Py.remove group0 msg).

(** [commit_dict[key].append(text)], after [commit_dict[key] = []] when the
    key is new. *)
Definition append_to (key text : string) (commit_dict : gmap string (list string))
  : gmap string (list string) :=
  <[key := default [] (commit_dict !! key) ++ [text]]> commit_dict.

Section Builder.
Context (env : Env) (self : ChangelogBuilder).

Definition commit_link : string :=
  ADDRESS +:+ space self +:+ "/" +:+ project self +:+ "/commit/".

Definition compare_link : string :=
  ADDRESS +:+ space self +:+ "/" +:+ project self +:+ "/compare/".

Definition _get_git_log : M (option (list string)) :=
  let cmd := "git log HEAD --oneline" in
  fun w =>
    match shell_cmd_runner env "git tag | sort -V | tail -1" w with
    | (Raise (CalledProcessError _), w') =>
        (* [proc] is not bound when the command failed *)
        (terminal Warning "No tag found.";; raise UnboundLocalError) w'
    | (Return stdout, w') =>
        (let cmd := if negb (String.eqb stdout "")
                    then "git log " +:+ Py.quote +:+ Py.strip stdout +:+ "..HEAD"
                         +:+ Py.quote +:+ " --oneline"
                    else cmd in
         let* stdout := shell_cmd_runner env cmd in
         if negb (String.eqb stdout "")
         then ret (Some (Py.split "010" (Py.strip stdout)))
         else ret None) w'
    | (SysExit c, w') => (SysExit c, w')
    | (Raise e, w') => (Raise e, w')
    end.

(** The body of the loop over [commit_types], for the commit
    [commit = [hash]] or [[hash, msg]]. *)
Definition sort_commit_type (hash : string) (msg : option string)
    (commit_dict : gmap string (list string)) (commit_type : CommitType)
  : M (gmap string (list string)) :=
  match msg with
  | None => raise IndexError                     (* commit[1] *)
  | Some msg =>
      match Re.match_ (reg commit_type) msg with
      | Some group0 =>
          let cleaned_msg := clean msg group0 in
          let commit_dict :=
            append_to (group commit_type)
                      (entry commit_link hash cleaned_msg) commit_dict in
          terminal Info (hash +:+ ": " +:+ cleaned_msg);;
          ret commit_dict
      | None => ret commit_dict
      end
  end.

(** The body of the loop over [commits]. *)
Definition sort_commit (commit_dict : gmap string (list string)) (commit : string)
  : M (gmap string (list string)) :=
  let '(hash, msg) := Py.split1 commit in
  for_each (commit_types self) (sort_commit_type hash msg) commit_dict.

Definition _sort_commits (commits : option (list string))
  : M (gmap string (list string)) :=
  let* commit_dict :=
    match commits with
    | Some ((_ :: _) as commits) => for_each commits sort_commit ∅
    | _ => ret ∅
    end in
  if decide (commit_dict = ∅)
  then terminal Warning "No conventional commits found.";; sys_exit 1
  else ret commit_dict.

Definition header : string :=
  "# Changelog" +:+ Py.nl +:+ Py.nl
  +:+ "All notable changes to this project will be documented in this file."
  +:+ Py.nl +:+ Py.nl.

Definition heading : string :=
  if Py.truthy (next_version self)
  then "## [" +:+ fmt (next_version self) +:+ "] - " +:+ today_iso env +:+ Py.nl
  else "## [Unreleased]" +:+ Py.nl +:+ Py.nl.

(** The changelog entries, group by group in the order of the rules. *)
Definition entries (commit_dict : gmap string (list string)) : string :=
  foldl (fun changelog commit_type =>
           match commit_dict !! group commit_type with
           | Some msgs =>
               foldl (fun changelog msg => changelog +:+ "* " +:+ msg +:+ Py.nl)
                     (changelog +:+ Py.nl +:+ "## " +:+ group commit_type +:+ Py.nl)
                     msgs
           | None => changelog
           end)
        "" (commit_types self).

(** The comparison line (footer): [f'{pre}{compare_link}{diff}']. *)
Definition footer : string :=
  let pre := Py.nl +:+ "[Unreleased]: " in
  if Py.truthy (next_version self) && Py.truthy (current_version self)
  then
    let pre := Py.nl +:+ "[" +:+ fmt (next_version self) +:+ "]: " in
    let diff := fmt (current_version self) +:+ "..." +:+ fmt (next_version self) in
    pre +:+ compare_link +:+ diff
  else if Py.truthy (current_version self)
  then
    let diff := Py.nl +:+ fmt (current_version self) +:+ "...HEAD" in
    pre +:+ compare_link +:+ diff
  else
    let diff := "???...HEAD" in
    pre +:+ compare_link +:+ diff.

Definition changelog_text (commit_dict : gmap string (list string)) : string :=
  header +:+ heading +:+ entries commit_dict +:+ footer.

Definition _build_changelog_file (commit_dict : gmap string (list string))
  : M (option string) :=
  let changelog := changelog_text commit_dict in
  if negb (String.eqb changelog "")
  then write_text (output_file self) changelog;; ret (Some (output_file self))
  else ret None.

Definition create_changelog_file : M (option string) :=
  let* commit_list := _get_git_log in
  let* commit_dict := _sort_commits commit_list in
  _build_changelog_file commit_dict.

End Builder.

End Changelog.

(** ** packaging.version.Version

    The versions of PEP 440 as [packaging] reads them: an optional [v], an
    optional epoch, the release numbers, and optional pre-release,
    post-release, development and local parts, in any of the spellings that
    the pattern of [packaging.version] accepts, between optional
    whitespace and without regard to the case of the letters.  The
    pattern's optional groups are read greedily; no text that the pattern
    matches needs another choice.  [str] gives the normal form. *)

Module Version.

Record t := {
  epoch : N;
  release : list N;
  pre : option (string * N);
  post : option N;
  dev : option N;
  local : option (list string);
}.

Definition major (v : t) : N := nth 0 (release v) 0.
Definition minor (v : t) : N := nth 1 (release v) 0.
Definition micro (v : t) : N := nth 2 (release v) 0.

(** [[-_.]] *)
Definition is_sep (c : ascii) : bool :=
  Ascii.eqb c "." || Ascii.eqb c "_" || Ascii.eqb c "-".

(** [[-_.]?] *)
Definition skip_sep (s : string) : string :=
  match s with
  | String c s' => if is_sep c then s' else s
  | "" => ""
  end.

(** The text behind the prefix [p]. *)
Fixpoint behind (p s : string) : option string :=
  match p, s with
  | "", _ => Some s
  | String a p', String b s' => if Ascii.eqb a b then behind p' s' else None
  | String _ _, "" => None
  end.

(** [[0-9]*]: the digits at the start and the text behind them. *)
Fixpoint digits (s : string) : string * string :=
  match s with
  | String c s' =>
      if Py.isdigit c then let '(d, r) := digits s' in (String c d, r)
      else ("", s)
  | "" => ("", "")
  end.

(** [int(number or 0)] *)
Definition number (ds : string) : N := default 0 (Py.int ds).

(** The first of the spellings [ks] that the text starts with, as its
    normal form, and the text behind it. *)
Fixpoint keyword (ks : list (string * string)) (s : string)
  : option (string * string) :=
  match ks with
  | [] => None
  | (k, normal) :: ks' =>
      match behind k s with
      | Some r => Some (normal, r)
      | None => keyword ks' s
      end
  end.

(** [[-_.]?(k1|k2|...)[-_.]?([0-9]+)?]: the normal form of the letters, the
    number, and the text behind the group; [None] when the group does not
    match. *)
Definition letter_number (ks : list (string * string)) (s : string)
  : option (string * N * string) :=
  match keyword ks (skip_sep s) with
  | Some (normal, r) =>
      let '(ds, r') := digits (skip_sep r) in
      Some (normal, number ds, r')
  | None => None
  end.

Definition pre_letters : list (string * string) :=
  [("alpha", "a"); ("a", "a"); ("beta", "b"); ("b", "b");
   ("preview", "rc"); ("pre", "rc"); ("c", "rc"); ("rc", "rc")].

Definition post_letters : list (string * string) :=
  [("post", "post"); ("rev", "post"); ("r", "post")].

Definition dev_letters : list (string * string) := [("dev", "dev")].

(** [(?:([0-9]+)!)?] *)
Definition epoch_of (s : string) : N * string :=
  match digits s with
  | (String c ds, String "!" r) => (number (String c ds), r)
  | _ => (0, s)
  end.

(** [[0-9]*(?:\.[0-9]+)*], behind the digits [cur] of the number that is
    being read: the numbers, as texts, and the text behind them. *)
Fixpoint numbers (cur : string) (s : string) : list string * string :=
  match s with
  | String c s' =>
      if Py.isdigit c then numbers (cur +:+ String c "") s'
      else if Ascii.eqb c "."
      then match s' with
           | String d s'' =>
               if Py.isdigit d
               then let '(ns, r) := numbers (String d "") s'' in (cur :: ns, r)
               else ([cur], s)
           | "" => ([cur], s)
           end
      else ([cur], s)
  | "" => ([cur], "")
  end.

(** [[0-9]+(?:\.[0-9]+)*] *)
Definition release_of (s : string) : option (list N * string) :=
  match s with
  | String c s' =>
      if Py.isdigit c
      then let '(ns, r) := numbers (String c "") s' in Some (number <$> ns, r)
      else None
  | "" => None
  end.

(** The post-release: [-N], or letters with an optional number. *)
Definition post_of (s : string) : option N * string :=
  let spelled :=
    match letter_number post_letters s with
    | Some (_, n, r) => (Some n, r)
    | None => (None, s)
    end in
  match s with
  | String "-" s' =>
      match digits s' with
      | (String c ds, r) => (Some (number (String c ds)), r)
      | _ => spelled
      end
  | _ => spelled
  end.

(** [[a-z0-9]] *)
Definition is_alnum (c : ascii) : bool :=
  Py.isdigit c || (97 <=? Py.ord c) && (Py.ord c <=? 122).

Fixpoint all_alnum (s : string) : bool :=
  match s with
  | "" => true
  | String c s' => is_alnum c && all_alnum s'
  end.

(** [re.split(r"[\._-]", local)] *)
Fixpoint local_parts (s : string) : list string :=
  match s with
  | "" => [""]
  | String c s' =>
      if is_sep c then "" :: local_parts s'
      else match local_parts s' with
           | h :: t => String c h :: t
           | [] => [String c ""]
           end
  end.

(** [part.lower() if not part.isdigit() else int(part)], printed *)
Definition local_part (part : string) : string :=
  match Py.int part with
  | Some n => Py.str n
  | None => part
  end.

(** The end of the text: nothing, or [+] and the local version.  The
    outer [None] stands for no match. *)
Definition local_of (s : string) : option (option (list string)) :=
  match s with
  | "" => Some None
  | String "+" s' =>
      let parts := local_parts s' in
      if forallb (fun part => negb (String.eqb part "") && all_alnum part) parts
      then Some (Some (local_part <$> parts))
      else None
  | _ => None
  end.

(** [Version(text)]; [None] stands for [InvalidVersion]. *)
Definition parse (text : string) : option t :=
  let s := Py.lower (Py.strip text) in
  let s := match s with String "v" s' => s' | _ => s end in
  let '(epoch, s) := epoch_of s in
  match release_of s with
  | None => None
  | Some (release, s) =>
      let '(pre, s) :=
        match letter_number pre_letters s with
        | Some (l, n, r) => (Some (l, n), r)
        | None => (None, s)
        end in
      let '(post, s) := post_of s in
      let '(dev, s) :=
        match letter_number dev_letters s with
        | Some (_, n, r) => (Some n, r)
        | None => (None, s)
        end in
      match local_of s with
      | Some local =>
          Some {| epoch := epoch; release := release; pre := pre;
                  post := post; dev := dev; local := local |}
      | None => None
      end
  end.

(** [str(version)] *)
Definition to_string (v : t) : string :=
  (if epoch v =? 0 then "" else Py.str (epoch v) +:+ "!")
  +:+ Py.join "." (Py.str <$> release v)
  +:+ match pre v with Some (l, n) => l +:+ Py.str n | None => "" end
  +:+ match post v with Some n => ".post" +:+ Py.str n | None => "" end
  +:+ match dev v with Some n => ".dev" +:+ Py.str n | None => "" end
  +:+ match local v with Some parts => "+" +:+ Py.join "." parts | None => "" end.

End Version.

(** ** pontos/release/helper.py *)

Module Helper.

Section WithEnv.
Context (env : Env).

(** [str(e)] for the [InvalidVersion] that [Version(text)] raises (later
    releases of [packaging] print the text as [repr] does, which is the
    same for a text without quotes, backslashes and control characters). *)
Definition invalid_version (text : string) : string :=
  "Invalid version: '" +:+ text +:+ "'".

(** [Version(text)] as a statement that may raise. *)
Definition Version_ (text : string) : M Version.t :=
  match Version.parse text with
  | Some v => ret v
  | None => raise (InvalidVersion text)
  end.

Definition commit_files (filename commit_msg git_signing_key : string)
    (changelog : bool) : M unit :=
  shell_cmd_runner env ("git add " +:+ filename);;
  shell_cmd_runner env "git add *__version__.py || echo 'ignoring __version__'";;
  (if changelog then shell_cmd_runner env "git add CHANGELOG.md";; ret tt
   else ret tt);;
  (if negb (String.eqb git_signing_key "")
   then shell_cmd_runner env ("git commit -S" +:+ git_signing_key
                              +:+ " --no-verify -m '" +:+ commit_msg +:+ "'")
   else shell_cmd_runner env ("git commit --no-verify -m '" +:+ commit_msg +:+ "'"));;
  ret tt.

Definition available_cmds : list string := ["CMakeLists.txt"; "pyproject.toml"].

(** The loop of [get_current_version] over the project definition files
    that are still to be tried. *)
Fixpoint current_version_from (file_names : list string) : M string :=
  match file_names with
  | [] => terminal Error "No project settings file found";; sys_exit 1
  | file_name :: rest =>
      let* found := path_exists file_name in
      if found
      then
        terminal Ok ("Found " +:+ file_name +:+ " project definition file.");;
        let* t := get_trace in
        emit (CurrentVersion file_name);;
        ret (version_of env t file_name)
      else current_version_from rest
  end.

Definition get_current_version : M string :=
  current_version_from available_cmds.

Definition calculate_calendar_version : M string :=
  let* current_version_str := get_current_version in
  let* current_version := Version_ current_version_str in
  let year := today_year env mod 100 in
  let month := today_month env in
  if (Version.major current_version <? year)
     || (Version.minor current_version <? month)
  then
    let* release_version :=
      Version_ (Py.str year +:+ "." +:+ Py.str month +:+ ".0") in
    ret (Version.to_string release_version)
  else if (Version.major current_version =? year)
          && (Version.minor current_version =? month)
  then
    let* release_version :=
      match Version.dev current_version with
      | None =>
          Version_ (Py.str year +:+ "." +:+ Py.str month +:+ "."
                    +:+ Py.str (Version.micro current_version + 1))
      | Some _ =>
          Version_ (Py.str year +:+ "." +:+ Py.str month +:+ "."
                    +:+ Py.str (Version.micro current_version))
      end in
    ret (Version.to_string release_version)
  else
    terminal Error ("'" +:+ Version.to_string current_version
                    +:+ "' is higher than '"
                    +:+ Py.str year +:+ "." +:+ Py.str month +:+ "'.");;
    sys_exit 1.

Definition get_last_release_version : M (option string) :=
  let* tag_list := git_list_tags env in
  ret (last tag_list).

Definition get_next_patch_version : M string :=
  let* current_version_str := get_current_version in
  let* current_version := Version_ current_version_str in
  let* release_version :=
    match Version.dev current_version with
    | Some _ =>
        Version_ (Py.str (Version.major current_version) +:+ "."
                  +:+ Py.str (Version.minor current_version) +:+ "."
                  +:+ Py.str (Version.micro current_version))
    | None =>
        Version_ (Py.str (Version.major current_version) +:+ "."
                  +:+ Py.str (Version.minor current_version) +:+ "."
                  +:+ Py.str (Version.micro current_version + 1))
    end in
  ret (Version.to_string release_version).

Definition get_next_dev_version (release_version : string) : M string :=
  match Version.parse release_version with
  | None => raise (VersionError (invalid_version release_version))
  | Some release_version_obj =>
      let text := Py.str (Version.major release_version_obj) +:+ "."
                  +:+ Py.str (Version.minor release_version_obj) +:+ "."
                  +:+ Py.str (Version.micro release_version_obj + 1) in
      match Version.parse text with
      | None => raise (VersionError (invalid_version text))
      | Some next_version_obj => ret (Version.to_string next_version_obj)
      end
  end.

Definition get_project_name (remote : string) : M string :=
  let* stdout := shell_cmd_runner env ("git remote get-url " +:+ remote) in
  ret (Py.strip (Py.remove ".git" (default "" (last (Py.split "/" stdout))))).

Definition find_signing_key : M string :=
  fun w =>
    match shell_cmd_runner env "git config user.signingkey" w with
    | (Return stdout, w') => (Return (Py.strip stdout), w')
    | (Raise (CalledProcessError returncode), w') =>
        ((if returncode =? 1 then terminal Warning "No signing key found."
          else ret tt);;
         ret "") w'
    | (SysExit c, w') => (SysExit c, w')
    | (Raise e, w') => (Raise e, w')
    end.

Definition update_version (to : string) (develop : bool) : M (bool * string) :=
  let args := ["--quiet"; "update"; to] ++ (if develop then ["--develop"] else []) in
  let* t := get_trace in
  emit (VersionMain args);;
  let '(executed, filename) := version_main env t args in
  (if negb executed
   then if String.eqb filename ""
        then terminal Error "No project definition found."
        else terminal Error ("Unable to update version " +:+ to +:+ " in " +:+ filename)
   else ret tt);;
  ret (executed, filename).

End WithEnv.

End Helper.

(** ** pontos/release/prepare.py *)

Module Prepare.

Definition RELEASE_TEXT_FILE : string := ".release.md".

(** The fields of [args] that [prepare] reads. *)
Record Args := {
  git_tag_prefix : string;
  git_signing_key : option string;
  project : option string;
  space : string;
  calendar : bool;
  patch : bool;
  release_version : string;
  conventional_commits : bool;
  cc_config : string;
  changelog : option string;
}.

Section WithEnv.
Context (env : Env).

(** The conventional-commits branch.  The builder that [prepare]
    constructs takes a terminal, unlike the class of
    conventional_commits.py, so it is a collaborator here: it writes the
    changelog file, or ends the process. *)
Definition changelog_from_commits (release_version git_signing_key : string)
  : M (bool * string) :=
  let* last_release_version := Helper.get_last_release_version env in
  let output := "v" +:+ release_version +:+ ".md" in
  let* t := get_trace in
  emit (CreateChangelog output);;
  match built_changelog env t output with
  | None => sys_exit 1
  | Some (output_file, text) =>
      (fun w => (Return tt, {| trace := trace w;
                               files := <[output_file := text]> (files w) |}));;
      terminal Ok ("Created changelog " +:+ output);;
      let commit_msg := "Changelog created for release to " +:+ release_version in
      Helper.commit_files env output_file commit_msg git_signing_key false;;
      let* text := read_text output_file in
      ret (false, Py.remove Changelog.header text)
  end.

(** The branch that updates CHANGELOG.md by hand. *)
Definition changelog_from_file (args : Args) (release_version : string)
  : M (bool * string) :=
  let* change_log_path :=
    if Py.truthy (changelog args)
    then
      let tmp_path := default "" (changelog args) in
      let* is_file := path_exists tmp_path in
      if is_file then ret tmp_path
      else terminal Warning (tmp_path +:+ " is not a file.");; ret "CHANGELOG.md"
    else ret "CHANGELOG.md" in
  let* text := read_text change_log_path in
  let '(updated, changelog_text) :=
    changelog_update env text release_version (git_tag_prefix args)
                     (Some release_version) in
  let* (updated, changelog_text) :=
    if String.eqb updated ""
    then
      let* text := read_text change_log_path in
      ret (changelog_update env text release_version (git_tag_prefix args) None)
    else ret (updated, changelog_text) in
  if String.eqb updated ""
  then terminal Error "No unreleased text found in CHANGELOG.md";; sys_exit 1
  else
    write_text change_log_path updated;;
    terminal Ok "Updated CHANGELOG.md";;
    ret (true, changelog_text).

(** The statements of [prepare] above the guardian: the signing key,
    the project and the release version. *)
Definition prepare_release (args : Args) : M (string * string * string) :=
  let* git_signing_key :=
    match git_signing_key args with
    | Some key => ret key
    | None => Helper.find_signing_key env
    end in
  let* project :=
    match project args with
    | Some project => ret project
    | None => Helper.get_project_name env "origin"
    end in
  let* release_version :=
    if calendar args then Helper.calculate_calendar_version env
    else if patch args then Helper.get_next_patch_version env
    else ret (release_version args) in
  terminal Info ("Preparing the release " +:+ release_version);;
  ret (git_signing_key, project, release_version).

Definition prepare (args : Args) : M bool :=
  let git_tag_prefix := git_tag_prefix args in
  let* (git_signing_key, project, release_version) := prepare_release args in
  (* guardian *)
  let* git_tags := git_list_tags env in
  let git_version := git_tag_prefix +:+ release_version in
  if bool_decide (git_version ∈ git_tags)
  then terminal Error ("git tag " +:+ git_version +:+ " is already taken.");;
       sys_exit 1
  else
    let* (executed, filename) := Helper.update_version env release_version false in
    if negb executed then ret false
    else
      terminal Ok ("updated version  in " +:+ filename +:+ " to " +:+ release_version);;
      let* (changelog_bool, changelog_text) :=
        if conventional_commits args
        then changelog_from_commits release_version git_signing_key
        else changelog_from_file args release_version in
      terminal Info "Committing changes";;
      let commit_msg := "Automatic release to " +:+ release_version in
      Helper.commit_files env filename commit_msg git_signing_key changelog_bool;;
      (if negb (String.eqb git_signing_key "")
       then shell_cmd_runner env ("git tag -u " +:+ git_signing_key +:+ " "
                                  +:+ git_version +:+ " -m '" +:+ commit_msg +:+ "'")
       else shell_cmd_runner env ("git tag " +:+ git_version
                                  +:+ " -m '" +:+ commit_msg +:+ "'"));;
      write_text RELEASE_TEXT_FILE changelog_text;;
      terminal Warning ("Please verify git tag " +:+ git_version
                        +:+ ", commit and release text in " +:+ RELEASE_TEXT_FILE);;
      terminal Print "Afterwards please execute release";;
      ret true.

End WithEnv.

End Prepare.

(** ** pontos/version/version.py *)

Module VersionCommand.

(** What the commands read and write.  For either file: [None] when the
    file does not exist, [Some None] when it holds no version
    ([tool.poetry.version] is missing; the module defines no
    [__version__], as the empty file that [touch] makes), [Some (Some v)]
    when it holds the version [v].  [sys_modules] is the entry of the
    version module in [sys.modules]: [None] as long as the module has not
    been imported in this process, and from then on the [__version__] that
    it had when it was imported.  A version file that exists is taken to be
    found by the import. *)
Record State := {
  pyproject_toml : option (option string);
  version_file : option (option string);
  sys_modules : option (option string);
  printed : list string;
}.

Section WithHelper.
(** [safe_version] and [check_develop] of pontos/version/helper.py;
    [check_develop] gives [None] where it raises [InvalidVersion]. *)
Context (safe_version : string -> string)
        (check_develop : string -> option bool).
(** The dotted name of the version module, made of the parts of
    [self.version_file_path] without the suffix, and
    [str(self.pyproject_toml_path)]. *)
Context (module_name pyproject_toml_path : string).
(** [self.__quiet] *)
Context (quiet : bool).

Definition _print (text : string) : St State unit :=
  fun st =>
    (Return tt,
     if quiet then st
     else {| pyproject_toml := pyproject_toml st;
             version_file := version_file st;
             sys_modules := sys_modules st;
             printed := printed st ++ [text] |}).

Definition versions_equal (new_version old_version : string) : bool :=
  String.eqb (safe_version old_version) (safe_version new_version).

Definition get_version_from_pyproject_toml : St State string :=
  fun st =>
    match pyproject_toml st with
    | None => (Raise (VersionError (pyproject_toml_path +:+ " file not found.")), st)
    | Some None =>
        (Raise (VersionError ("Version information not found in "
                              +:+ pyproject_toml_path +:+ " file.")), st)
    | Some (Some version) => (Return version, st)
    end.

(** [importlib.import_module(module_name)]: the module that [sys.modules]
    holds, if there is one, and the version file otherwise, which
    [sys.modules] holds from then on.  [None] stands for
    [ModuleNotFoundError]. *)
Definition import_module (st : State) : option (option string) * State :=
  match sys_modules st with
  | Some version_module => (Some version_module, st)
  | None =>
      match version_file st with
      | Some content =>
          (Some content,
           {| pyproject_toml := pyproject_toml st;
              version_file := version_file st;
              sys_modules := Some content;
              printed := printed st |})
      | None => (None, st)
      end
  end.

Definition get_current_version : St State string :=
  fun st =>
    match import_module st with
    | (None, st') =>
        (Raise (VersionError ("Could not load version from " +:+ module_name
                              +:+ ". Import failed.")), st')
    | (Some (Some version), st') => (Return version, st')
    | (Some None, st') => (Raise (AttributeError "__version__"), st')
    end.

Definition _update_version_file (new_version : string) : St State unit :=
  let new_version := safe_version new_version in
  fun st =>
    (Return tt,
     {| pyproject_toml := pyproject_toml st;
        version_file := Some (Some new_version);
        sys_modules := sys_modules st;
        printed := printed st |}).

Definition _update_pyproject_version (new_version : string) : St State unit :=
  let new_version := safe_version new_version in
  fun st =>
    match pyproject_toml st with
    | None => (Raise (FileNotFoundError pyproject_toml_path), st)
    | Some _ =>
        (Return tt,
         {| pyproject_toml := Some (Some new_version);
            version_file := version_file st;
            sys_modules := sys_modules st;
            printed := printed st |})
    end.

(** [self.version_file_path.touch()] *)
Definition touch : St State unit :=
  fun st =>
    (Return tt,
     {| pyproject_toml := pyproject_toml st;
        version_file := match version_file st with
                        | None => Some None
                        | Some content => Some content
                        end;
        sys_modules := sys_modules st;
        printed := printed st |}).

(** The first lines of [update_version]: the version that is to be
    written. *)
Definition new_version_for (new_version : string) (develop : bool)
  : St State string :=
  let new_version := safe_version new_version in
  let* develop :=
    match check_develop new_version with
    | None => raise (InvalidVersion new_version)
    | Some is_develop => ret (if is_develop && develop then false else develop)
    end in
  ret (if develop then new_version +:+ ".dev1" else new_version).

Definition update_version (new_version : string) (develop force : bool)
  : St State unit :=
  let* new_version := new_version_for new_version develop in
  let* pyproject_version := get_version_from_pyproject_toml in
  let* up_to_date :=
    fun st =>
      match version_file st with
      | None => (touch;; ret false) st
      | Some _ =>
          if force then (Return false, st)
          else (let* current := get_current_version in
                ret (versions_equal new_version current)) st
      end in
  if up_to_date
  then _print "Version is already up-to-date."
  else
    _update_pyproject_version new_version;;
    _update_version_file new_version;;
    _print ("Updated version from " +:+ pyproject_version +:+ " to " +:+ new_version).

End WithHelper.

End VersionCommand.

(** ** Concrete inputs *)

Module Examples.

(** A project with a pyproject.toml whose version command reports
    [current], on 17 May 2022. *)
Definition env_of (current : string) (tags : list string) : Env := {|
  today_year := 2022;
  today_month := 5;
  today_iso := "2022-05-17";
  shell_result := fun _ cmd =>
    if String.eqb cmd "git config user.signingkey" then (1, "")
    else (0, "https://github.com/space/project.git" +:+ Py.nl);
  list_tags := fun _ => tags;
  version_of := fun _ _ => current;
  version_main := fun _ _ => (true, "pyproject.toml");
  built_changelog := fun _ output => Some (output, Changelog.header);
  changelog_update := fun text _ _ _ => (text, text);
|}.

Definition world : World := {|
  trace := [];
  files := {[ "pyproject.toml" := ""; "CHANGELOG.md" := "## [Unreleased]" ]};
|}.

Definition added : Changelog.CommitType :=
  {| Changelog.message := Re.literal "Added"; Changelog.group := "Added:" |}.

Definition fix_ : Changelog.CommitType :=
  {| Changelog.message := Re.literal "fix"; Changelog.group := "Bug Fixes" |}.

(** [^fix] *)
Definition fix_anchored : Changelog.CommitType :=
  {| Changelog.message := Re.One Re.Bol :: Re.literal "fix";
     Changelog.group := "Fixed" |}.

Definition builder (commit_types : list Changelog.CommitType)
    (current_version next_version : option string) : Changelog.ChangelogBuilder :=
  {| Changelog.commit_types := commit_types;
     Changelog.project := "project";
     Changelog.space := "space";
     Changelog.output_file := "unreleased.md";
     Changelog.current_version := current_version;
     Changelog.next_version := next_version |}.

Definition args_of (release_version : string) : Prepare.Args :=
  {| Prepare.git_tag_prefix := "v";
     Prepare.git_signing_key := None;
     Prepare.project := None;
     Prepare.space := "space";
     Prepare.calendar := false;
     Prepare.patch := false;
     Prepare.release_version := release_version;
     Prepare.conventional_commits := false;
     Prepare.cc_config := "changelog.toml";
     Prepare.changelog := None |}.

(** An instance of [safe_version] and [check_develop] for the version
    texts that [Version.parse] reads. *)
Definition safe_version (version : string) : string :=
  match Version.parse version with
  | Some v => Version.to_string v
  | None => version
  end.

Definition check_develop (version : string) : option bool :=
  (fun v => bool_decide (is_Some (Version.dev v))) <$> Version.parse version.

(** A project at 21.6.1 whose version file is not written yet. *)
Definition version_state : VersionCommand.State :=
  {| VersionCommand.pyproject_toml := Some (Some "21.6.1");
     VersionCommand.version_file := None;
     VersionCommand.sys_modules := None;
     VersionCommand.printed := [] |}.

(** A project at 21.6.1 with its version file; [imported] is what
    [sys.modules] holds of it. *)
Definition project_state (imported : option (option string))
  : VersionCommand.State :=
  {| VersionCommand.pyproject_toml := Some (Some "21.6.1");
     VersionCommand.version_file := Some (Some "21.6.1");
     VersionCommand.sys_modules := imported;
     VersionCommand.printed := [] |}.

End Examples.

(** ** Notions used in the statements *)

Module Spec.
Import Changelog.

(** The world [w] after the external calls [evs]. *)
Definition log (w : World) (evs : list event) : World :=
  {| trace := trace w ++ evs; files := files w |}.

(** The commit line has the form "hash message". *)
Definition has_message (line : string) : Prop := is_Some (Py.split1 line).2.

Definition rule_matches (commit_type : CommitType) (msg : string) : bool :=
  bool_decide (is_Some (Re.match_ (reg commit_type) msg)).

Definition commit_matches (self : ChangelogBuilder) (line : string) : bool :=
  match Py.split1 line with
  | (_, Some msg) => existsb (fun ct => rule_matches ct msg) (commit_types self)
  | (_, None) => false
  end.

(** A classified commit: group label, short hash, cleaned message. *)
Definition hit (hash msg : string) (commit_type : CommitType)
  : string * string * string :=
  (group commit_type, hash,
   clean msg (default "" (Re.match_ (reg commit_type) msg))).

(** What one commit line yields: one classified commit for every rule that
    matches its message, in the order of the rules. *)
Definition hits (self : ChangelogBuilder) (line : string)
  : list (string * string * string) :=
  match Py.split1 line with
  | (hash, Some msg) =>
      hit hash msg <$> filter (fun ct => rule_matches ct msg) (commit_types self)
  | (_, None) => []
  end.

Definition rendered (self : ChangelogBuilder) (h : string * string * string)
  : string :=
  entry (commit_link self) h.1.2 h.2.

Definition record_hit (self : ChangelogBuilder)
    (commit_dict : gmap string (list string)) (h : string * string * string)
  : gmap string (list string) :=
  append_to h.1.1 (rendered self h) commit_dict.

Definition info_of (h : string * string * string) : event :=
  Term Info (h.1.2 +:+ ": " +:+ h.2).

(** [p] is [t] up to the case of the letters. *)
Fixpoint caseless_eq (p t : string) : bool :=
  match p, t with
  | "", "" => true
  | String a p', String b t' => Py.caseless_eqb b a && caseless_eq p' t'
  | _, _ => false
  end.

(** What is left of [msg] behind the text [t], letters compared without
    case. *)
Fixpoint strip_caseless (t msg : string) : option string :=
  match t, msg with
  | "", _ => Some msg
  | String a t', String b msg' =>
      if Py.caseless_eqb a b then strip_caseless t' msg' else None
  | String _ _, "" => None
  end.

Fixpoint all_space (s : string) : bool :=
  match s with
  | "" => true
  | String c s' => Py.isspace c && all_space s'
  end.

(** The rule of the specification: the message, without regard to case,
    starts with the match-text, followed by an optional colon or hyphen
    and optional whitespace. *)
Definition starts_with_match_text (text msg : string) : Prop :=
  ∃ p sep ws rest,
    msg = p +:+ sep +:+ ws +:+ rest
    ∧ caseless_eq p text = true
    ∧ sep ∈ [""; ":"; "-"]
    ∧ all_space ws = true.


(** The rule of the specification for commits that match no rule: the
    classifier ends the process exactly when no commit matches a rule, and
    returns a dictionary as soon as one does, whatever the other commits
    are. *)
Definition unmatched_ignored (self : ChangelogBuilder) (commits : list string)
  : Prop :=
  ∀ w,
    ((_sort_commits self (Some commits) w).1 = SysExit 1
     ↔ Forall (fun line => commit_matches self line = false) commits)
    ∧ (Exists (fun line => commit_matches self line = true) commits →
       ∃ commit_dict, (_sort_commits self (Some commits) w).1 = Return commit_dict).

(** The external calls that change the repository or a file. *)
Definition mutates (e : event) : bool :=
  match e with
  | Term _ _ | ListTags | CurrentVersion _ | ReadText _ => false
  | Shell cmd =>
      negb (String.eqb cmd "git config user.signingkey"
            || Py.startswith "git remote get-url " cmd)
  | VersionMain _ | CreateChangelog _ | WriteText _ _ => true
  end.

(** A computation that makes no such call and leaves the files as they
    are, however it ends. *)
Definition quiet {A} (m : M A) : Prop :=
  ∀ w, ∃ evs,
    (m w).2 = log w evs ∧ Forall (fun e => mutates e = false) evs.

End Spec.

(** ** pontos/version/version.py: the other commands *)

Module VersionCheck.
Import VersionCommand.

(** [strip_version]: a leading [v] is taken off. *)
Definition strip_version (version : string) : string :=
  match version with
  | String "v" rest => rest
  | _ => version
  end.

(** The fields of the parsed arguments that [run] reads; [command] is
    [None] when no subcommand was given. *)
Record Args := {
  command : option string;
  quiet : bool;
  version : string;
  force : bool;
  develop : bool;
}.

Section WithHelper.
(** [safe_version], [check_develop] and [is_version_pep440_compliant] of
    pontos/version/helper.py. *)
Context (safe_version : string -> string)
        (check_develop : string -> option bool)
        (is_version_pep440_compliant : string -> bool).
(** [str(self.version_file_path)], the dotted name of the version module,
    [str(self.pyproject_toml_path)] and the text of
    [self.parser.print_usage()]. *)
Context (version_file_path module_name pyproject_toml_path usage : string).

Local Abbreviation get_current_version := (get_current_version module_name).
Local Abbreviation get_version_from_pyproject_toml :=
  (get_version_from_pyproject_toml pyproject_toml_path).

Definition verify_version (quiet : bool) (version : string) : St State unit :=
  let* current_version := get_current_version in
  if negb (is_version_pep440_compliant current_version)
  then raise (VersionError ("The version " +:+ current_version +:+ " in "
                            +:+ version_file_path
                            +:+ " is not PEP 440 compliant."))
  else
    let* pyproject_version := get_version_from_pyproject_toml in
    if negb (String.eqb pyproject_version current_version)
    then raise (VersionError ("The version " +:+ pyproject_version +:+ " in "
                              +:+ pyproject_toml_path
                              +:+ " doesn't match the current version "
                              +:+ current_version +:+ "."))
    else
      (if negb (String.eqb version "current")
       then
         let provided_version := strip_version version in
         if negb (String.eqb provided_version current_version)
         then raise (VersionError ("Provided version " +:+ provided_version
                                   +:+ " does not match the current version "
                                   +:+ current_version +:+ "."))
         else ret tt
       else ret tt);;
      _print quiet "OK".

Definition print_current_version (quiet : bool) : St State unit :=
  let* current_version := get_current_version in
  _print quiet current_version.

(** [self.parser.print_usage()]: printed whatever [quiet] says. *)
Definition print_usage : St State unit :=
  fun st =>
    (Return tt,
     {| pyproject_toml := pyproject_toml st;
        version_file := version_file st;
        sys_modules := sys_modules st;
        printed := printed st ++ [usage] |}).

(** [run], from the parsed arguments on.  The result [None] stands for the
    return value 0, [Some text] for the text of a caught [VersionError]. *)
Definition run (args : Args) : St State (option string) :=
  if negb (Py.truthy (command args))
  then print_usage;; ret None
  else
    fun st =>
      match pyproject_toml st with
      | None =>
          (Raise (VersionError ("Could not find " +:+ pyproject_toml_path
                                +:+ " file.")), st)
      | Some _ =>
          match
            (if String.eqb (default "" (command args)) "update"
             then update_version safe_version check_develop module_name
                                 pyproject_toml_path (quiet args)
                                 (version args) (develop args) (force args)
             else if String.eqb (default "" (command args)) "show"
             then print_current_version (quiet args)
             else if String.eqb (default "" (command args)) "verify"
             then verify_version (quiet args) (version args)
             else ret tt) st
          with
          | (Return _, st') => (Return None, st')
          | (Raise (VersionError text), st') => (Return (Some text), st')
          | (SysExit code, st') => (SysExit code, st')
          | (Raise e, st') => (Raise e, st')
          end
      end.

End WithHelper.

End VersionCheck.

(** ** pontos/github/api/pull_requests.py *)

Module PullRequests.

(** [FileStatus] of pontos/github/api/helper.py *)
Inductive FileStatus := ADDED | DELETED | MODIFIED | RENAMED.

Definition FileStatus_value (status : FileStatus) : string :=
  match status with
  | ADDED => "added"
  | DELETED => "deleted"
  | MODIFIED => "modified"
  | RENAMED => "renamed"
  end.

(** The values of a [JSON_OBJECT]. *)
Inductive json :=
| JStr (s : string)
| JBool (b : bool)
| JInt (z : Z).

(** [FileStatus(value)]; [None] stands for [ValueError]. *)
Definition FileStatus_of (value : json) : option FileStatus :=
  match value with
  | JStr s =>
      if String.eqb s "added" then Some ADDED
      else if String.eqb s "deleted" then Some DELETED
      else if String.eqb s "modified" then Some MODIFIED
      else if String.eqb s "renamed" then Some RENAMED
      else None
  | _ => None
  end.

(** A [pathlib.Path], as the text it was made from. *)
Inductive Path := PathOf (text : string).

Inductive error :=
| KeyError (key : string)
| TypeError.

Global Instance FileStatus_eq_dec : EqDecision FileStatus.
Proof. solve_decision. Defined.

Global Instance FileStatus_countable : Countable FileStatus.
Proof.
  refine (inj_countable FileStatus_value (fun s => FileStatus_of (JStr s)) _).
  by intros [].
Defined.

(** [file_dict[status].append(path)] on a [defaultdict(list)] *)
Definition append_file (status : FileStatus) (path : Path)
    (file_dict : gmap FileStatus (list Path)) : gmap FileStatus (list Path) :=
  <[status := default [] (file_dict !! status) ++ [path]]> file_dict.

(** The body of the loop of [pull_request_files] over the objects that
    [_request_all] yields. *)
Definition add_file (status_list : list FileStatus)
    (file_dict : gmap FileStatus (list Path)) (f : gmap string json)
  : error + gmap FileStatus (list Path) :=
  match f !! "status" with
  | None => inl (KeyError "status")
  | Some value =>
      match FileStatus_of value with
      | None => inr file_dict                          (* unknown status *)
      | Some status =>
          if bool_decide (status ∈ status_list)
          then
            match f !! "filename" with
            | None => inl (KeyError "filename")
            | Some (JStr filename) =>
                inr (append_file status (PathOf filename) file_dict)
            | Some _ => inl TypeError
            end
          else inr file_dict
      end
  end.

Fixpoint add_files (status_list : list FileStatus)
    (file_dict : gmap FileStatus (list Path)) (data : list (gmap string json))
  : error + gmap FileStatus (list Path) :=
  match data with
  | [] => inr file_dict
  | f :: data' =>
      match add_file status_list file_dict f with
      | inl e => inl e
      | inr file_dict' => add_files status_list file_dict' data'
      end
  end.

Section WithApi.
(** [self._request_all(api, params=params)], as the list of what it
    yields. *)
Context (_request_all : string -> list (string * string) -> list (gmap string json)).

Definition pull_request_files (repo : string) (pull_request : N)
    (status_list : list FileStatus) : error + gmap FileStatus (list Path) :=
  let params := [("per_page", "100")] in
  let api := "/repos/" +:+ repo +:+ "/pulls/" +:+ Py.str pull_request +:+ "/files" in
  let data := _request_all api params in
  add_files status_list ∅ data.

End WithApi.

End PullRequests.

(** ** The world of release.py and sign.py

    The calls of [M] together with those to the GitHub REST API and to the
    file system that [release] and [sign] make.  The class [GitHubRESTApi],
    [changelog.add_skeleton] and [Terminal.download_progress] are
    collaborators; a request to GitHub may fail with an [httpx.HTTPError]. *)

Module Site.

Inductive call :=
| Local (e : event)
| Unlink (path : string)                               (* Path.unlink *)
| CreateRelease (repo tag name body : string)          (* github.create_release *)
| ReleaseExists (repo tag : string)                    (* github.release_exists *)
| DownloadZip (repo tag destination : string)          (* github.download_release_zip *)
| DownloadTarball (repo tag destination : string)      (* github.download_release_tarball *)
| DownloadAssets (repo tag : string)                   (* github.download_release_assets *)
| DownloadProgress (destination : string)              (* terminal.download_progress *)
| UploadAssets (repo tag : string) (files : list (string * string)).
                                                       (* github.upload_release_assets *)

(** The answer to a request: a value, or the text of an [HTTPError]. *)
Inductive http (A : Type) :=
| Answer (a : A)
| HTTPFailure (text : string).
Arguments Answer {A} a.
Arguments HTTPFailure {A} text.

(** What GitHub and the other collaborators answer, from the calls made so
    far. *)
Record GitHub := {
  create_release : list call -> string -> string -> string -> string -> http unit;
  release_exists : list call -> string -> string -> http bool;
  download_release_zip : list call -> string -> string -> string -> http unit;
  download_release_tarball : list call -> string -> string -> string -> http unit;
  (* the destinations of the assets that are yielded, and the failure that
     ends the iteration, if any *)
  download_release_assets : list call -> string -> string -> list string * option string;
  (* the uploaded files that are yielded, and the failure that ends the
     iteration, if any *)
  upload_release_assets :
    list call -> string -> string -> list (string * string) -> list string * option string;
  (* changelog.add_skeleton(markdown, new_version, project_name,
     git_tag_prefix, git_space) *)
  add_skeleton : string -> string -> string -> string -> string -> string;
  (* str(Path(text)) *)
  path_str : string -> string;
  (* str(l) for a list of [str] *)
  list_repr : list string -> string;
}.

Record State := {
  calls : list call;
  site_files : gmap string string;
}.

Inductive failure :=
| Exn (e : exn)
| HTTPError (text : string).

Inductive result (A : Type) :=
| Done (a : A)
| Exit (code : N)
| Fail (e : failure).
Arguments Done {A} a.
Arguments Exit {A} code.
Arguments Fail {A} e.

Definition Job (A : Type) : Type := State -> result A * State.

Definition done {A} (a : A) : Job A := fun s => (Done a, s).

Definition then_ {A B} (j : Job A) (k : A -> Job B) : Job B :=
  fun s =>
    match j s with
    | (Done a, s') => k a s'
    | (Exit c, s') => (Exit c, s')
    | (Fail e, s') => (Fail e, s')
    end.

Declare Scope site_scope.
Delimit Scope site_scope with site.
Notation "'let!' x ':=' j 'in' k" := (then_ j (fun x => k))
  (at level 10, x pattern, j at level 100, k at level 200) : site_scope.
Notation "j ';;;' k" := (then_ j (fun _ => k))
  (at level 100, k at level 200, right associativity) : site_scope.
Local Open Scope site_scope.

Definition fail {A} (e : failure) : Job A := fun s => (Fail e, s).

Definition note (c : call) : Job unit :=
  fun s => (Done tt, {| calls := calls s ++ [c]; site_files := site_files s |}).

Definition get_calls : Job (list call) := fun s => (Done (calls s), s).

(** The calls of [M] among the calls made. *)
Definition local_events (cs : list call) : list event :=
  omap (fun c => match c with Local e => Some e | _ => None end) cs.

(** A computation of [M], run in this world: it sees the calls of [M] made
    so far and the files, and the calls that it adds are recorded. *)
Definition lift {A} (m : M A) : Job A :=
  fun s =>
    let w := {| trace := local_events (calls s); files := site_files s |} in
    let '(r, w') := m w in
    let s' := {| calls := calls s ++ (Local <$> drop (length (trace w)) (trace w'));
                 site_files := files w' |} in
    match r with
    | Return a => (Done a, s')
    | SysExit code => (Exit code, s')
    | Raise e => (Fail (Exn e), s')
    end.

(** A request to GitHub: the call is recorded and answered. *)
Definition request {A} (c : call) (answer : list call -> http A) : Job A :=
  let! cs := get_calls in
  note c;;;
  match answer cs with
  | Answer a => done a
  | HTTPFailure text => fail (HTTPError text)
  end.

(** [Path(path).unlink()] *)
Definition unlink (path : string) : Job unit :=
  note (Unlink path);;;
  fun s =>
    match site_files s !! path with
    | Some _ => (Done tt, {| calls := calls s;
                             site_files := delete path (site_files s) |})
    | None => (Fail (Exn (FileNotFoundError path)), s)
    end.

(** [for x in l: body(x)] *)
Fixpoint each {A} (l : list A) (body : A -> Job unit) : Job unit :=
  match l with
  | [] => done tt
  | x :: l' => body x;;; each l' body
  end.

End Site.

(** ** pontos/release/release.py *)

Module Release.
Import Site.
Local Open Scope site_scope.

Definition RELEASE_TEXT_FILE : string := ".release.md".

(** The fields of [args] that [release] reads. *)
Record Args := {
  project : option string;
  space : string;
  git_signing_key : option string;
  git_remote_name : option string;
  git_tag_prefix : string;
  release_version : option string;
  next_version : option string;
  conventional_commits : bool;
  changelog : option string;
}.

Section WithEnv.
Context (env : Env) (github : GitHub).

(** The statements of [release] between the check of the token and the
    push: what is released, and what comes next. *)
Definition release_setup (args : Args)
  : Job (string * string * string * string * string) :=
  let! project :=
    match project args with
    | Some project => done project
    | None => lift (Helper.get_project_name env "origin")
    end in
  let! git_signing_key :=
    match git_signing_key args with
    | Some key => done key
    | None => lift (Helper.find_signing_key env)
    end in
  let git_remote_name := default "" (git_remote_name args) in
  let! release_version :=
    match release_version args with
    | Some version => done version
    | None => lift (Helper.get_current_version env)
    end in
  let! next_version :=
    match next_version args with
    | Some version => done version
    | None => lift (Helper.get_next_dev_version release_version)
    end in
  done (project, git_signing_key, git_remote_name, release_version, next_version).

(** The statements of [release] after the release is created on GitHub. *)
Definition after_release (args : Args)
    (project git_signing_key git_remote_name release_version next_version : string)
  : Job bool :=
  unlink RELEASE_TEXT_FILE;;;
  let commit_msg :=
    "Automatic adjustments after release" +:+ Py.nl +:+ Py.nl
    +:+ "* Update to version " +:+ next_version +:+ Py.nl in
  (* set to new version add skeleton *)
  let! (changelog_bool, commit_msg) :=
    if negb (conventional_commits args)
    then
      let! change_log_path :=
        if Py.truthy (changelog args)
        then
          let tmp_path := default "" (changelog args) in
          let! is_file := lift (path_exists tmp_path) in
          if is_file then done tmp_path
          else lift (terminal Warning (tmp_path +:+ " is not a file."));;;
               done "CHANGELOG.md"
        else done "CHANGELOG.md" in
      let! markdown := lift (read_text change_log_path) in
      let updated :=
        add_skeleton github markdown release_version project
                     (git_tag_prefix args) (space args) in
      lift (write_text change_log_path updated);;;
      done (true, commit_msg +:+ "* Add empty changelog after " +:+ release_version)
    else done (false, commit_msg) in
  let! (executed, filename) := lift (Helper.update_version env next_version true) in
  if negb executed then done false
  else
    lift (Helper.commit_files env filename commit_msg git_signing_key changelog_bool);;;
    (* pushing the new tag *)
    lift (shell_cmd_runner env ("git push --follow-tags " +:+ git_remote_name));;;
    done true.

Definition release (args : Args) (token : option string) : Job bool :=
  if negb (Py.truthy token)
  then
    lift (terminal Error
            "Token is missing. The GitHub token is required to create a release.");;;
    done false
  else
    let! (project, git_signing_key, git_remote_name, release_version, next_version) :=
      release_setup args in
    lift (terminal Info "Pushing changes");;;
    lift (shell_cmd_runner env ("git push --follow-tags " +:+ git_remote_name));;;
    lift (terminal Info ("Creating release for v" +:+ release_version));;;
    let! changelog_text := lift (read_text RELEASE_TEXT_FILE) in
    let git_version := git_tag_prefix args +:+ release_version in
    let repo := space args +:+ "/" +:+ project in
    let name := project +:+ " " +:+ release_version in
    fun s =>
      match request (CreateRelease repo git_version name changelog_text)
                    (fun cs => create_release github cs repo git_version name
                                              changelog_text) s with
      | (Done _, s') =>
          after_release args project git_signing_key git_remote_name
                        release_version next_version s'
      | (Fail (HTTPError text), s') =>
          (lift (terminal Error text);;; done false) s'
      | (Exit code, s') => (Exit code, s')
      | (Fail e, s') => (Fail e, s')
      end.

End WithEnv.

End Release.

(** ** pontos/release/sign.py *)

Module Sign.
Import Site.
Local Open Scope site_scope.

(** The fields of [args] that [sign] reads. *)
Record Args := {
  project : option string;
  space : string;
  git_tag_prefix : string;
  release_version : option string;
  signing_key : option string;
  passphrase : option string;
  dry_run : bool;
}.

Section WithEnv.
Context (env : Env) (github : GitHub).

(** An f-string field: [None] prints as its name. *)
Definition fmt (o : option string) : string := default "None" o.

(** The command that signs one file. *)
Definition gpg (args : Args) (file_path : string) : string :=
  if Py.truthy (passphrase args)
  then "gpg --pinentry-mode loopback --default-key " +:+ fmt (signing_key args)
       +:+ " --yes --detach-sign --passphrase " +:+ fmt (passphrase args)
       +:+ " --armor " +:+ file_path
  else "gpg --default-key " +:+ fmt (signing_key args)
       +:+ " --yes --detach-sign --armor " +:+ file_path.

(** The loop over [github.download_release_assets(repo, git_version)]: the
    destinations of the assets, in the order in which they were yielded. *)
Definition download_assets (repo git_version : string) : Job (list string) :=
  let! cs := get_calls in
  note (DownloadAssets repo git_version);;;
  let '(destinations, failure) := download_release_assets github cs repo git_version in
  each destinations (fun destination => note (DownloadProgress destination));;;
  match failure with
  | Some text => fail (HTTPError text)
  | None => done destinations
  end.

(** The loop over [github.upload_release_assets(...)], inside [try]. *)
Definition upload (repo git_version : string) (upload_files : list (string * string))
  : Job bool :=
  let! cs := get_calls in
  note (UploadAssets repo git_version upload_files);;;
  let '(uploaded, failure) :=
    upload_release_assets github cs repo git_version upload_files in
  each uploaded (fun uploaded_file =>
                   lift (terminal Ok ("Uploaded: " +:+ uploaded_file)));;;
  match failure with
  | Some text =>
      lift (terminal Error ("Failed uploading asset " +:+ text));;; done false
  | None => done true
  end.

Definition sign (args : Args) (token : option string) : Job bool :=
  if negb (Py.truthy token) && negb (dry_run args)
  then
    lift (terminal Error
            "Token is missing. The GitHub token is required to upload signature files.");;;
    done false
  else
    let! project :=
      match project args with
      | Some project => done project
      | None => lift (Helper.get_project_name env "origin")
      end in
    let! release_version :=
      match release_version args with
      | Some version => done version
      | None => lift (Helper.get_current_version env)
      end in
    let git_version := git_tag_prefix args +:+ release_version in
    let repo := space args +:+ "/" +:+ project in
    let! exists_ :=
      request (ReleaseExists repo git_version)
              (fun cs => release_exists github cs repo git_version) in
    if negb exists_
    then
      lift (terminal Error ("Release version " +:+ git_version +:+ " does not exist."));;;
      done false
    else
      let zip_destination :=
        path_str github (project +:+ "-" +:+ release_version +:+ ".zip") in
      request (DownloadZip repo git_version zip_destination)
              (fun cs => download_release_zip github cs repo git_version
                                              zip_destination);;;
      note (DownloadProgress zip_destination);;;
      let tarball_destination :=
        path_str github (project +:+ "-" +:+ release_version +:+ ".tar.gz") in
      request (DownloadTarball repo git_version tarball_destination)
              (fun cs => download_release_tarball github cs repo git_version
                                                  tarball_destination);;;
      note (DownloadProgress tarball_destination);;;
      let! assets := download_assets repo git_version in
      let file_paths := [zip_destination; tarball_destination] ++ assets in
      each file_paths
           (fun file_path =>
              lift (terminal Info ("Signing " +:+ file_path));;;
              lift (shell_cmd_runner env (gpg args file_path));;;
              done tt);;;
      if dry_run args then done true
      else
        let upload_files :=
          (fun p => (path_str github (p +:+ ".asc"), "application/pgp-signature"))
            <$> file_paths in
        lift (terminal Info ("Uploading assets: "
                             +:+ list_repr github (fst <$> upload_files)));;;
        upload repo git_version upload_files.

End WithEnv.

End Sign.

(** ** More concrete inputs *)

Module Examples2.

(** The setting of tests/release/test_release.py: every shell command
    succeeds, [version.main] answers [(True, "MyProject.conf")]. *)
Definition env : Env := {|
  today_year := 2022;
  today_month := 5;
  today_iso := "2022-05-17";
  shell_result := fun _ _ => (0, "");
  list_tags := fun _ => [];
  version_of := fun _ _ => "0.0.1";
  version_main := fun _ _ => (true, "MyProject.conf");
  built_changelog := fun _ output => Some (output, Changelog.header);
  changelog_update := fun _ _ _ _ => ("updated", "changelog");
|}.

(** [str(l)] for a list of texts that hold no quote, no backslash and
    only printable characters. *)
Definition list_repr (l : list string) : string :=
  "[" +:+ Py.join ", " ((fun text => "'" +:+ text +:+ "'") <$> l) +:+ "]".

Definition github (created : Site.http unit) : Site.GitHub := {|
  Site.create_release := fun _ _ _ _ _ => created;
  Site.release_exists := fun _ _ _ => Site.Answer true;
  Site.download_release_zip := fun _ _ _ _ => Site.Answer tt;
  Site.download_release_tarball := fun _ _ _ _ => Site.Answer tt;
  Site.download_release_assets := fun _ _ _ => (["foo.deb"], None);
  Site.upload_release_assets := fun _ _ _ files => (fst <$> files, None);
  Site.add_skeleton := fun markdown _ _ _ _ => "## [Unreleased]" +:+ Py.nl +:+ markdown;
  Site.path_str := fun text => text;
  Site.list_repr := list_repr;
|}.

(** A machine on which gpg fails. *)
Definition env_without_gpg : Env := {|
  today_year := 2022;
  today_month := 5;
  today_iso := "2022-05-17";
  shell_result := fun _ cmd => if Py.startswith "gpg " cmd then (2, "") else (0, "");
  list_tags := fun _ => [];
  version_of := fun _ _ => "0.0.1";
  version_main := fun _ _ => (true, "MyProject.conf");
  built_changelog := fun _ output => Some (output, Changelog.header);
  changelog_update := fun _ _ _ _ => ("updated", "changelog");
|}.

(** GitHub without the release that is asked for. *)
Definition github_without_release : Site.GitHub := {|
  Site.create_release := fun _ _ _ _ _ => Site.Answer tt;
  Site.release_exists := fun _ _ _ => Site.Answer false;
  Site.download_release_zip := fun _ _ _ _ => Site.HTTPFailure "Not Found";
  Site.download_release_tarball := fun _ _ _ _ => Site.HTTPFailure "Not Found";
  Site.download_release_assets := fun _ _ _ => ([], Some "Not Found");
  Site.upload_release_assets := fun _ _ _ _ => ([], Some "Not Found");
  Site.add_skeleton := fun markdown _ _ _ _ => "## [Unreleased]" +:+ Py.nl +:+ markdown;
  Site.path_str := fun text => text;
  Site.list_repr := list_repr;
|}.

Definition site : Site.State := {|
  Site.calls := [];
  Site.site_files := {[ ".release.md" := "notes"; "CHANGELOG.md" := "# Changelog" ]};
|}.

Definition release_args : Release.Args := {|
  Release.project := Some "foo";
  Release.space := "greenbone";
  Release.git_signing_key := Some "1234";
  Release.git_remote_name := Some "upstream";
  Release.git_tag_prefix := "v";
  Release.release_version := Some "0.0.1";
  Release.next_version := Some "0.0.2.dev1";
  Release.conventional_commits := false;
  Release.changelog := None;
|}.

Definition sign_args (dry_run : bool) : Sign.Args := {|
  Sign.project := Some "foo";
  Sign.space := "greenbone";
  Sign.git_tag_prefix := "v";
  Sign.release_version := Some "0.0.1";
  Sign.signing_key := Some "1234";
  Sign.passphrase := None;
  Sign.dry_run := dry_run;
|}.

Definition pull_request_data : list (gmap string PullRequests.json) :=
  [ {[ "status" := PullRequests.JStr "added"; "filename" := PullRequests.JStr "a.py" ]};
    {[ "status" := PullRequests.JStr "copied" ]};
    {[ "status" := PullRequests.JStr "modified"; "filename" := PullRequests.JStr "b.py" ]};
    {[ "status" := PullRequests.JStr "added"; "filename" := PullRequests.JStr "c.py" ]};
    {[ "status" := PullRequests.JStr "deleted"; "filename" := PullRequests.JStr "d.py" ]} ].

(** A project in which every shell command succeeds; [version.main]
    answers [executed], and [changelog.update] finds [updated]. *)
Definition prepare_env (executed : bool) (updated : string) : Env := {|
  today_year := 2022;
  today_month := 5;
  today_iso := "2022-05-17";
  shell_result := fun _ _ => (0, "");
  list_tags := fun _ => ["v0.9.0"];
  version_of := fun _ _ => "1.0.0.dev1";
  version_main := fun _ _ => (executed, "pyproject.toml");
  built_changelog := fun _ output => Some (output, Changelog.header);
  changelog_update := fun _ _ _ _ => (updated, "## [1.0.0] - 2022-05-17");
|}.

Definition prepare_args : Prepare.Args :=
  {| Prepare.git_tag_prefix := "v";
     Prepare.git_signing_key := Some "";
     Prepare.project := Some "project";
     Prepare.space := "space";
     Prepare.calendar := false;
     Prepare.patch := false;
     Prepare.release_version := "1.0.0";
     Prepare.conventional_commits := false;
     Prepare.cc_config := "changelog.toml";
     Prepare.changelog := None |}.

(** [is_version_pep440_compliant]: the version is its own safe form. *)
Definition is_version_pep440_compliant (version : string) : bool :=
  String.eqb version (Examples.safe_version version).

(** A repository whose last tag is v1.0.0, with two commits since then;
    listing the tags ends with the return code [tag_code]. *)
Definition git_env (tag_code : N) : Env := {|
  today_year := 2022;
  today_month := 5;
  today_iso := "2022-05-17";
  shell_result := fun _ cmd =>
    if String.eqb cmd "git tag | sort -V | tail -1"
    then (tag_code, "v1.0.0" +:+ Py.nl)
    else (0, "abc1234 added: fixed the thing" +:+ Py.nl
             +:+ "def5678 update the readme" +:+ Py.nl);
  list_tags := fun _ => ["v1.0.0"];
  version_of := fun _ _ => "1.0.1.dev1";
  version_main := fun _ _ => (true, "pyproject.toml");
  built_changelog := fun _ output => Some (output, Changelog.header);
  changelog_update := fun _ _ _ _ => ("updated", "changelog");
|}.

End Examples2.

(** ** More notions used in the statements *)

Module Spec2.
Import Site.

(** The character [c] occurs in [s]. *)
Fixpoint has_char (c : ascii) (s : string) : bool :=
  match s with
  | "" => false
  | String d s' => Ascii.eqb d c || has_char c s'
  end.

(** [s] neither starts nor ends with whitespace. *)
Definition trimmed (s : string) : Prop := Py.strip s = s.

(** [needle] occurs in [hay]. *)
Definition contains (needle hay : string) : Prop :=
  ∃ pre post, hay = pre +:+ needle +:+ post.

(** A computation that leaves the files as they are, however it ends. *)
Definition keeps_files {A} (m : M A) : Prop :=
  ∀ w, files (m w).2 = files w.

(** A computation that only adds to the trace, however it ends. *)
Definition appends {A} (m : M A) : Prop :=
  ∀ w, ∃ evs, trace (m w).2 = trace w ++ evs.

(** The state [s] after the calls [cs]. *)
Definition after (s : State) (cs : list call) : State :=
  {| calls := calls s ++ cs; site_files := site_files s |}.

(** A job all of whose calls satisfy [P], however it ends. *)
Definition only (P : call → Prop) {A} (j : Job A) : Prop :=
  ∀ s, ∃ cs, calls (j s).2 = calls s ++ cs ∧ Forall P cs.

(** The calls that neither change the repository, a file or GitHub: the
    calls of [M] that do not, and the question whether a release exists. *)
Definition harmless (c : call) : Prop :=
  match c with
  | Local e => Spec.mutates e = false
  | ReleaseExists _ _ => True
  | _ => False
  end.

Definition is_upload (c : call) : Prop :=
  match c with
  | UploadAssets _ _ _ => True
  | _ => False
  end.

(** A job all of whose calls satisfy [P], that leaves the files as they
    are however it ends, and whose result, when it returns one, satisfies
    [Q]. *)
Definition confined (P : call → Prop) {A} (Q : A → Prop) (j : Job A) : Prop :=
  ∀ s, ∃ cs, (j s).2 = after s cs ∧ Forall P cs ∧ ∀ a, (j s).1 = Done a → Q a.

Definition is_push (c : call) : Prop :=
  ∃ remote, c = Local (Shell ("git push --follow-tags " +:+ remote)).

Definition is_create (c : call) : Prop :=
  match c with
  | CreateRelease _ _ _ _ => True
  | _ => False
  end.

(** The world of [M] that a job sees in the state [s]. *)
Definition world_of (s : State) : World :=
  {| trace := local_events (calls s); files := site_files s |}.

(** The files of a pull request that have the status [status], in the
    order of the data. *)
Definition files_with (status : PullRequests.FileStatus)
    (data : list (gmap string PullRequests.json)) : list PullRequests.Path :=
  omap (fun f : gmap string PullRequests.json =>
          match f !! "status", f !! "filename" with
          | Some (PullRequests.JStr s), Some (PullRequests.JStr filename) =>
              if String.eqb s (PullRequests.FileStatus_value status)
              then Some (PullRequests.PathOf filename)
              else None
          | _, _ => None
          end) data.

(** An object with a status and a file name, both texts. *)
Definition file_object (f : gmap string PullRequests.json) : Prop :=
  ∃ s filename,
    f !! "status" = Some (PullRequests.JStr s)
    ∧ f !! "filename" = Some (PullRequests.JStr filename).

End Spec2.

(** * Properties *)

Example split1_line : Py.split1 "abc1234 added: fixed the thing"
                      = ("abc1234", Some "added: fixed the thing").
Proof. reflexivity. Qed.

Example split1_no_blank : Py.split1 "abc1234" = ("abc1234", None).
Proof. reflexivity. Qed.

Example strip_both : Py.strip "  fixed the  thing " = "fixed the  thing".
Proof. reflexivity. Qed.

Example remove_all : Py.remove "fix:" "fix: fix: it" = "  it".
Proof. reflexivity. Qed.

Example str_int : Py.str 2022 = "2022" /\ Py.int "007" = Some 7 /\ Py.int "" = None.
Proof. repeat split; reflexivity. Qed.

Example match_added :
  Re.match_ (Changelog.reg Examples.added) "added: fixed the thing" = Some "added:".
Proof. reflexivity. Qed.

(** The expectations of tests/release/test_helper.py. *)

Example parse_spellings :
  Version.to_string <$> Version.parse "22.5.1.dev" = Some "22.5.1.dev0"
  ∧ Version.to_string <$> Version.parse "22.5.1dev3" = Some "22.5.1.dev3"
  ∧ Version.to_string <$> Version.parse " V22.5.1 " = Some "22.5.1"
  ∧ Version.to_string <$> Version.parse "1.0-ALPHA_2" = Some "1.0a2"
  ∧ Version.to_string <$> Version.parse "1.0preview" = Some "1.0rc0"
  ∧ Version.to_string <$> Version.parse "1.0-1" = Some "1.0.post1"
  ∧ Version.to_string <$> Version.parse "1.0a-1" = Some "1.0a1"
  ∧ Version.to_string <$> Version.parse "1.0rev.dev" = Some "1.0.post0.dev0"
  ∧ Version.to_string <$> Version.parse "2!01.002+Ubuntu-007_x" = Some "2!1.2+ubuntu.7.x"
  ∧ Version.parse "1.0..dev" = None
  ∧ Version.parse "1.0 .dev" = None
  ∧ Version.parse "1.0+" = None
  ∧ Version.dev <$> Version.parse "22.5.1.dev" = Some (Some 0)
  ∧ Version.dev <$> Version.parse "22.5.1rc1" = Some None.
Proof. repeat split; reflexivity. Qed.

Example test_get_next_dev_version :
  (Helper.get_next_dev_version "20.4.1" Examples.world).1 = Return "20.4.2"
  ∧ (Helper.get_next_dev_version "19.1.2" Examples.world).1 = Return "19.1.3"
  ∧ (Helper.get_next_dev_version "1.1.1" Examples.world).1 = Return "1.1.2"
  ∧ (Helper.get_next_dev_version "20.6.1" Examples.world).1 = Return "20.6.2".
Proof. repeat split; reflexivity. Qed.

Example test_get_last_release_version :
  (Helper.get_last_release_version (Examples.env_of "" ["1"; "2"; "3.55"])
     Examples.world).1 = Return (Some "3.55")
  ∧ (Helper.get_last_release_version (Examples.env_of "" []) Examples.world).1
    = Return None.
Proof. split; reflexivity. Qed.

Example test_get_project_name :
  (Helper.get_project_name (Examples.env_of "" []) "origin" Examples.world).1
  = Return "project".
Proof. reflexivity. Qed.

Example test_calculate_calendar_versions :
  (Helper.calculate_calendar_version (Examples.env_of "21.4.1.dev3" [])
     Examples.world).1 = Return "22.5.0"
  ∧ (Helper.calculate_calendar_version (Examples.env_of "19.5.1.dev3" [])
       Examples.world).1 = Return "22.5.0"
  ∧ (Helper.calculate_calendar_version (Examples.env_of "22.5.1.dev3" [])
       Examples.world).1 = Return "22.5.1"
  ∧ (Helper.calculate_calendar_version (Examples.env_of "22.5.1" [])
       Examples.world).1 = Return "22.5.2".
Proof. repeat split; reflexivity. Qed.

Example test_get_next_patch_version :
  (Helper.get_next_patch_version (Examples.env_of "20.4.1.dev3" [])
     Examples.world).1 = Return "20.4.1"
  ∧ (Helper.get_next_patch_version (Examples.env_of "22.4.1.dev3" [])
       Examples.world).1 = Return "22.4.1"
  ∧ (Helper.get_next_patch_version (Examples.env_of "19.5.1.dev3" [])
       Examples.world).1 = Return "19.5.1"
  ∧ (Helper.get_next_patch_version (Examples.env_of "22.5.1" [])
       Examples.world).1 = Return "22.5.2"
  ∧ (Helper.get_next_patch_version (Examples.env_of "20.6.1" [])
       Examples.world).1 = Return "20.6.2".
Proof. repeat split; reflexivity. Qed.

(** ** Text and numbers *)

Lemma append_cons c s t : String c s +:+ t = String c (s +:+ t).
Proof. reflexivity. Qed.

Lemma append_nil_r s : s +:+ "" = s.
Proof. induction s as [|c s IH]; [done|]. by rewrite append_cons, IH. Qed.

Lemma append_assoc s t u : (s +:+ t) +:+ u = s +:+ t +:+ u.
Proof. induction s as [|c s IH]; [done|]. by rewrite !append_cons, IH. Qed.

Lemma isdigit_not_dot c : Py.isdigit c = true → Ascii.eqb c "." = false.
Proof. by destruct c as [[] [] [] [] [] [] [] []]. Qed.

Lemma all_digits_uint d : Py.all_digits (NilEmpty.string_of_uint d) = true.
Proof. induction d; simpl; auto. Qed.

Lemma all_digits_str n : Py.all_digits (Py.str n) = true.
Proof. apply all_digits_uint. Qed.

Lemma str_nonempty n : Py.str n ≠ "".
Proof.
  unfold Py.str. destruct n as [|p]; [done|]. simpl.
  pose proof (DecimalPos.Unsigned.to_uint_nonnil p) as Hp.
  by destruct (Pos.to_uint p).
Qed.

Lemma int_str n : Py.int (Py.str n) = Some n.
Proof.
  unfold Py.int. pose proof (str_nonempty n) as Hne.
  destruct (Py.str n) as [|c s] eqn:E; [done|]. rewrite <- E.
  rewrite all_digits_str. unfold Py.str. rewrite NilEmpty.usu. simpl.
  f_equal. apply DecimalN.Unsigned.of_to.
Qed.

(** *** Reading a version made of numbers *)

Lemma isdigit_plain c :
  Py.isdigit c = true →
  Py.isspace c = false ∧ Py.tolower c = c ∧ Ascii.eqb c "v" = false.
Proof. by destruct c as [[] [] [] [] [] [] [] []]. Qed.

Lemma lower_app s t : Py.lower (s +:+ t) = Py.lower s +:+ Py.lower t.
Proof. induction s as [|c s IH]; [done|]. simpl. by rewrite IH. Qed.

Lemma lower_digits s : Py.all_digits s = true → Py.lower s = s.
Proof.
  induction s as [|c s IH]; [done|]. simpl. intros [Hc Hs]%andb_prop.
  destruct (isdigit_plain c Hc) as (_ & -> & _). by rewrite (IH Hs).
Qed.

Lemma rstrip_digits s : Py.all_digits s = true → Py.rstrip s = s.
Proof.
  induction s as [|c s IH]; [done|]. simpl. intros [Hc Hs]%andb_prop.
  rewrite (IH Hs). destruct (isdigit_plain c Hc) as (-> & _ & _).
  by destruct s.
Qed.

Lemma rstrip_app s t : Py.rstrip t ≠ "" → Py.rstrip (s +:+ t) = s +:+ Py.rstrip t.
Proof.
  intros Ht. induction s as [|c s IH]; [done|]. simpl. rewrite IH.
  change (String c s +:+ Py.rstrip t) with (String c (s +:+ Py.rstrip t)).
  destruct (s +:+ Py.rstrip t) eqn:E; [|done].
  destruct s; simpl in E; [by destruct Ht|done].
Qed.

Lemma rstrip_keep s t :
  Py.rstrip t = t → t ≠ "" → Py.rstrip (s +:+ t) = s +:+ t ∧ s +:+ t ≠ "".
Proof.
  intros Ht Hne. split; [|by destruct s, t].
  rewrite rstrip_app; by rewrite Ht.
Qed.

Lemma digits_app ds c r :
  Py.all_digits ds = true → Py.isdigit c = false →
  Version.digits (ds +:+ String c r) = (ds, String c r).
Proof.
  intros Hds Hc. induction ds as [|d ds IH]; simpl.
  - by rewrite Hc.
  - apply andb_prop in Hds as [Hd Hds]. by rewrite Hd, (IH Hds).
Qed.

Lemma numbers_digits cur ds r :
  Py.all_digits ds = true →
  Version.numbers cur (ds +:+ r) = Version.numbers (cur +:+ ds) r.
Proof.
  revert cur. induction ds as [|d ds IH]; intros cur Hds.
  - by rewrite append_nil_r.
  - apply andb_prop in Hds as [Hd Hds]. simpl. rewrite Hd, (IH _ Hds).
    by rewrite append_assoc.
Qed.

Lemma numbers_next cur ds r :
  ds ≠ "" → Py.all_digits ds = true →
  Version.numbers cur ("." +:+ ds +:+ r)
  = let '(ns, r') := Version.numbers ds r in (cur :: ns, r').
Proof.
  intros Hne Hds. destruct ds as [|d ds]; [done|].
  apply andb_prop in Hds as [Hd Hds].
  simpl. rewrite Hd. by rewrite (numbers_digits _ _ _ Hds).
Qed.

Lemma release_of_digits ds r :
  ds ≠ "" → Py.all_digits ds = true →
  Version.release_of (ds +:+ r)
  = let '(ns, r') := Version.numbers ds r in Some (Version.number <$> ns, r').
Proof.
  intros Hne Hds. destruct ds as [|d ds]; [done|].
  apply andb_prop in Hds as [Hd Hds].
  simpl. rewrite Hd. by rewrite (numbers_digits _ _ _ Hds).
Qed.

Lemma number_str n : Version.number (Py.str n) = n.
Proof. unfold Version.number. by rewrite int_str. Qed.

(** A version text made of three numbers is read back as these numbers, and
    printed as the same text. *)
Lemma parse_three a b c :
  Version.parse (Py.str a +:+ "." +:+ Py.str b +:+ "." +:+ Py.str c)
  = Some {| Version.epoch := 0; Version.release := [a; b; c];
            Version.pre := None; Version.post := None; Version.dev := None;
            Version.local := None |}.
Proof.
  unfold Version.parse.
  pose proof (all_digits_str a) as Ha. pose proof (all_digits_str b) as Hb.
  pose proof (all_digits_str c) as Hc.
  pose proof (str_nonempty a) as Hna. pose proof (str_nonempty b) as Hnb.
  pose proof (str_nonempty c) as Hnc.
  assert (Py.strip (Py.str a +:+ "." +:+ Py.str b +:+ "." +:+ Py.str c)
          = Py.str a +:+ "." +:+ Py.str b +:+ "." +:+ Py.str c) as ->.
  { unfold Py.strip.
    assert (Py.lstrip (Py.str a +:+ "." +:+ Py.str b +:+ "." +:+ Py.str c)
            = Py.str a +:+ "." +:+ Py.str b +:+ "." +:+ Py.str c) as ->.
    { destruct (Py.str a) as [|d ds]; [done|].
      apply andb_prop in Ha as [Hd _]. simpl.
      by destruct (isdigit_plain d Hd) as (-> & _ & _). }
    destruct (rstrip_keep "." _ (rstrip_digits _ Hc) Hnc) as [H1 Hn1].
    destruct (rstrip_keep (Py.str b) _ H1 Hn1) as [H2 Hn2].
    destruct (rstrip_keep "." _ H2 Hn2) as [H3 Hn3].
    by destruct (rstrip_keep (Py.str a) _ H3 Hn3) as [H4 _]. }
  rewrite !lower_app, (lower_digits _ Ha), (lower_digits _ Hb), (lower_digits _ Hc).
  change (Py.lower ".") with ".".
  assert (match Py.str a +:+ "." +:+ Py.str b +:+ "." +:+ Py.str c with
          | String "v" s' => s'
          | _ => Py.str a +:+ "." +:+ Py.str b +:+ "." +:+ Py.str c
          end = Py.str a +:+ "." +:+ Py.str b +:+ "." +:+ Py.str c) as ->.
  { destruct (Py.str a) as [|d ds]; [done|].
    apply andb_prop in Ha as [Hd _].
    destruct (isdigit_plain d Hd) as (_ & _ & Hv).
    rewrite append_cons. by destruct d as [[] [] [] [] [] [] [] []]. }
  assert (Version.epoch_of (Py.str a +:+ "." +:+ Py.str b +:+ "." +:+ Py.str c)
          = (0, Py.str a +:+ "." +:+ Py.str b +:+ "." +:+ Py.str c)) as ->.
  { unfold Version.epoch_of.
    replace (Version.digits (Py.str a +:+ "." +:+ Py.str b +:+ "." +:+ Py.str c))
      with (Py.str a, "." +:+ Py.str b +:+ "." +:+ Py.str c)
      by (symmetry; apply (digits_app (Py.str a) "." _ Ha eq_refl)).
    by destruct (Py.str a). }
  rewrite release_of_digits by done.
  rewrite (numbers_next (Py.str a) (Py.str b) ("." +:+ Py.str c) Hnb Hb).
  rewrite <- (append_nil_r (Py.str c)) at 1.
  rewrite (numbers_next (Py.str b) (Py.str c) "" Hnc Hc).
  destruct (Py.str c) as [|d ds] eqn:E; [done|]. rewrite <- E.
  assert (Version.numbers (Py.str c) "" = ([Py.str c], "")) as ->.
  { by destruct (Py.str c). }
  simpl. by rewrite !number_str.
Qed.

Lemma to_string_three a b c :
  Version.to_string
    {| Version.epoch := 0; Version.release := [a; b; c];
       Version.pre := None; Version.post := None; Version.dev := None;
       Version.local := None |}
  = Py.str a +:+ "." +:+ Py.str b +:+ "." +:+ Py.str c.
Proof.
  unfold Version.to_string. simpl. by rewrite !append_nil_r.
Qed.

Lemma Version_three a b c (w : World) :
  (let* v := Helper.Version_ (Py.str a +:+ "." +:+ Py.str b +:+ "." +:+ Py.str c) in
   ret (Version.to_string v)) w
  = (Return (Py.str a +:+ "." +:+ Py.str b +:+ "." +:+ Py.str c), w).
Proof.
  unfold bind, Helper.Version_. rewrite parse_three.
  unfold ret. by rewrite to_string_three.
Qed.

(** ** The version calculators of pontos/release/helper.py *)

(** [calculate_calendar_version], once the current version is read. *)
Lemma calculate_calendar_version_read env w s w1 :
  Helper.get_current_version env w = (Return s, w1) →
  Helper.calculate_calendar_version env w
  = (let* current_version := Helper.Version_ s in
     let year := today_year env mod 100 in
     let month := today_month env in
     if (Version.major current_version <? year)
        || (Version.minor current_version <? month)
     then
       let* release_version :=
         Helper.Version_ (Py.str year +:+ "." +:+ Py.str month +:+ ".0") in
       ret (Version.to_string release_version)
     else if (Version.major current_version =? year)
             && (Version.minor current_version =? month)
     then
       let* release_version :=
         match Version.dev current_version with
         | None =>
             Helper.Version_ (Py.str year +:+ "." +:+ Py.str month +:+ "."
                              +:+ Py.str (Version.micro current_version + 1))
         | Some _ =>
             Helper.Version_ (Py.str year +:+ "." +:+ Py.str month +:+ "."
                              +:+ Py.str (Version.micro current_version))
         end in
       ret (Version.to_string release_version)
     else
       terminal Error ("'" +:+ Version.to_string current_version
                       +:+ "' is higher than '"
                       +:+ Py.str year +:+ "." +:+ Py.str month +:+ "'.");;
       sys_exit 1) w1.
Proof.
  intros Hcur. unfold Helper.calculate_calendar_version.
  unfold bind at 1. by rewrite Hcur.
Qed.

Lemma current_version_fst {env w s} :
  (Helper.get_current_version env w).1 = Return s →
  ∃ w1, Helper.get_current_version env w = (Return s, w1).
Proof. destruct (Helper.get_current_version env w) as [o w1]. simpl. intros ->. eauto. Qed.

(** C5.  When the current version's (major, minor) is below today's
    (YY, MM), major compared before minor, [calculate_calendar_version]
    returns the text YY.MM.0. *)
Theorem calendar_version_behind env w s v :
  (Helper.get_current_version env w).1 = Return s →
  Version.parse s = Some v →
  (Version.major v < today_year env mod 100
   ∨ Version.major v = today_year env mod 100
     ∧ Version.minor v < today_month env) →
  (Helper.calculate_calendar_version env w).1
  = Return (Py.str (today_year env mod 100) +:+ "."
            +:+ Py.str (today_month env) +:+ ".0").
Proof.
  intros [w1 Hcur]%current_version_fst Hparse Hlt.
  rewrite (calculate_calendar_version_read _ _ _ _ Hcur).
  unfold bind at 1. unfold Helper.Version_ at 1. rewrite Hparse. simpl.
  replace ((Version.major v <? today_year env mod 100)
           || (Version.minor v <? today_month env)) with true.
  - change ".0" with ("." +:+ Py.str 0). by rewrite Version_three.
  - symmetry. apply orb_true_iff.
    destruct Hlt as [?|[_ ?]]; [left|right]; by apply N.ltb_lt.
Qed.

(** C4.  When the current version's (major, minor) is today's (YY, MM),
    [calculate_calendar_version] returns YY.MM.micro for a version with a
    dev marker and YY.MM.(micro+1) for a final release. *)
Theorem calendar_version_same_month env w s v :
  (Helper.get_current_version env w).1 = Return s →
  Version.parse s = Some v →
  Version.major v = today_year env mod 100 →
  Version.minor v = today_month env →
  (Helper.calculate_calendar_version env w).1
  = Return (Py.str (today_year env mod 100) +:+ "."
            +:+ Py.str (today_month env) +:+ "."
            +:+ Py.str (match Version.dev v with
                        | Some _ => Version.micro v
                        | None => Version.micro v + 1
                        end)).
Proof.
  intros [w1 Hcur]%current_version_fst Hparse Hmajor Hminor.
  rewrite (calculate_calendar_version_read _ _ _ _ Hcur).
  unfold bind at 1. unfold Helper.Version_ at 1. rewrite Hparse. simpl.
  rewrite Hmajor, Hminor, !N.ltb_irrefl, !N.eqb_refl. simpl.
  destruct (Version.dev v); by rewrite Version_three.
Qed.

(** C8.  [get_next_patch_version] returns major.minor.micro, without the
    dev marker, for a version that has one, and major.minor.(micro+1) for a
    version that has none. *)
Theorem next_patch_version env w s v :
  (Helper.get_current_version env w).1 = Return s →
  Version.parse s = Some v →
  (Helper.get_next_patch_version env w).1
  = Return (Py.str (Version.major v) +:+ "."
            +:+ Py.str (Version.minor v) +:+ "."
            +:+ Py.str (match Version.dev v with
                        | Some _ => Version.micro v
                        | None => Version.micro v + 1
                        end)).
Proof.
  intros [w1 Hcur]%current_version_fst Hparse.
  unfold Helper.get_next_patch_version. unfold bind at 1. rewrite Hcur.
  unfold bind at 1. unfold Helper.Version_ at 1. rewrite Hparse. simpl.
  destruct (Version.dev v); by rewrite Version_three.
Qed.

Lemma calendar_version_behind_witness :
  (Helper.calculate_calendar_version
     (Examples.env_of "21.4.1.dev3" []) Examples.world).1
  = Return "22.5.0"
  ∧ (Helper.calculate_calendar_version
       (Examples.env_of "v21.12.0rc1" []) Examples.world).1
    = Return "22.5.0".
Proof.
  split.
  - apply (calendar_version_behind (Examples.env_of "21.4.1.dev3" [])
             Examples.world "21.4.1.dev3"
             {| Version.epoch := 0; Version.release := [21; 4; 1];
                Version.pre := None; Version.post := None;
                Version.dev := Some 3; Version.local := None |}).
    + reflexivity.
    + reflexivity.
    + left. reflexivity.
  - apply (calendar_version_behind (Examples.env_of "v21.12.0rc1" [])
             Examples.world "v21.12.0rc1"
             {| Version.epoch := 0; Version.release := [21; 12; 0];
                Version.pre := Some ("rc", 1); Version.post := None;
                Version.dev := None; Version.local := None |}).
    + reflexivity.
    + reflexivity.
    + left. reflexivity.
Defined.

Lemma calendar_version_same_month_witness :
  (Helper.calculate_calendar_version
     (Examples.env_of "22.5.1.dev3" []) Examples.world).1
  = Return "22.5.1"
  ∧ (Helper.calculate_calendar_version
       (Examples.env_of "22.5.1.dev" []) Examples.world).1
    = Return "22.5.1"
  ∧ (Helper.calculate_calendar_version
       (Examples.env_of "22.5.1" []) Examples.world).1
    = Return "22.5.2".
Proof.
  split; [|split].
  - apply (calendar_version_same_month (Examples.env_of "22.5.1.dev3" [])
             Examples.world "22.5.1.dev3"
             {| Version.epoch := 0; Version.release := [22; 5; 1];
                Version.pre := None; Version.post := None;
                Version.dev := Some 3; Version.local := None |});
      reflexivity.
  - apply (calendar_version_same_month (Examples.env_of "22.5.1.dev" [])
             Examples.world "22.5.1.dev"
             {| Version.epoch := 0; Version.release := [22; 5; 1];
                Version.pre := None; Version.post := None;
                Version.dev := Some 0; Version.local := None |});
      reflexivity.
  - apply (calendar_version_same_month (Examples.env_of "22.5.1" [])
             Examples.world "22.5.1"
             {| Version.epoch := 0; Version.release := [22; 5; 1];
                Version.pre := None; Version.post := None;
                Version.dev := None; Version.local := None |});
      reflexivity.
Defined.

Lemma next_patch_version_witness :
  (Helper.get_next_patch_version
     (Examples.env_of "20.4.1.dev3" []) Examples.world).1
  = Return "20.4.1"
  ∧ (Helper.get_next_patch_version
       (Examples.env_of "20.4.1dev3" []) Examples.world).1
    = Return "20.4.1"
  ∧ (Helper.get_next_patch_version
       (Examples.env_of "20.6.1" []) Examples.world).1
    = Return "20.6.2".
Proof.
  split; [|split].
  - apply (next_patch_version (Examples.env_of "20.4.1.dev3" [])
             Examples.world "20.4.1.dev3"
             {| Version.epoch := 0; Version.release := [20; 4; 1];
                Version.pre := None; Version.post := None;
                Version.dev := Some 3; Version.local := None |});
      reflexivity.
  - apply (next_patch_version (Examples.env_of "20.4.1dev3" [])
             Examples.world "20.4.1dev3"
             {| Version.epoch := 0; Version.release := [20; 4; 1];
                Version.pre := None; Version.post := None;
                Version.dev := Some 3; Version.local := None |});
      reflexivity.
  - apply (next_patch_version (Examples.env_of "20.6.1" [])
             Examples.world "20.6.1"
             {| Version.epoch := 0; Version.release := [20; 6; 1];
                Version.pre := None; Version.post := None;
                Version.dev := None; Version.local := None |});
      reflexivity.
Defined.

(** A version that is ahead of today's slot in both numbers, or in one of
    them with the other equal, ends the process. *)
Lemma calendar_version_ahead_exits env w s v :
  (Helper.get_current_version env w).1 = Return s →
  Version.parse s = Some v →
  today_year env mod 100 ≤ Version.major v →
  today_month env ≤ Version.minor v →
  (Version.major v, Version.minor v) ≠ (today_year env mod 100, today_month env) →
  (Helper.calculate_calendar_version env w).1 = SysExit 1.
Proof.
  intros [w1 Hcur]%current_version_fst Hparse Hmajor Hminor Hne.
  rewrite (calculate_calendar_version_read _ _ _ _ Hcur).
  unfold bind at 1. unfold Helper.Version_ at 1. rewrite Hparse. simpl.
  replace (Version.major v <? today_year env mod 100) with false
    by (symmetry; by apply N.ltb_ge).
  replace (Version.minor v <? today_month env) with false
    by (symmetry; by apply N.ltb_ge).
  simpl.
  destruct (Version.major v =? today_year env mod 100) eqn:E1;
    destruct (Version.minor v =? today_month env) eqn:E2; try done.
  apply N.eqb_eq in E1, E2. congruence.
Qed.

(** C2.  In May 2022 the current version 23.1.0 is ahead of the calendar
    slot 22.5, and [calculate_calendar_version] returns 22.5.0 instead of
    ending the process. *)
Theorem calendar_version_ahead_not_fatal :
  let env := Examples.env_of "23.1.0" [] in
  Version.parse "23.1.0"
  = Some {| Version.epoch := 0; Version.release := [23; 1; 0];
            Version.pre := None; Version.post := None; Version.dev := None;
            Version.local := None |}
  ∧ today_year env mod 100 < 23
  ∧ (Helper.calculate_calendar_version env Examples.world).1 = Return "22.5.0"
  ∧ (Helper.calculate_calendar_version env Examples.world).1 ≠ SysExit 1.
Proof. repeat split; done. Qed.
(** ** The commit classifier *)

Import Changelog Spec.

Lemma log_nil w : log w [] = w.
Proof. destruct w. unfold log. simpl. by rewrite app_nil_r. Qed.

Lemma log_app w evs evs' : log (log w evs) evs' = log w (evs ++ evs').
Proof. unfold log. simpl. by rewrite app_assoc. Qed.

Lemma rule_matches_true ct msg :
  rule_matches ct msg = true →
  Re.match_ (reg ct) msg = Some (default "" (Re.match_ (reg ct) msg)).
Proof.
  unfold rule_matches. intros [g0 ->]%bool_decide_eq_true. done.
Qed.

Lemma rule_matches_false ct msg :
  rule_matches ct msg = false → Re.match_ (reg ct) msg = None.
Proof.
  unfold rule_matches. intros H%bool_decide_eq_false.
  destruct (Re.match_ (reg ct) msg); [|done]. destruct H. eauto.
Qed.

(** The loop over the rules, for a commit with a message. *)
Lemma for_each_rules self hash msg cts d w :
  for_each cts (sort_commit_type self hash (Some msg)) d w
  = (let hs := hit hash msg <$> filter (fun ct => rule_matches ct msg) cts in
     (Return (foldl (record_hit self) d hs), log w (info_of <$> hs))).
Proof.
  revert d w. induction cts as [|ct cts IH]; intros d w; simpl.
  { by rewrite log_nil. }
  unfold bind at 1. unfold sort_commit_type at 1.
  rewrite filter_cons. destruct (rule_matches ct msg) eqn:E.
  - rewrite (rule_matches_true _ _ E). rewrite decide_True by done.
    simpl. rewrite IH. simpl. f_equal. unfold log. simpl. by rewrite <- app_assoc.
  - rewrite (rule_matches_false _ _ E). rewrite decide_False by (simpl; tauto).
    simpl. by rewrite IH.
Qed.

Lemma sort_commit_hits self d line w :
  has_message line →
  sort_commit self d line w
  = (Return (foldl (record_hit self) d (hits self line)),
     log w (info_of <$> hits self line)).
Proof.
  unfold has_message, sort_commit, hits.
  destruct (Py.split1 line) as [hash [msg|]]; simpl; intros [? ?]; [|done].
  apply for_each_rules.
Qed.

Lemma for_each_commits self lines d w :
  Forall has_message lines →
  for_each lines (sort_commit self) d w
  = (Return (foldl (record_hit self) d (lines ≫= hits self)),
     log w (info_of <$> (lines ≫= hits self))).
Proof.
  intros Hall. revert d w.
  induction Hall as [|line lines Hline _ IH]; intros d w; simpl.
  { by rewrite log_nil. }
  unfold bind at 1. rewrite (sort_commit_hits _ _ _ _ Hline).
  rewrite IH, foldl_app, fmap_app, log_app. done.
Qed.

Lemma foldl_record_empty self d hs :
  foldl (record_hit self) d hs = ∅ ↔ d = ∅ ∧ hs = [].
Proof.
  revert d. induction hs as [|h hs IH]; intros d; simpl.
  { split; [by intros ->|by intros [-> _]]. }
  rewrite IH. unfold record_hit, append_to. split; [|by intros [_ ?]].
  intros [H _]. by apply insert_non_empty in H.
Qed.

Lemma lookup_foldl_record self d hs g :
  default [] (foldl (record_hit self) d hs !! g)
  = default [] (d !! g)
    ++ (rendered self <$> filter (fun h => h.1.1 = g) hs).
Proof.
  revert d. induction hs as [|h hs IH]; intros d; simpl.
  { by rewrite app_nil_r. }
  rewrite IH. unfold record_hit, append_to.
  rewrite filter_cons. destruct (decide (h.1.1 = g)) as [->|Hne].
  - rewrite lookup_insert_eq. simpl. by rewrite <- app_assoc.
  - by rewrite lookup_insert_ne.
Qed.

Lemma hits_nil self line :
  hits self line = [] ↔ commit_matches self line = false.
Proof.
  unfold hits, commit_matches.
  destruct (Py.split1 line) as [hash [msg|]]; [|done].
  induction (commit_types self) as [|ct cts IH]; [done|].
  rewrite filter_cons. simpl. destruct (rule_matches ct msg); simpl; [|done].
  by split.
Qed.

Lemma all_hits_nil self lines :
  lines ≫= hits self = []
  ↔ Forall (fun line => commit_matches self line = false) lines.
Proof.
  induction lines as [|line lines IH].
  { split; [constructor|done]. }
  rewrite bind_cons, Forall_cons, <- IH, <- hits_nil.
  split; [by intros [? ?]%app_eq_nil|by intros [-> ->]].
Qed.

(** The classifier on commit lines of the form "hash message". *)
Lemma sort_commits_hits self commits w :
  Forall has_message (default [] commits) →
  _sort_commits self commits w
  = (let hs := default [] commits ≫= hits self in
     if decide (hs = [])
     then (SysExit 1, log w [Term Warning "No conventional commits found."])
     else (Return (foldl (record_hit self) ∅ hs), log w (info_of <$> hs))).
Proof.
  intros Hall. unfold _sort_commits. unfold bind at 1.
  assert (match commits with
          | Some ((_ :: _) as commits) => for_each commits (sort_commit self) ∅
          | _ => ret ∅
          end w
          = (Return (foldl (record_hit self) ∅ (default [] commits ≫= hits self)),
             log w (info_of <$> (default [] commits ≫= hits self)))) as ->.
  { destruct commits as [[|line lines]|].
    - unfold ret. simpl. by rewrite log_nil.
    - by rewrite (for_each_commits self (line :: lines) ∅ w Hall).
    - unfold ret. simpl. by rewrite log_nil. }
  simpl. destruct (decide (default [] commits ≫= hits self = [])) as [E|E].
  - rewrite E. simpl. rewrite decide_True by done. by rewrite log_nil.
  - rewrite decide_False; [done|]. rewrite foldl_record_empty. by intros [_ ?].
Qed.

(** The loop over the rules, for a commit without a message. *)
Lemma for_each_rules_no_message self hash cts d w :
  cts ≠ [] →
  for_each cts (sort_commit_type self hash None) d w = (Raise IndexError, w).
Proof. by destruct cts. Qed.

(** The loop over the commits stops at the first line without a message. *)
Lemma for_each_commits_no_message self lines d w :
  commit_types self ≠ [] →
  ¬ Forall has_message lines →
  (for_each lines (sort_commit self) d w).1 = Raise IndexError.
Proof.
  intros Hrules. revert d w. induction lines as [|line lines IH]; intros d w Hbad.
  { destruct Hbad. constructor. }
  cbn [for_each]. unfold bind at 1.
  destruct (Py.split1 line) as [hash [msg|]] eqn:E.
  - rewrite sort_commit_hits by (unfold has_message; rewrite E; by eexists).
    apply IH. intros Hall. apply Hbad. constructor; [|done].
    unfold has_message. rewrite E. by eexists.
  - unfold sort_commit. rewrite E.
    by rewrite for_each_rules_no_message.
Qed.

(** C7.  On commit lines of the form "hash message", the classifier ends
    the process exactly when no commit matches a rule, which includes the
    empty list and no list at all; when some commit matches it returns a
    dictionary that is not empty; and a commit that matches no rule can be
    taken out of the input without changing the dictionary, the terminal
    output or the way the classifier ends.  A line without a message is
    not passed over: when there is a rule, the classifier ends with
    [IndexError], whatever the other commits are; without any rule it
    always ends the process. *)
Theorem sort_commits_fatal_iff self commits w :
  (Forall has_message (default [] commits) →
   ((_sort_commits self commits w).1 = SysExit 1
    ↔ Forall (fun line => commit_matches self line = false) (default [] commits))
   ∧ (Exists (fun line => commit_matches self line = true) (default [] commits) →
      ∃ commit_dict,
        (_sort_commits self commits w).1 = Return commit_dict ∧ commit_dict ≠ ∅)
   ∧ (∀ before line after,
        commits = Some (before ++ line :: after) →
        commit_matches self line = false →
        _sort_commits self commits w
        = _sort_commits self (Some (before ++ after)) w))
  ∧ (¬ Forall has_message (default [] commits) →
     commit_types self ≠ [] →
     (_sort_commits self commits w).1 = Raise IndexError)
  ∧ (commit_types self = [] → (_sort_commits self commits w).1 = SysExit 1).
Proof.
  split; [|split].
  - intros Hall. split; [|split].
    + rewrite (sort_commits_hits _ _ _ Hall). simpl.
      rewrite <- all_hits_nil. by case_decide.
    + intros Hex. rewrite (sort_commits_hits _ _ _ Hall). simpl.
      rewrite decide_False.
      * eexists. split; [done|]. rewrite foldl_record_empty.
        intros [_ Hnil]. apply all_hits_nil in Hnil.
        apply Exists_exists in Hex as (line & Hin & Hline).
        rewrite Forall_forall in Hnil. specialize (Hnil line Hin). congruence.
      * intros Hnil%all_hits_nil.
        apply Exists_exists in Hex as (line & Hin & Hline).
        rewrite Forall_forall in Hnil. specialize (Hnil line Hin). congruence.
    + intros before line after -> Hline.
      rewrite (sort_commits_hits _ _ _ Hall).
      rewrite sort_commits_hits.
      2:{ simpl in *. apply Forall_app in Hall as [? [_ ?]%Forall_cons].
          by apply Forall_app. }
      simpl. rewrite !bind_app, bind_cons.
      apply hits_nil in Hline. by rewrite Hline.
  - intros Hbad Hrules. unfold _sort_commits, bind.
    destruct commits as [[|line lines]|]; simpl in Hbad;
      [by destruct Hbad| |by destruct Hbad].
    pose proof (for_each_commits_no_message self (line :: lines) ∅ w Hrules Hbad)
      as Hraise.
    destruct (for_each (line :: lines) (sort_commit self) ∅ w) as [o w'].
    simpl in Hraise. by subst o.
  - intros Hrules. unfold _sort_commits, bind.
    assert (∀ lines d w0,
              for_each lines (sort_commit self) d w0 = (Return d, w0)) as Hloop.
    { induction lines as [|line lines IH]; intros d w0; [done|].
      cbn [for_each]. unfold bind at 1. unfold sort_commit at 1.
      destruct (Py.split1 line) as [hash msg]. rewrite Hrules. simpl. apply IH. }
    destruct commits as [[|line lines]|]; [done| |done].
    rewrite Hloop. by rewrite decide_True.
Qed.

Lemma sort_commits_fatal_iff_witness :
  let self := Examples.builder [Examples.added; Examples.fix_] None None in
  let commits := Some ["abc1234 added: fixed the thing"; "def5678 update the readme"] in
  Forall has_message (default [] commits)
  ∧ ((_sort_commits self commits Examples.world).1 = SysExit 1
     ↔ Forall (fun line => commit_matches self line = false) (default [] commits))
  ∧ (Exists (fun line => commit_matches self line = true) (default [] commits) →
     ∃ commit_dict,
       (_sort_commits self commits Examples.world).1 = Return commit_dict
       ∧ commit_dict ≠ ∅)
  ∧ (∀ before line after,
       commits = Some (before ++ line :: after) →
       commit_matches self line = false →
       _sort_commits self commits Examples.world
       = _sort_commits self (Some (before ++ after)) Examples.world).
Proof.
  intros self commits.
  assert (Forall has_message (default [] commits)) as Hall.
  { repeat constructor; eexists; reflexivity. }
  split; [exact Hall|].
  exact (proj1 (sort_commits_fatal_iff self commits Examples.world) Hall).
Defined.

(** The commit "def5678" has no message.  Although the commit before it
    matches a rule, the classifier does not return: it ends with
    [IndexError]. *)
Lemma unmatched_ignored_fails :
  ¬ unmatched_ignored
      (Examples.builder [Examples.added; Examples.fix_] None None)
      ["abc1234 added: fixed the thing"; "def5678"].
Proof.
  intros H. destruct (H Examples.world) as [_ Hreturns].
  destruct Hreturns as [commit_dict Hdict].
  - constructor. reflexivity.
  - vm_compute in Hdict. discriminate Hdict.
Qed.

Example sort_commits_no_message :
  (_sort_commits (Examples.builder [Examples.added; Examples.fix_] None None)
     (Some ["abc1234 added: fixed the thing"; "def5678"]) Examples.world).1
  = Raise IndexError.
Proof. vm_compute. reflexivity. Qed.




Example sort_commits_two_rules :
  (_sort_commits
     (Examples.builder [Examples.fix_; Examples.fix_anchored] None None)
     (Some ["def5678 fix: typo"]) Examples.world).1
  = Return {[ "Bug Fixes" := ["typo [def5678](https://github.com/space/project/commit/def5678)"];
              "Fixed" := ["typo [def5678](https://github.com/space/project/commit/def5678)"] ]}.
Proof. vm_compute. reflexivity. Qed.

(** *** Rules whose match-text is plain text *)

Lemma append_nil_l s : "" +:+ s = s.
Proof. reflexivity. Qed.

Lemma sep_char c :
  existsb (Py.caseless_eqb c) [":"; "|"; "-"]%char = true
  ↔ c ∈ [":"; "|"; "-"]%char.
Proof.
  rewrite !elem_of_cons, elem_of_nil. split.
  - destruct c as [[] [] [] [] [] [] [] []]; vm_compute; intros H;
      try discriminate H; auto.
  - by intros [->|[->|[->|[]]]].
Qed.

Lemma match_literal t q pos msg :
  Re.match_items (Re.literal t ++ q) pos msg
  = match strip_caseless t msg with
    | Some rest => Re.match_items q (pos + String.length t)%nat rest
    | None => None
    end.
Proof.
  revert pos msg. induction t as [|a t IH]; intros pos msg; simpl.
  { by rewrite Nat.add_0_r. }
  destruct msg as [|b msg]; [done|].
  destruct (Py.caseless_eqb a b); [|done].
  rewrite IH. by rewrite Nat.add_succ_r.
Qed.

Lemma strip_caseless_app p t rest :
  caseless_eq p t = true → strip_caseless t (p +:+ rest) = Some rest.
Proof.
  revert p. induction t as [|a t IH]; intros [|b p]; simpl; try done.
  intros [-> ?]%andb_prop. by apply IH.
Qed.

Lemma strip_caseless_inv t msg rest :
  strip_caseless t msg = Some rest →
  ∃ p, msg = p +:+ rest ∧ caseless_eq p t = true.
Proof.
  revert msg. induction t as [|a t IH]; intros msg; simpl.
  { intros [= ->]. by exists "". }
  destruct msg as [|b msg]; [done|].
  destruct (Py.caseless_eqb a b) eqn:E; [|done].
  intros (p & -> & Hp)%IH. exists (String b p). simpl. by rewrite E, Hp.
Qed.

(** [\s?[:|-]] in front of [rest] *)
Lemma match_separator pos rest :
  is_Some (Re.match_items
             [Re.Opt Re.Space; Re.One (Re.Class [":"; "|"; "-"]%char)] pos rest)
  ↔ ∃ ws c rest',
      rest = ws +:+ String c rest'
      ∧ (ws = "" ∨ ∃ w, ws = String w "" ∧ Py.isspace w = true)
      ∧ c ∈ [":"; "|"; "-"]%char.
Proof.
  split.
  - destruct rest as [|d r]; cbn [Re.match_items Re.step]; [by intros [? ?]|].
    assert (existsb (Py.caseless_eqb d) [":"; "|"; "-"]%char = true →
            ∃ ws c rest',
              String d r = ws +:+ String c rest'
              ∧ (ws = "" ∨ ∃ w, ws = String w "" ∧ Py.isspace w = true)
              ∧ c ∈ [":"; "|"; "-"]%char) as Hplain.
    { intros Hd%sep_char. exists "", d, r. auto. }
    destruct (Py.isspace d) eqn:Ed.
    + destruct r as [|c r']; cbn [Re.match_items Re.step].
      { destruct (existsb (Py.caseless_eqb d) _) eqn:E; [auto|by intros [? ?]]. }
      destruct (existsb (Py.caseless_eqb c) _) eqn:Ec.
      * intros _. apply sep_char in Ec.
        exists (String d ""), c, r'. split; [done|]. split; [|done].
        right. by exists d.
      * destruct (existsb (Py.caseless_eqb d) _) eqn:E; [auto|by intros [? ?]].
    + destruct (existsb (Py.caseless_eqb d) _) eqn:E; [auto|by intros [? ?]].
  - intros (ws & c & rest' & -> & Hws & Hc%sep_char).
    destruct Hws as [->|(w & -> & Hw)];
      rewrite ?append_cons, ?append_nil_l; cbn [Re.match_items Re.step].
    + rewrite Hc. destruct (Py.isspace c); [|by eexists].
      destruct rest' as [|c' r']; cbn [Re.match_items Re.step]; [by eexists|].
      destruct (existsb (Py.caseless_eqb c') _); by eexists.
    + rewrite Hw. cbn [Re.match_items Re.step]. rewrite Hc. by eexists.
Qed.

Lemma rule_matches_iff commit_type msg :
  rule_matches commit_type msg = true
  ↔ is_Some (Re.match_items (reg commit_type) 0 msg).
Proof.
  unfold rule_matches, Re.match_. rewrite bool_decide_eq_true.
  by rewrite fmap_is_Some.
Qed.

Example classify_added :
  (_sort_commits (Examples.builder [Examples.added] None None)
     (Some ["abc1234 added: fixed the thing"]) Examples.world).1
  = Return {[ "Added:" :=
      ["fixed the thing [abc1234](https://github.com/space/project/commit/abc1234)"] ]}.
Proof. vm_compute. reflexivity. Qed.

(** C6.  A rule whose match-text is the plain text [text] matches a message
    exactly when the message starts, letters compared without case, with
    [text], then at most one whitespace character, then one of the
    characters [:], [|] and [-], which is required.  For the rule
    {Added, "Added:"} the line "abc1234 added: fixed the thing" gives the
    entry "fixed the thing [abc1234](<commit-link>abc1234)" under "Added:". *)
Theorem rule_matches_plain_text :
  (∀ text label msg,
     rule_matches {| message := Re.literal text; group := label |} msg = true
     ↔ ∃ p ws c rest,
         msg = p +:+ ws +:+ String c rest
         ∧ caseless_eq p text = true
         ∧ (ws = "" ∨ ∃ w, ws = String w "" ∧ Py.isspace w = true)
         ∧ c ∈ [":"; "|"; "-"]%char)
  ∧ ∀ w,
      (_sort_commits (Examples.builder [Examples.added] None None)
         (Some ["abc1234 added: fixed the thing"]) w).1
      = Return {[ "Added:" :=
          [entry (commit_link (Examples.builder [Examples.added] None None))
                 "abc1234" "fixed the thing"] ]}.
Proof.
  split.
  - intros text label msg. rewrite rule_matches_iff. unfold reg. simpl.
    rewrite match_literal. split.
    + destruct (strip_caseless text msg) as [rest0|] eqn:E; [|by intros [? ?]].
      intros (ws & c & rest & -> & Hws & Hc)%match_separator.
      apply strip_caseless_inv in E as (p & -> & Hp).
      by exists p, ws, c, rest.
    + intros (p & ws & c & rest & -> & Hp & Hws & Hc).
      rewrite (strip_caseless_app _ _ _ Hp).
      apply match_separator. by exists ws, c, rest.
  - intros w. rewrite sort_commits_hits.
    + vm_compute. reflexivity.
    + repeat constructor; eexists; reflexivity.
Qed.

(** The message "added fixed the thing" starts with the match-text "Added"
    followed by no separator and a blank, which the rule of the
    specification accepts; the rule of the code rejects it, as it requires
    the separator. *)
Lemma starts_with_match_text_not_enough :
  starts_with_match_text "Added" "added fixed the thing"
  ∧ rule_matches Examples.added "added fixed the thing" = false.
Proof.
  split; [|reflexivity].
  exists "added", "", " ", "fixed the thing".
  split; [reflexivity|]. split; [reflexivity|]. split; [|reflexivity].
  by constructor.
Qed.

(** ** The changelog footer *)

Lemma footer_both self next current :
  next_version self = Some next → next ≠ "" →
  current_version self = Some current → current ≠ "" →
  footer self
  = Py.nl +:+ "[" +:+ next +:+ "]: " +:+ compare_link self
    +:+ current +:+ "..." +:+ next.
Proof.
  intros Hn Hne Hc Hce. unfold footer. rewrite Hn, Hc. simpl.
  apply String.eqb_neq in Hne, Hce. rewrite Hne, Hce. simpl.
  by rewrite !append_assoc.
Qed.

Lemma footer_neither self :
  Py.truthy (current_version self) = false →
  footer self = Py.nl +:+ "[Unreleased]: " +:+ compare_link self +:+ "???...HEAD".
Proof.
  intros Hc. unfold footer. rewrite Hc, andb_false_r. by rewrite !append_assoc.
Qed.

Lemma footer_current_only self current :
  Py.truthy (next_version self) = false →
  current_version self = Some current → current ≠ "" →
  footer self
  = Py.nl +:+ "[Unreleased]: " +:+ compare_link self
    +:+ Py.nl +:+ current +:+ "...HEAD".
Proof.
  intros Hn Hc Hce. unfold footer. rewrite Hn, Hc. simpl.
  apply String.eqb_neq in Hce. rewrite Hce. simpl.
  by rewrite !append_assoc.
Qed.

(** C3.  With the current version 1.2.2 and no next version, the footer is
    not one comparison line: a line break stands between [compare/] and
    [1.2.2...HEAD], and the rendered changelog ends with these two lines. *)
Theorem footer_current_only_breaks_line :
  let self := Examples.builder [Examples.added] (Some "1.2.2") None in
  let env := Examples.env_of "1.2.2" [] in
  Py.split "010" (footer self)
  = [""; "[Unreleased]: https://github.com/space/project/compare/"; "1.2.2...HEAD"]
  ∧ footer self
    ≠ Py.nl +:+ "[Unreleased]: https://github.com/space/project/compare/1.2.2...HEAD"
  ∧ (_build_changelog_file env self {[ "Added:" := ["entry"] ]} Examples.world).1
    = Return (Some "unreleased.md")
  ∧ files (_build_changelog_file env self {[ "Added:" := ["entry"] ]} Examples.world).2
    !! "unreleased.md"
    = Some (header +:+ "## [Unreleased]" +:+ Py.nl +:+ Py.nl
            +:+ Py.nl +:+ "## Added:" +:+ Py.nl
            +:+ "* entry" +:+ Py.nl
            +:+ Py.nl +:+ "[Unreleased]: https://github.com/space/project/compare/"
            +:+ Py.nl +:+ "1.2.2...HEAD").
Proof. repeat split; vm_compute; congruence. Qed.

Example footer_both_versions :
  footer (Examples.builder [Examples.added] (Some "1.2.2") (Some "1.2.3"))
  = Py.nl +:+ "[1.2.3]: https://github.com/space/project/compare/1.2.2...1.2.3".
Proof. reflexivity. Qed.

Example footer_no_version :
  footer (Examples.builder [Examples.added] None None)
  = Py.nl +:+ "[Unreleased]: https://github.com/space/project/compare/???...HEAD".
Proof. reflexivity. Qed.

(** ** prepare: the guardian *)

Lemma quiet_ret {A} (a : A) : quiet (ret a).
Proof. intros w. exists []. by rewrite log_nil. Qed.

Lemma quiet_sys_exit {A} code : quiet (sys_exit (A:=A) code).
Proof. intros w. exists []. by rewrite log_nil. Qed.

Lemma quiet_raise {A} e : quiet (raise (A:=A) e).
Proof. intros w. exists []. by rewrite log_nil. Qed.

Lemma quiet_get_trace : quiet get_trace.
Proof. intros w. exists []. by rewrite log_nil. Qed.

Lemma quiet_path_exists path : quiet (path_exists path).
Proof. intros w. exists []. by rewrite log_nil. Qed.

Lemma quiet_emit e : mutates e = false → quiet (emit e).
Proof. intros He w. exists [e]. split; [done|]. by constructor. Qed.

Lemma quiet_bind {A B} (m : M A) (k : A → M B) :
  quiet m → (∀ a, quiet (k a)) → quiet (bind m k).
Proof.
  intros Hm Hk w. destruct (Hm w) as (evs & Hw & Hevs).
  unfold bind. destruct (m w) as [[a| |] w1]; simpl in Hw; subst w1.
  - destruct (Hk a (log w evs)) as (evs' & Hw' & Hevs').
    exists (evs ++ evs'). rewrite Hw', log_app. split; [done|].
    by apply Forall_app.
  - by exists evs.
  - by exists evs.
Qed.

Lemma quiet_shell_query env cmd :
  mutates (Shell cmd) = false → quiet (shell_cmd_runner env cmd).
Proof.
  intros Hcmd. unfold shell_cmd_runner.
  apply quiet_bind; [apply quiet_get_trace|]. intros t.
  apply quiet_bind; [by apply quiet_emit|]. intros _.
  destruct (shell_result env t cmd) as [[|rc] stdout];
    [apply quiet_ret|apply quiet_raise].
Qed.

Lemma quiet_Version_ text : quiet (Helper.Version_ text).
Proof.
  unfold Helper.Version_.
  destruct (Version.parse text); [apply quiet_ret|apply quiet_raise].
Qed.

Ltac quiet_step :=
  first
    [ apply quiet_ret | apply quiet_sys_exit | apply quiet_raise
    | apply quiet_get_trace | apply quiet_path_exists | apply quiet_Version_
    | apply quiet_emit; reflexivity
    | apply quiet_shell_query; reflexivity
    | apply quiet_bind; [|intros ?] ].

Lemma quiet_get_current_version env : quiet (Helper.get_current_version env).
Proof.
  unfold Helper.get_current_version.
  induction Helper.available_cmds as [|file_name rest IH]; simpl.
  - unfold terminal. repeat quiet_step.
  - apply quiet_bind; [apply quiet_path_exists|]. intros [|]; [|apply IH].
    unfold terminal. repeat quiet_step.
Qed.

Lemma quiet_calculate_calendar_version env :
  quiet (Helper.calculate_calendar_version env).
Proof.
  unfold Helper.calculate_calendar_version, terminal.
  apply quiet_bind; [apply quiet_get_current_version|]. intros s.
  apply quiet_bind; [apply quiet_Version_|]. intros v.
  repeat case_match; repeat quiet_step.
Qed.

Lemma quiet_get_next_patch_version env :
  quiet (Helper.get_next_patch_version env).
Proof.
  unfold Helper.get_next_patch_version.
  apply quiet_bind; [apply quiet_get_current_version|]. intros s.
  apply quiet_bind; [apply quiet_Version_|]. intros v.
  repeat case_match; repeat quiet_step.
Qed.

Lemma startswith_append p s : Py.startswith p (p +:+ s) = true.
Proof.
  induction p as [|c p IH]; [done|]. simpl. by rewrite Ascii.eqb_refl, IH.
Qed.

Lemma quiet_get_project_name env remote :
  quiet (Helper.get_project_name env remote).
Proof.
  unfold Helper.get_project_name.
  apply quiet_bind; [|intros ?; apply quiet_ret].
  apply quiet_shell_query. unfold mutates.
  by rewrite startswith_append, orb_true_r.
Qed.

Lemma quiet_find_signing_key env : quiet (Helper.find_signing_key env).
Proof.
  intros w. unfold Helper.find_signing_key.
  destruct (quiet_shell_query env "git config user.signingkey" eq_refl w)
    as (evs & Hw & Hevs).
  destruct (shell_cmd_runner env "git config user.signingkey" w)
    as [[stdout|c|e] w1]; simpl in Hw; subst w1; try by exists evs.
  destruct e; try by exists evs.
  assert (quiet ((if returncode =? 1
                  then terminal Warning "No signing key found."
                  else ret tt);; ret "")) as Hq.
  { unfold terminal. case_match; repeat quiet_step. }
  destruct (Hq (log w evs)) as (evs' & Hw' & Hevs').
  exists (evs ++ evs'). rewrite Hw', log_app. split; [done|].
  by apply Forall_app.
Qed.

Lemma quiet_prepare_release env args : quiet (Prepare.prepare_release env args).
Proof.
  unfold Prepare.prepare_release, terminal.
  apply quiet_bind.
  { destruct (Prepare.git_signing_key args);
      [apply quiet_ret|apply quiet_find_signing_key]. }
  intros key. apply quiet_bind.
  { destruct (Prepare.project args);
      [apply quiet_ret|apply quiet_get_project_name]. }
  intros project. apply quiet_bind.
  { destruct (Prepare.calendar args);
      [apply quiet_calculate_calendar_version|].
    destruct (Prepare.patch args);
      [apply quiet_get_next_patch_version|apply quiet_ret]. }
  intros release_version. repeat quiet_step.
Qed.

(** C9.  When the tag made of the tag prefix and the release version is
    among the git tags, [prepare] ends the process with code 1; the files
    are as before, and no external call that it made writes a file, runs
    the version update, builds a changelog, or runs a git command other
    than the two queries for the signing key and the remote. *)
Theorem prepare_tag_taken env args w git_signing_key project release_version w1 :
  Prepare.prepare_release env args w
  = (Return (git_signing_key, project, release_version), w1) →
  Prepare.git_tag_prefix args +:+ release_version ∈ list_tags env (trace w1) →
  ∃ evs,
    Prepare.prepare env args w = (SysExit 1, log w evs)
    ∧ Forall (fun e => mutates e = false) evs
    ∧ files (Prepare.prepare env args w).2 = files w.
Proof.
  intros Hrel Htag.
  destruct (quiet_prepare_release env args w) as (evs & Hw & Hevs).
  rewrite Hrel in Hw. simpl in Hw. subst w1.
  exists (evs ++ [ListTags;
                  Term Error ("git tag "
                              +:+ (Prepare.git_tag_prefix args +:+ release_version)
                              +:+ " is already taken.")]).
  assert (Prepare.prepare env args w
          = (SysExit 1,
             log w (evs ++ [ListTags;
                            Term Error ("git tag "
                                        +:+ (Prepare.git_tag_prefix args
                                             +:+ release_version)
                                        +:+ " is already taken.")]))) as ->.
  { unfold Prepare.prepare. unfold bind at 1. rewrite Hrel.
    unfold bind at 1. unfold git_list_tags, bind, get_trace, emit, ret. simpl.
    rewrite bool_decide_eq_true_2 by done.
    unfold terminal, emit, sys_exit, log. simpl.
    by rewrite <- !app_assoc. }
  split; [done|]. split; [|done].
  apply Forall_app. split; [done|]. by repeat constructor.
Qed.

Lemma prepare_tag_taken_witness :
  let env := Examples.env_of "1.0.0" ["v1.0.0"] in
  let args := Examples.args_of "1.0.0" in
  "v1.0.0" ∈ list_tags env []
  ∧ ∃ evs,
      Prepare.prepare env args Examples.world = (SysExit 1, log Examples.world evs)
      ∧ Forall (fun e => mutates e = false) evs
      ∧ files (Prepare.prepare env args Examples.world).2 = files Examples.world.
Proof.
  intros env args.
  assert ("v1.0.0" ∈ ["v1.0.0"]) as Hin by constructor.
  split; [exact Hin|].
  apply (prepare_tag_taken env args Examples.world "" "project" "1.0.0"
           (Prepare.prepare_release env args Examples.world).2).
  - vm_compute. reflexivity.
  - exact Hin.
Defined.

Example prepare_tag_taken_trace :
  Prepare.prepare (Examples.env_of "1.0.0" ["v1.0.0"]) (Examples.args_of "1.0.0")
                  Examples.world
  = (SysExit 1,
     log Examples.world
         [Shell "git config user.signingkey";
          Term Warning "No signing key found.";
          Shell "git remote get-url origin";
          Term Info "Preparing the release 1.0.0";
          ListTags;
          Term Error "git tag v1.0.0 is already taken."]).
Proof. vm_compute. reflexivity. Qed.

(** ** VersionCommand.update_version *)

Section UpdateVersion.
Import VersionCommand.
Context (safe_version : string → string)
        (check_develop : string → option bool)
        (module_name pyproject_toml_path : string)
        (is_quiet : bool).

Local Abbreviation update_version :=
  (update_version safe_version check_develop module_name pyproject_toml_path is_quiet).
Local Abbreviation new_version_for := (new_version_for safe_version check_develop).
Local Abbreviation get_current_version := (get_current_version module_name).
Local Abbreviation versions_equal := (versions_equal safe_version).

Lemma new_version_for_develop new_version is_develop develop st :
  check_develop (safe_version new_version) = Some is_develop →
  new_version_for new_version develop st
  = (Return (if develop && negb is_develop
             then safe_version new_version +:+ ".dev1"
             else safe_version new_version), st).
Proof.
  intros Hdev. unfold VersionCommand.new_version_for, bind. rewrite Hdev.
  by destruct is_develop, develop.
Qed.

(** [get_current_version] leaves the files and the output as they are: it
    changes [sys.modules] at most. *)
Lemma get_current_version_state st :
  (get_current_version st).2
  = {| pyproject_toml := pyproject_toml st;
       version_file := version_file st;
       sys_modules := sys_modules (get_current_version st).2;
       printed := printed st |}.
Proof.
  unfold VersionCommand.get_current_version, import_module.
  destruct st as [py vf [[v|]|] pr]; simpl; try done.
  by destruct vf as [[v|]|].
Qed.

(** [update_version], once the version to write is known. *)
Lemma update_version_written new_version develop force target st pyproject_version :
  new_version_for new_version develop st = (Return target, st) →
  pyproject_toml st = Some (Some pyproject_version) →
  update_version new_version develop force st
  = let write st0 :=
      (Return tt,
       {| pyproject_toml := Some (Some (safe_version target));
          version_file := Some (Some (safe_version target));
          sys_modules := sys_modules st0;
          printed :=
            printed st0
            ++ (if is_quiet then []
                else ["Updated version from " +:+ pyproject_version
                      +:+ " to " +:+ target]) |}) in
    match version_file st with
    | None => write st
    | Some _ =>
        if force then write st
        else
          match get_current_version st with
          | (Return current, st') =>
              if versions_equal target current
              then
                (Return tt,
                 {| pyproject_toml := pyproject_toml st;
                    version_file := version_file st;
                    sys_modules := sys_modules st';
                    printed :=
                      printed st
                      ++ (if is_quiet then []
                          else ["Version is already up-to-date."]) |})
              else write st'
          | (SysExit code, st') => (SysExit code, st')
          | (Raise e, st') => (Raise e, st')
          end
    end.
Proof.
  intros Hnew Hpy. unfold VersionCommand.update_version.
  unfold bind at 1. rewrite Hnew.
  unfold bind at 1. unfold get_version_from_pyproject_toml. rewrite Hpy.
  unfold bind at 1.
  destruct st as [py vf sm pr]. simpl in Hpy. subst py. cbn [version_file].
  destruct vf as [content|].
  - destruct force.
    + unfold bind, _update_pyproject_version, _update_version_file, _print. simpl.
      destruct is_quiet; simpl; by rewrite ?app_nil_r.
    + unfold bind at 1.
      unfold VersionCommand.get_current_version, import_module. simpl.
      destruct sm as [[current|]|]; [| |destruct content as [current|]];
        simpl; try done.
      all: unfold ret; destruct (versions_equal target current);
        unfold bind, _update_pyproject_version, _update_version_file, _print; simpl;
        destruct is_quiet; simpl; by rewrite ?app_nil_r.
  - unfold bind, touch, ret, _update_pyproject_version, _update_version_file, _print.
    simpl. destruct is_quiet; simpl; by rewrite ?app_nil_r.
Qed.

(** C10.  Let [is_develop] tell whether the version text, made safe,
    carries a dev marker.  With [develop=True], the version that
    [update_version] sets is the safe text itself when it carries a dev
    marker, and the safe text followed by [.dev1] only when it carries
    none.  This version is written to both files, and nothing else is,
    whenever there is no version file yet, the update is forced, or the
    current version differs from it; when the current version is this
    version, both files are left as they are; and when the current version
    cannot be read, the update ends with that error before a file is
    written. *)
Theorem update_version_develop new_version is_develop force st pyproject_version :
  check_develop (safe_version new_version) = Some is_develop →
  pyproject_toml st = Some (Some pyproject_version) →
  let target := if is_develop then safe_version new_version
                else safe_version new_version +:+ ".dev1" in
  let result := update_version new_version true force st in
  (new_version_for new_version true st).1 = Return target
  ∧ (version_file st = None ∨ force = true
     ∨ (∃ current, (get_current_version st).1 = Return current
                   ∧ versions_equal target current = false) →
     result.1 = Return tt
     ∧ pyproject_toml result.2 = Some (Some (safe_version target))
     ∧ version_file result.2 = Some (Some (safe_version target))
     ∧ printed result.2
       = printed st
         ++ (if is_quiet then []
             else ["Updated version from " +:+ pyproject_version
                   +:+ " to " +:+ target]))
  ∧ (version_file st ≠ None → force = false →
     ∀ current,
       (get_current_version st).1 = Return current →
       versions_equal target current = true →
       result.1 = Return tt
       ∧ pyproject_toml result.2 = pyproject_toml st
       ∧ version_file result.2 = version_file st
       ∧ printed result.2
         = printed st
           ++ (if is_quiet then [] else ["Version is already up-to-date."]))
  ∧ (version_file st ≠ None → force = false →
     ∀ e,
       (get_current_version st).1 = Raise e →
       result.1 = Raise e
       ∧ pyproject_toml result.2 = pyproject_toml st
       ∧ version_file result.2 = version_file st
       ∧ printed result.2 = printed st).
Proof.
  intros Hdev Hpy target result.
  pose proof (new_version_for_develop new_version is_develop true st Hdev) as Hnew.
  assert ((if true && negb is_develop
           then safe_version new_version +:+ ".dev1"
           else safe_version new_version) = target) as Htarget.
  { unfold target. by destruct is_develop. }
  rewrite Htarget in Hnew. split; [by rewrite Hnew|].
  unfold result.
  rewrite (update_version_written new_version true force target st
             pyproject_version Hnew Hpy).
  pose proof (get_current_version_state st) as Hst.
  destruct (get_current_version st) as [[current| |e] st'] eqn:Hcur;
    cbn [fst snd] in *; rewrite Hst; clear Hst.
  - split; [|split].
    + intros [Hvf|[->|(c & [= <-] & Hne)]].
      * by rewrite Hvf.
      * by destruct (version_file st).
      * destruct (version_file st); [|done]. destruct force; [done|].
        by rewrite Hne.
    + intros Hvf -> c [= <-] Heq. destruct (version_file st); [|done].
      by rewrite Heq.
    + by intros _ _ e [=].
  - split; [|split].
    + intros [Hvf|[->|(c & [=] & _)]].
      * by rewrite Hvf.
      * by destruct (version_file st).
    + by intros _ _ c [=].
    + by intros _ _ e [=].
  - split; [|split].
    + intros [Hvf|[->|(c & [=] & _)]].
      * by rewrite Hvf.
      * by destruct (version_file st).
    + by intros _ _ c [=].
    + intros Hvf -> e' [= <-]. by destruct (version_file st).
Qed.

End UpdateVersion.

Lemma update_version_develop_witness :
  let result :=
    VersionCommand.update_version Examples.safe_version Examples.check_develop
      "project.__version__" "pyproject.toml" false
      "21.6.2.dev1" true false (Examples.project_state None) in
  result.1 = Return tt
  ∧ VersionCommand.pyproject_toml result.2 = Some (Some "21.6.2.dev1")
  ∧ VersionCommand.version_file result.2 = Some (Some "21.6.2.dev1")
  ∧ VersionCommand.printed result.2
    = ["Updated version from 21.6.1 to 21.6.2.dev1"].
Proof.
  intros result.
  destruct (update_version_develop Examples.safe_version Examples.check_develop
              "project.__version__" "pyproject.toml" false
              "21.6.2.dev1" true false (Examples.project_state None) "21.6.1"
              eq_refl eq_refl) as (_ & Hwritten & _).
  apply Hwritten. right. right. exists "21.6.1". split; reflexivity.
Defined.

Example update_version_develop_final :
  (VersionCommand.update_version Examples.safe_version Examples.check_develop
     "project.__version__" "pyproject.toml" false
     "21.6.2" true false (Examples.project_state None)).2
  = {| VersionCommand.pyproject_toml := Some (Some "21.6.2.dev1");
       VersionCommand.version_file := Some (Some "21.6.2.dev1");
       VersionCommand.sys_modules := Some (Some "21.6.1");
       VersionCommand.printed := ["Updated version from 21.6.1 to 21.6.2.dev1"] |}.
Proof. reflexivity. Qed.

(** * Further properties *)

Import Spec2.

(** ** Text *)

Lemma lstrip_head s :
  match Py.lstrip s with
  | String c _ => Py.isspace c = false
  | "" => True
  end.
Proof.
  induction s as [|c s IH]; simpl; [done|].
  destruct (Py.isspace c) eqn:E; [done|]. by rewrite E.
Qed.

Lemma lstrip_id s :
  match s with String c _ => Py.isspace c = false | "" => True end →
  Py.lstrip s = s.
Proof. destruct s as [|c s]; simpl; [done|]. by intros ->. Qed.

Lemma rstrip_head s :
  match s with String c _ => Py.isspace c = false | "" => True end →
  match Py.rstrip s with String c _ => Py.isspace c = false | "" => True end.
Proof.
  destruct s as [|c s]; simpl; [done|]. intros Hc.
  destruct (Py.rstrip s); by rewrite ?Hc.
Qed.

Lemma rstrip_idem s : Py.rstrip (Py.rstrip s) = Py.rstrip s.
Proof.
  induction s as [|c s IH]; simpl; [done|].
  destruct (Py.rstrip s) as [|d r] eqn:E.
  - destruct (Py.isspace c) eqn:Ec; simpl; [done|]. by rewrite Ec.
  - simpl. simpl in IH. destruct (Py.rstrip r) as [|d' r'] eqn:E'.
    + destruct (Py.isspace d) eqn:Ed; [done|]. by rewrite IH.
    + by rewrite IH.
Qed.

Lemma strip_trimmed s : trimmed (Py.strip s).
Proof.
  unfold trimmed, Py.strip.
  rewrite (lstrip_id (Py.rstrip (Py.lstrip s))).
  - apply rstrip_idem.
  - apply rstrip_head, lstrip_head.
Qed.

Lemma has_char_lstrip c s : has_char c s = false → has_char c (Py.lstrip s) = false.
Proof.
  induction s as [|d s IH]; simpl; [done|].
  destruct (Py.isspace d); [|done]. intros [_ ?]%orb_false_elim. auto.
Qed.

Lemma has_char_rstrip c s : has_char c s = false → has_char c (Py.rstrip s) = false.
Proof.
  induction s as [|d s IH]; simpl; [done|].
  intros [Hd Hs]%orb_false_elim. specialize (IH Hs).
  destruct (Py.rstrip s); simpl in *.
  - destruct (Py.isspace d); simpl; by rewrite ?Hd.
  - by rewrite Hd, IH.
Qed.

Lemma has_char_remove_from c old k s :
  has_char c s = false → has_char c (Py.remove_from old k s) = false.
Proof.
  revert k. induction s as [|d s IH]; intros k; simpl; [done|].
  intros [Hd Hs]%orb_false_elim.
  destruct k as [|k]; [|by apply IH].
  destruct (_ && _); [by apply IH|]. simpl. by rewrite Hd, IH.
Qed.

(** No part that [split] gives holds the separator. *)
Lemma has_char_split sep s :
  Forall (fun part => has_char sep part = false) (Py.split sep s).
Proof.
  induction s as [|c s IH]; simpl; [by repeat constructor|].
  destruct (Ascii.eqb c sep) eqn:E; [by constructor|].
  destruct (Py.split sep s) as [|h t]; [by repeat constructor; simpl; rewrite E|].
  apply Forall_cons in IH as [Hh Ht]. constructor; [|done].
  simpl. by rewrite E, Hh.
Qed.

Lemma split_nonempty sep s : Py.split sep s ≠ [].
Proof.
  destruct s as [|c s]; simpl; [done|].
  destruct (Ascii.eqb c sep); [done|]. by destruct (Py.split sep s).
Qed.

(** ** The helpers of pontos/release/helper.py *)

(** X1.  For a text that [Version] reads, in any spelling,
    [get_next_dev_version] returns major.minor.(micro+1) and touches
    nothing: whatever the name says, the result is a final version, which
    reads back without a dev marker; the epoch, further release numbers
    and the pre-release, post-release, dev and local parts of the input
    are dropped.  For any other text it raises [VersionError] with the
    message of [InvalidVersion]. *)
Theorem next_dev_version_final s w :
  match Version.parse s with
  | Some v =>
      let next := Py.str (Version.major v) +:+ "."
                  +:+ Py.str (Version.minor v) +:+ "."
                  +:+ Py.str (Version.micro v + 1) in
      Helper.get_next_dev_version s w = (Return next, w)
      ∧ Version.parse next
        = Some {| Version.epoch := 0;
                  Version.release := [Version.major v; Version.minor v;
                                      Version.micro v + 1];
                  Version.pre := None; Version.post := None;
                  Version.dev := None; Version.local := None |}
  | None =>
      Helper.get_next_dev_version s w
      = (Raise (VersionError ("Invalid version: '" +:+ s +:+ "'")), w)
  end.
Proof.
  unfold Helper.get_next_dev_version.
  destruct (Version.parse s) as [v|]; [|done].
  cbv zeta. rewrite !parse_three.
  split; [|done]. unfold ret. by rewrite to_string_three.
Qed.

Example next_dev_version_spellings :
  Helper.get_next_dev_version "20.4.1.dev3" Examples.world
  = (Return "20.4.2", Examples.world)
  ∧ Helper.get_next_dev_version " v1.0.0rc1 " Examples.world
    = (Return "1.0.1", Examples.world)
  ∧ Helper.get_next_dev_version "2!1.2.3.4-1" Examples.world
    = (Return "1.2.4", Examples.world)
  ∧ Helper.get_next_dev_version "1.2.x" Examples.world
    = (Raise (VersionError "Invalid version: '1.2.x'"), Examples.world).
Proof. repeat split; reflexivity. Qed.

(** X2.  [find_signing_key] never fails with [CalledProcessError]: it
    always returns a key, which is the empty text when the git command
    failed and carries no whitespace around it otherwise; the warning is
    given for the return code 1 alone, and the command is the only call. *)
Theorem find_signing_key_returns env w :
  let answer := shell_result env (trace w) "git config user.signingkey" in
  ∃ key,
    Helper.find_signing_key env w
    = (Return key,
       log w (Shell "git config user.signingkey"
              :: if answer.1 =? 1 then [Term Warning "No signing key found."]
                 else []))
    ∧ (answer.1 ≠ 0 → key = "")
    ∧ trimmed key.
Proof.
  intros answer. unfold Helper.find_signing_key, shell_cmd_runner.
  unfold bind, get_trace, emit. simpl. fold answer.
  destruct answer as [[|rc] stdout] eqn:E; simpl.
  - exists (Py.strip stdout). split; [done|]. split; [done|]. apply strip_trimmed.
  - exists "". split; [|done].
    destruct rc as [rc|rc|]; unfold terminal, emit, ret, log; simpl;
      by rewrite <- ?app_assoc.
Qed.

(** X3.  When the remote is known to git, the project name that
    [get_project_name] returns holds no slash and no whitespace around
    it. *)
Theorem project_name_plain env remote w stdout :
  shell_result env (trace w) ("git remote get-url " +:+ remote) = (0, stdout) →
  ∃ name,
    (Helper.get_project_name env remote w).1 = Return name
    ∧ has_char "/" name = false
    ∧ trimmed name.
Proof.
  intros Hres. unfold Helper.get_project_name, shell_cmd_runner.
  unfold bind, get_trace, emit. cbn [fst snd trace files]. rewrite Hres.
  unfold ret. cbn [fst snd].
  eexists. split; [done|]. split; [|apply strip_trimmed]. unfold Py.strip, Py.remove.
  apply has_char_rstrip, has_char_lstrip, has_char_remove_from.
  pose proof (has_char_split "/" stdout) as Hall.
  pose proof (split_nonempty "/" stdout) as Hne.
  destruct (last (Py.split "/" stdout)) as [part|] eqn:E.
  - simpl. apply last_Some in E as [l El]. rewrite El in Hall.
    by apply Forall_app in Hall as [_ [? _]%Forall_cons].
  - by apply last_None in E.
Qed.

Lemma project_name_plain_witness :
  ∃ name,
    (Helper.get_project_name (Examples.env_of "" []) "origin" Examples.world).1
    = Return name
    ∧ has_char "/" name = false
    ∧ trimmed name.
Proof.
  apply (project_name_plain (Examples.env_of "" []) "origin" Examples.world
           ("https://github.com/space/project.git" +:+ Py.nl)).
  reflexivity.
Defined.

(** ** ChangelogBuilder *)

Lemma shell_cmd_runner_run env cmd w :
  shell_cmd_runner env cmd w
  = (match shell_result env (trace w) cmd with
     | (0, stdout) => Return stdout
     | (rc, _) => Raise (CalledProcessError rc)
     end, log w [Shell cmd]).
Proof.
  unfold shell_cmd_runner, bind, get_trace, emit. cbn [fst snd trace files].
  by destruct (shell_result env (trace w) cmd) as [[|rc] stdout].
Qed.

(** X4.  When the command that lists the tags fails, [_get_git_log] does
    not fall back to the whole log: after the warning "No tag found." it
    ends with [UnboundLocalError], and the log command is never run. *)
Theorem git_log_tag_failure env w rc stdout :
  shell_result env (trace w) "git tag | sort -V | tail -1" = (rc, stdout) →
  rc ≠ 0 →
  _get_git_log env w
  = (Raise UnboundLocalError,
     log w [Shell "git tag | sort -V | tail -1"; Term Warning "No tag found."]).
Proof.
  intros Hres Hrc. unfold _get_git_log.
  rewrite shell_cmd_runner_run, Hres. destruct rc as [|rc]; [done|].
  unfold raise, terminal, emit, bind, log. cbn [fst snd trace files].
  by rewrite <- app_assoc.
Qed.

Lemma git_log_tag_failure_witness :
  _get_git_log (Examples2.git_env 128) Examples.world
  = (Raise UnboundLocalError,
     log Examples.world
         [Shell "git tag | sort -V | tail -1"; Term Warning "No tag found."]).
Proof.
  apply (git_log_tag_failure (Examples2.git_env 128) Examples.world 128
           ("v1.0.0" +:+ Py.nl)); [reflexivity|done].
Defined.

(** X5.  The list of commits that [_get_git_log] returns is never empty,
    and none of its lines holds a line break. *)
Theorem git_log_lines env w lines :
  (_get_git_log env w).1 = Return (Some lines) →
  lines ≠ [] ∧ Forall (fun line => has_char "010" line = false) lines.
Proof.
  unfold _get_git_log.
  destruct (shell_cmd_runner env "git tag | sort -V | tail -1" w)
    as [[tag| |[]] w1]; try done.
  unfold bind.
  destruct (shell_cmd_runner env _ w1) as [[stdout| |] w2]; try done.
  destruct (negb (String.eqb stdout "")); [|done].
  simpl. intros [= <-]. split; [apply split_nonempty|apply has_char_split].
Qed.

Lemma git_log_lines_witness :
  let lines := ["abc1234 added: fixed the thing"; "def5678 update the readme"] in
  lines ≠ [] ∧ Forall (fun line => has_char "010" line = false) lines.
Proof.
  intros lines.
  apply (git_log_lines (Examples2.git_env 0) Examples.world lines).
  reflexivity.
Defined.

(** *** Files *)

Lemma keeps_files_ret {A} (a : A) : keeps_files (ret a).
Proof. done. Qed.

Lemma keeps_files_raise {A} e : keeps_files (raise (A:=A) e).
Proof. done. Qed.

Lemma keeps_files_sys_exit {A} code : keeps_files (sys_exit (A:=A) code).
Proof. done. Qed.

Lemma keeps_files_emit e : keeps_files (emit e).
Proof. done. Qed.

Lemma keeps_files_bind {A B} (m : M A) (k : A → M B) :
  keeps_files m → (∀ a, keeps_files (k a)) → keeps_files (bind m k).
Proof.
  intros Hm Hk w. unfold bind. specialize (Hm w).
  destruct (m w) as [[a| |] w1]; simpl in *; [|done..].
  by rewrite Hk.
Qed.

Lemma keeps_files_shell env cmd : keeps_files (shell_cmd_runner env cmd).
Proof. intros w. by rewrite shell_cmd_runner_run. Qed.

Lemma keeps_files_for_each {A B} (l : list A) (body : B → A → M B) st :
  (∀ st x, keeps_files (body st x)) → keeps_files (for_each l body st).
Proof.
  intros Hbody. revert st. induction l as [|x l IH]; intros st; simpl.
  - apply keeps_files_ret.
  - apply keeps_files_bind; [apply Hbody|]. intros st'. apply IH.
Qed.

Lemma keeps_files_get_git_log env : keeps_files (_get_git_log env).
Proof.
  intros w. unfold _get_git_log.
  pose proof (keeps_files_shell env "git tag | sort -V | tail -1" w) as H1.
  destruct (shell_cmd_runner env "git tag | sort -V | tail -1" w)
    as [[tag| |e] w1]; simpl in H1; [|done|].
  - rewrite <- H1. apply keeps_files_bind; [apply keeps_files_shell|].
    intros stdout. by destruct (negb _).
  - by destruct e.
Qed.

Lemma keeps_files_sort_commits self commits : keeps_files (_sort_commits self commits).
Proof.
  unfold _sort_commits. apply keeps_files_bind.
  - assert (∀ l d, keeps_files (for_each l (sort_commit self) d)) as Hloop.
    { intros l d. apply keeps_files_for_each. clear. intros d line.
      unfold sort_commit. destruct (Py.split1 line) as [hash msg].
      apply keeps_files_for_each. intros d' ct. unfold sort_commit_type.
      destruct msg as [msg|]; [|done]. by destruct (Re.match_ _ _). }
    destruct commits as [[|line lines]|]; [done|apply Hloop|done].
  - intros d. by case_decide.
Qed.

Lemma sort_commits_not_empty self commits w d :
  (_sort_commits self commits w).1 = Return d → d ≠ ∅.
Proof.
  unfold _sort_commits, bind.
  destruct (match commits with
            | Some ((_ :: _) as commits) => for_each commits (sort_commit self) ∅
            | _ => ret ∅
            end w) as [[d'| |] w1]; [|done..].
  case_decide; [done|]. simpl. by intros [= <-].
Qed.

Lemma changelog_text_not_empty env self d :
  String.eqb (changelog_text env self d) "" = false.
Proof. done. Qed.

(** X6.  [create_changelog_file] writes a file only when it succeeds: when
    it returns, the result is the output file, which then holds the
    changelog of a dictionary that is not empty, and no other file is
    touched; when it ends in any other way (no conventional commit found,
    a git command that failed, a malformed log line), the files are as
    before. *)
Theorem create_changelog_file_writes_on_success env self w :
  match create_changelog_file env self w with
  | (Return r, w') =>
      r = Some (output_file self)
      ∧ ∃ commit_dict,
          commit_dict ≠ ∅
          ∧ files w'
            = <[output_file self := changelog_text env self commit_dict]> (files w)
  | (_, w') => files w' = files w
  end.
Proof.
  unfold create_changelog_file, bind.
  pose proof (keeps_files_get_git_log env w) as Hlog.
  destruct (_get_git_log env w) as [[commits| |] w1]; simpl in Hlog;
    [|by simpl..].
  pose proof (keeps_files_sort_commits self commits w1) as Hsort.
  pose proof (sort_commits_not_empty self commits w1) as Hne.
  destruct (_sort_commits self commits w1) as [[d| |] w2]; simpl in Hsort, Hne;
    [|simpl; congruence..].
  unfold _build_changelog_file. rewrite changelog_text_not_empty. simpl.
  split; [done|]. exists d. split; [exact (Hne d eq_refl)|]. congruence.
Qed.

(** *** Rendering *)

Lemma contains_app_r needle hay more :
  contains needle hay → contains needle (hay +:+ more).
Proof.
  intros (pre & post & ->). exists pre, (post +:+ more).
  by rewrite !append_assoc.
Qed.

Lemma contains_bullets (msgs : list string) acc needle :
  contains needle acc →
  contains needle
    (foldl (fun changelog msg => changelog +:+ "* " +:+ msg +:+ Py.nl) acc msgs).
Proof.
  revert acc. induction msgs as [|m msgs IH]; intros acc Hacc; simpl; [done|].
  apply IH. by apply contains_app_r.
Qed.

Lemma contains_bullet (msgs : list string) acc msg :
  msg ∈ msgs →
  contains ("* " +:+ msg +:+ Py.nl)
    (foldl (fun changelog msg => changelog +:+ "* " +:+ msg +:+ Py.nl) acc msgs).
Proof.
  revert acc. induction msgs as [|m msgs IH]; intros acc Hin; [by inversion Hin|].
  simpl. apply elem_of_cons in Hin as [->|Hin]; [|by apply IH].
  apply contains_bullets. exists acc, "". by rewrite append_nil_r.
Qed.

Lemma contains_entries (cts : list CommitType) (d : gmap string (list string))
    acc needle :
  contains needle acc →
  contains needle
    (foldl (fun changelog commit_type =>
              match d !! group commit_type with
              | Some msgs =>
                  foldl (fun changelog msg => changelog +:+ "* " +:+ msg +:+ Py.nl)
                        (changelog +:+ Py.nl +:+ "## " +:+ group commit_type +:+ Py.nl)
                        msgs
              | None => changelog
              end) acc cts).
Proof.
  revert acc. induction cts as [|ct cts IH]; intros acc Hacc; simpl; [done|].
  apply IH. destruct (d !! group ct); [|done].
  by apply contains_bullets, contains_app_r.
Qed.

Lemma contains_entry_from (cts : list CommitType) (d : gmap string (list string))
    acc ct msgs msg :
  ct ∈ cts → d !! group ct = Some msgs → msg ∈ msgs →
  contains ("* " +:+ msg +:+ Py.nl)
    (foldl (fun changelog commit_type =>
              match d !! group commit_type with
              | Some msgs =>
                  foldl (fun changelog msg => changelog +:+ "* " +:+ msg +:+ Py.nl)
                        (changelog +:+ Py.nl +:+ "## " +:+ group commit_type +:+ Py.nl)
                        msgs
              | None => changelog
              end) acc cts).
Proof.
  intros Hct Hd Hmsg. revert acc.
  induction cts as [|ct' cts IH]; intros acc; [by inversion Hct|].
  simpl. apply elem_of_cons in Hct as [<-|Hct]; [|by apply IH].
  rewrite Hd. by apply contains_entries, contains_bullet.
Qed.

Lemma contains_entry self (d : gmap string (list string)) ct msgs msg :
  ct ∈ commit_types self → d !! group ct = Some msgs → msg ∈ msgs →
  contains ("* " +:+ msg +:+ Py.nl) (entries self d).
Proof. apply contains_entry_from. Qed.

Lemma contains_changelog_text env self d needle :
  contains needle (entries self d) → contains needle (changelog_text env self d).
Proof.
  intros (pre & post & E). unfold changelog_text. rewrite E.
  exists (header +:+ heading env self +:+ pre), (post +:+ footer self).
  by rewrite !append_assoc.
Qed.

(** X7.  No classified commit is lost on the way to the file: the
    changelog rendered from the dictionary that [_sort_commits] returns
    holds a bullet line for every rule that matched every commit. *)
Theorem every_hit_is_rendered env self lines w commit_dict h :
  Forall has_message lines →
  (_sort_commits self (Some lines) w).1 = Return commit_dict →
  h ∈ lines ≫= hits self →
  contains ("* " +:+ rendered self h +:+ Py.nl)
           (changelog_text env self commit_dict).
Proof.
  intros Hall Hsort Hh. rewrite (sort_commits_hits self (Some lines) w Hall) in Hsort.
  simpl in Hsort. case_decide as Hnil; [done|]. simpl in Hsort.
  injection Hsort as <-.
  assert (∃ ct, ct ∈ commit_types self ∧ group ct = h.1.1) as (ct & Hct & Hg).
  { apply list_elem_of_bind in Hh as (line & Hh & _). unfold hits in Hh.
    destruct (Py.split1 line) as [hash [msg|]]; [|by inversion Hh].
    apply list_elem_of_fmap in Hh as (ct & -> & Hct%list_elem_of_filter).
    exists ct. by destruct Hct. }
  pose proof (lookup_foldl_record self ∅ (lines ≫= hits self) h.1.1) as Hlook.
  rewrite lookup_empty in Hlook. simpl in Hlook.
  assert (rendered self h
          ∈ rendered self <$> filter (fun h' => h'.1.1 = h.1.1) (lines ≫= hits self))
    as Hin.
  { apply list_elem_of_fmap. exists h. split; [done|].
    by apply list_elem_of_filter. }
  rewrite <- Hlook in Hin.
  destruct (foldl (record_hit self) ∅ (lines ≫= hits self) !! h.1.1)
    as [msgs|] eqn:E; [|by inversion Hin].
  apply contains_changelog_text.
  apply (contains_entry self _ ct msgs); [done|by rewrite Hg|done].
Qed.

Lemma every_hit_is_rendered_witness :
  let self := Examples.builder [Examples.fix_; Examples.fix_anchored] None None in
  let text := "typo [def5678](https://github.com/space/project/commit/def5678)" in
  contains ("* " +:+ text +:+ Py.nl)
           (changelog_text (Examples.env_of "" []) self
              {[ "Bug Fixes" := [text]; "Fixed" := [text] ]}).
Proof.
  intros self text.
  apply (every_hit_is_rendered (Examples.env_of "" []) self
           ["def5678 fix: typo"] Examples.world
           {[ "Bug Fixes" := [text]; "Fixed" := [text] ]}
           ("Fixed", "def5678", "typo")).
  - repeat constructor; eexists; reflexivity.
  - vm_compute. reflexivity.
  - vm_compute. right. left.
Defined.

(** ** VersionCommand *)

Section VersionCommands.
Import VersionCommand VersionCheck.
Context (safe_version : string → string)
        (check_develop : string → option bool)
        (is_version_pep440_compliant : string → bool)
        (version_file_path module_name pyproject_toml_path usage : string).

Local Abbreviation update_version :=
  (VersionCommand.update_version safe_version check_develop module_name
     pyproject_toml_path).
Local Abbreviation new_version_for :=
  (VersionCommand.new_version_for safe_version check_develop).
Local Abbreviation get_current_version :=
  (VersionCommand.get_current_version module_name).
Local Abbreviation versions_equal := (VersionCommand.versions_equal safe_version).
Local Abbreviation verify_version :=
  (VersionCheck.verify_version is_version_pep440_compliant
     version_file_path module_name pyproject_toml_path).
Local Abbreviation print_current_version :=
  (VersionCheck.print_current_version module_name).
Local Abbreviation run :=
  (VersionCheck.run safe_version check_develop is_version_pep440_compliant
     version_file_path module_name pyproject_toml_path usage).

Lemma new_version_for_state new_version develop st :
  (new_version_for new_version develop st).2 = st.
Proof.
  unfold VersionCommand.new_version_for, bind.
  by destruct (check_develop (safe_version new_version)).
Qed.

(** [update_version] in full: what it returns and the state it leaves. *)
Lemma update_version_cases is_quiet new_version develop force st :
  update_version is_quiet new_version develop force st
  = match new_version_for new_version develop st with
    | (Return target, _) =>
        match pyproject_toml st with
        | None =>
            (Raise (VersionError (pyproject_toml_path +:+ " file not found.")), st)
        | Some None =>
            (Raise (VersionError ("Version information not found in "
                                  +:+ pyproject_toml_path +:+ " file.")), st)
        | Some (Some pyproject_version) =>
            let write st0 :=
              (Return tt,
               {| pyproject_toml := Some (Some (safe_version target));
                  version_file := Some (Some (safe_version target));
                  sys_modules := sys_modules st0;
                  printed :=
                    printed st0
                    ++ (if is_quiet then []
                        else ["Updated version from " +:+ pyproject_version
                              +:+ " to " +:+ target]) |}) in
            match version_file st with
            | None => write st
            | Some _ =>
                if force then write st
                else
                  match get_current_version st with
                  | (Return current, st') =>
                      if versions_equal target current
                      then
                        (Return tt,
                         {| pyproject_toml := pyproject_toml st;
                            version_file := version_file st;
                            sys_modules := sys_modules st';
                            printed :=
                              printed st
                              ++ (if is_quiet then []
                                  else ["Version is already up-to-date."]) |})
                      else write st'
                  | (SysExit code, st') => (SysExit code, st')
                  | (Raise e, st') => (Raise e, st')
                  end
            end
        end
    | (SysExit code, _) => (SysExit code, st)
    | (Raise e, _) => (Raise e, st)
    end.
Proof.
  pose proof (new_version_for_state new_version develop st) as Hst.
  destruct (new_version_for new_version develop st) as [[target| |] st0] eqn:Hnew;
    simpl in Hst; subst st0.
  2,3: by unfold VersionCommand.update_version, bind; rewrite Hnew.
  destruct (pyproject_toml st) as [[pyproject_version|]|] eqn:Hpy.
  2,3: by unfold VersionCommand.update_version, bind,
            get_version_from_pyproject_toml; rewrite Hnew, Hpy.
  rewrite (update_version_written safe_version check_develop module_name
             pyproject_toml_path is_quiet
             new_version develop force target st pyproject_version Hnew Hpy).
  by rewrite Hpy.
Qed.

(** What [get_current_version] does to the state: nothing, or the first
    import of the version module. *)
Lemma get_current_version_imports st :
  (get_current_version st).2 = st
  ∨ (sys_modules st = None
     ∧ (get_current_version st).2
       = {| pyproject_toml := pyproject_toml st;
            version_file := version_file st;
            sys_modules := version_file st;
            printed := printed st |}).
Proof.
  unfold VersionCommand.get_current_version, import_module.
  destruct st as [py vf [[v|]|] pr]; simpl; [by left..|].
  destruct vf as [[v|]|]; simpl; [right|right|left]; done.
Qed.

(** X8.  [update_version] is all or nothing: when it does not return, no
    file is written and nothing is printed: the state is as before, or
    differs from it by the first import of the version module; when it
    returns, either both files hold one and the same version, or neither
    was changed. *)
Theorem update_version_all_or_nothing is_quiet new_version develop force st :
  let result := update_version is_quiet new_version develop force st in
  (result.1 ≠ Return tt →
   result.2 = st
   ∨ (sys_modules st = None
      ∧ result.2 = {| pyproject_toml := pyproject_toml st;
                      version_file := version_file st;
                      sys_modules := version_file st;
                      printed := printed st |}))
  ∧ (result.1 = Return tt →
     (∃ version, pyproject_toml result.2 = Some (Some version)
                 ∧ version_file result.2 = Some (Some version))
     ∨ (pyproject_toml result.2 = pyproject_toml st
        ∧ version_file result.2 = version_file st)).
Proof.
  intros result. unfold result. rewrite update_version_cases.
  destruct (new_version_for new_version develop st) as [[target| |] st0];
    [|split; [by left|done]..].
  destruct (pyproject_toml st) as [[pyproject_version|]|] eqn:Hpy;
    [|split; [by left|done]..].
  pose proof (get_current_version_imports st) as Hst.
  destruct (version_file st) as [content|] eqn:Hvf; [destruct force|].
  - split; [done|]. intros _. left. by eexists.
  - destruct (get_current_version st) as [[current| |e] st']; cbn [snd] in Hst;
      cbv zeta.
    + destruct (versions_equal target current); (split; [done|]); intros _.
      * by right.
      * left. by eexists.
    + split; [|done]. intros _. cbn [fst snd]. by rewrite <- Hpy.
    + split; [|done]. intros _. cbn [fst snd]. by rewrite <- Hpy.
  - split; [done|]. intros _. left. by eexists.
Qed.

(** X9.  Repeating an update never changes a file again.  When an update
    returned, and making the version safe a second time does not change
    it, the files are the same after the same update without [force],
    however that one ends.  If the version module has not been imported
    by then, the second update reads the file, finds the version up to
    date and prints only that.  If the module was imported with another
    version before, the second update still compares with that version:
    it writes the files again and reports an update. *)
Theorem update_version_again is_quiet new_version develop force st target :
  (new_version_for new_version develop st).1 = Return target →
  safe_version (safe_version target) = safe_version target →
  let first := update_version is_quiet new_version develop force st in
  first.1 = Return tt →
  let second := update_version is_quiet new_version develop false first.2 in
  pyproject_toml second.2 = pyproject_toml first.2
  ∧ version_file second.2 = version_file first.2
  ∧ (sys_modules first.2 = None →
     second.1 = Return tt
     ∧ printed second.2
       = printed first.2
         ++ (if is_quiet then [] else ["Version is already up-to-date."]))
  ∧ (∀ imported,
       sys_modules first.2 = Some (Some imported) →
       versions_equal target imported = false →
       second.1 = Return tt
       ∧ printed second.2
         = printed first.2
           ++ (if is_quiet then []
               else ["Updated version from " +:+ safe_version target
                     +:+ " to " +:+ target])).
Proof.
  intros Hnew Hsafe first Hfirst second. unfold second, first in *. clear first second.
  assert (∀ st', new_version_for new_version develop st' = (Return target, st'))
    as Hfor.
  { intros st'. revert Hnew. unfold VersionCommand.new_version_for, bind.
    destruct (check_develop (safe_version new_version)); [|done].
    simpl. by intros [= ->]. }
  rewrite (update_version_cases _ _ _ false).
  revert Hfirst. rewrite (update_version_cases _ _ _ force). rewrite !Hfor.
  assert (versions_equal target (safe_version target) = true) as Heq.
  { unfold VersionCommand.versions_equal. rewrite Hsafe. apply String.eqb_refl. }
  destruct st as [[[pyproject_version|]|] vf sm pr]; cbn [pyproject_toml]; [|done..].
  unfold VersionCommand.get_current_version, import_module.
  destruct vf as [[current|]|], force, sm as [[imported|]|];
    cbn [fst snd pyproject_toml version_file sys_modules printed];
    try done;
    try (destruct (versions_equal target imported) eqn:Himp);
    try (destruct (versions_equal target current) eqn:Hcur);
    cbn [fst snd pyproject_toml version_file sys_modules printed];
    try done;
    rewrite ?Heq, ?Himp, ?Hcur;
    cbn [fst snd pyproject_toml version_file sys_modules printed];
    intros _; repeat split; try done; try (intros ? [= <-]); congruence.
Qed.

(** X10.  After a forced update the two files agree.  In a process that
    has not imported the version module before, [verify_version] then
    never reports a mismatch: it passes for ["current"] and for the
    written version behind a [v], provided the written version is PEP 440
    compliant. *)
Theorem update_then_verify is_quiet new_version develop st target
    pyproject_version version :
  (new_version_for new_version develop st).1 = Return target →
  pyproject_toml st = Some (Some pyproject_version) →
  sys_modules st = None →
  is_version_pep440_compliant (safe_version target) = true →
  version = "current" ∨ version = "v" +:+ safe_version target →
  let updated := (update_version is_quiet new_version develop true st).2 in
  (verify_version is_quiet version updated).1 = Return tt.
Proof.
  intros Hnew Hpy Hsm Hok Hversion updated. unfold updated.
  rewrite update_version_cases.
  pose proof (new_version_for_state new_version develop st) as Hst.
  destruct (new_version_for new_version develop st) as [[t| |] st0];
    simpl in Hnew; [|done..]. injection Hnew as ->. rewrite Hpy.
  assert (∀ written,
            pyproject_toml written = Some (Some (safe_version target)) →
            version_file written = Some (Some (safe_version target)) →
            sys_modules written = None →
            (verify_version is_quiet version written).1 = Return tt) as Hverify.
  { intros [py vf sm pr]. simpl. intros -> -> ->.
    unfold VersionCheck.verify_version, bind,
      VersionCommand.get_current_version, import_module,
      get_version_from_pyproject_toml. simpl.
    rewrite Hok. simpl. rewrite String.eqb_refl. simpl.
    destruct Hversion as [->| ->]; simpl; [done|].
    by rewrite String.eqb_refl. }
  destruct (version_file st) as [content|]; simpl; by apply Hverify.
Qed.

(** X11.  [run] turns the [VersionError] of a command into a returned
    text.  With a pyproject.toml at hand, when the command that is asked
    for ends with a [VersionError], [run] returns the text of this error,
    in the state that the command left; so it never ends with a
    [VersionError].  Without the file, every command ends with the
    [VersionError] "Could not find ... file." and changes nothing. *)
Theorem run_reports_version_errors args st :
  (pyproject_toml st ≠ None →
   ∀ text st',
     (command args = Some "update"
      ∧ update_version (quiet args) (version args) (develop args) (force args) st
        = (Raise (VersionError text), st'))
     ∨ (command args = Some "show"
        ∧ print_current_version (quiet args) st = (Raise (VersionError text), st'))
     ∨ (command args = Some "verify"
        ∧ verify_version (quiet args) (version args) st
          = (Raise (VersionError text), st')) →
     run args st = (Return (Some text), st'))
  ∧ (pyproject_toml st ≠ None →
     ∀ text, (run args st).1 ≠ Raise (VersionError text))
  ∧ (pyproject_toml st = None → Py.truthy (command args) = true →
     run args st
     = (Raise (VersionError ("Could not find " +:+ pyproject_toml_path +:+ " file.")),
        st)).
Proof.
  unfold VersionCheck.run. split; [|split].
  - intros Hpy text st' Hcmd.
    destruct (pyproject_toml st) eqn:E; [|done].
    destruct Hcmd as [[-> Hrun]|[[-> Hrun]|[-> Hrun]]];
      cbn -[VersionCommand.update_version VersionCheck.print_current_version
            VersionCheck.verify_version];
      by rewrite E, Hrun.
  - intros Hpy text. destruct (negb (Py.truthy (command args))); [done|].
    destruct (pyproject_toml st); [|done].
    match goal with
    | |- context [match ?body st with _ => _ end] =>
        destruct (body st) as [[?| |[]] st']
    end; done.
  - intros Hpy Hcmd. rewrite Hcmd. simpl. by rewrite Hpy.
Qed.

End VersionCommands.

Lemma update_version_again_witness :
  let first :=
    VersionCommand.update_version Examples.safe_version Examples.check_develop
      "project.__version__" "pyproject.toml"
      false "21.6.2" true false (Examples.project_state None) in
  let second :=
    VersionCommand.update_version Examples.safe_version Examples.check_develop
      "project.__version__" "pyproject.toml"
      false "21.6.2" true false first.2 in
  VersionCommand.version_file first.2 = Some (Some "21.6.2.dev1")
  ∧ VersionCommand.sys_modules first.2 = Some (Some "21.6.1")
  ∧ VersionCommand.pyproject_toml second.2 = VersionCommand.pyproject_toml first.2
  ∧ VersionCommand.version_file second.2 = VersionCommand.version_file first.2
  ∧ second.1 = Return tt
  ∧ VersionCommand.printed second.2
    = VersionCommand.printed first.2
      ++ ["Updated version from 21.6.2.dev1 to 21.6.2.dev1"].
Proof.
  intros first second. split; [reflexivity|]. split; [reflexivity|].
  destruct (update_version_again Examples.safe_version Examples.check_develop
              "project.__version__" "pyproject.toml"
              false "21.6.2" true false (Examples.project_state None)
              "21.6.2.dev1" eq_refl eq_refl eq_refl)
    as (Hpy & Hvf & _ & Hagain).
  split; [exact Hpy|]. split; [exact Hvf|].
  apply (Hagain "21.6.1"); reflexivity.
Defined.

Lemma update_then_verify_witness :
  let updated :=
    (VersionCommand.update_version Examples.safe_version Examples.check_develop
       "project.__version__" "pyproject.toml"
       false "21.6.2" true true Examples.version_state).2 in
  (VersionCheck.verify_version Examples2.is_version_pep440_compliant
     "project/__version__.py" "project.__version__" "pyproject.toml"
     false "v21.6.2.dev1" updated).1
  = Return tt.
Proof.
  apply (update_then_verify Examples.safe_version Examples.check_develop
           Examples2.is_version_pep440_compliant
           "project/__version__.py" "project.__version__" "pyproject.toml"
           false "21.6.2" true Examples.version_state "21.6.2.dev1" "21.6.1"
           "v21.6.2.dev1");
    [reflexivity|reflexivity|reflexivity|reflexivity|right; reflexivity].
Defined.

Lemma run_reports_version_errors_witness :
  let args := {| VersionCheck.command := Some "show";
                 VersionCheck.quiet := false;
                 VersionCheck.version := "";
                 VersionCheck.force := false;
                 VersionCheck.develop := false |} in
  VersionCheck.run Examples.safe_version Examples.check_develop
    Examples2.is_version_pep440_compliant
    "project/__version__.py" "project.__version__" "pyproject.toml" "usage"
    args Examples.version_state
  = (Return (Some "Could not load version from project.__version__. Import failed."),
     Examples.version_state).
Proof.
  intros args.
  destruct (run_reports_version_errors Examples.safe_version Examples.check_develop
              Examples2.is_version_pep440_compliant
              "project/__version__.py" "project.__version__" "pyproject.toml"
              "usage" args Examples.version_state) as (Hreturned & _ & _).
  apply Hreturned; [done|]. right. left. split; reflexivity.
Defined.

(** ** prepare: after the guardian *)

Lemma bind_Return {S A B} (m : St S A) (k : A → St S B) w a w' :
  m w = (Return a, w') → bind m k w = k a w'.
Proof. intros H. unfold bind. by rewrite H. Qed.

Lemma terminal_run l text w : terminal l text w = (Return tt, log w [Term l text]).
Proof. done. Qed.

Lemma git_list_tags_run env w :
  git_list_tags env w = (Return (list_tags env (trace w)), log w [ListTags]).
Proof. done. Qed.

Lemma read_text_run path text w :
  files w !! path = Some text →
  read_text path w = (Return text, log w [ReadText path]).
Proof.
  intros H. unfold read_text, bind, emit. cbn [fst snd trace files]. by rewrite H.
Qed.

Lemma write_text_run path text w :
  write_text path text w
  = (Return tt, {| trace := trace w ++ [WriteText path text];
                   files := <[path := text]> (files w) |}).
Proof. done. Qed.

Lemma shell_cmd_runner_ok env cmd w :
  (∀ t cmd, (shell_result env t cmd).1 = 0) →
  shell_cmd_runner env cmd w
  = (Return (shell_result env (trace w) cmd).2, log w [Shell cmd]).
Proof.
  intros Hok. rewrite shell_cmd_runner_run. specialize (Hok (trace w) cmd).
  destruct (shell_result env (trace w) cmd) as [rc stdout]. simpl in *. by subst rc.
Qed.

Lemma update_version_run env (new : string) (develop : bool) w :
  let args := ["--quiet"; "update"; new] ++ (if develop then ["--develop"] else []) in
  Helper.update_version env new develop w
  = (Return (version_main env (trace w) args),
     log w (VersionMain args
            :: if (version_main env (trace w) args).1 then []
               else [Term Error
                       (if String.eqb (version_main env (trace w) args).2 ""
                        then "No project definition found."
                        else "Unable to update version " +:+ new +:+ " in "
                             +:+ (version_main env (trace w) args).2)])).
Proof.
  intros args. unfold Helper.update_version. fold args.
  unfold bind, get_trace, emit. cbn [fst snd trace files].
  destruct (version_main env (trace w) args) as [[|] filename]; simpl.
  - done.
  - destruct (String.eqb filename ""); unfold terminal, emit, log; simpl;
      by rewrite <- app_assoc.
Qed.

Lemma commit_files_run env filename commit_msg git_signing_key changelog w :
  (∀ t cmd, (shell_result env t cmd).1 = 0) →
  Helper.commit_files env filename commit_msg git_signing_key changelog w
  = (Return tt,
     log w ([Shell ("git add " +:+ filename);
             Shell "git add *__version__.py || echo 'ignoring __version__'"]
            ++ (if changelog then [Shell "git add CHANGELOG.md"] else [])
            ++ [Shell (if negb (String.eqb git_signing_key "")
                       then "git commit -S" +:+ git_signing_key
                            +:+ " --no-verify -m '" +:+ commit_msg +:+ "'"
                       else "git commit --no-verify -m '" +:+ commit_msg +:+ "'")])).
Proof.
  intros Hok. unfold Helper.commit_files.
  erewrite bind_Return by (by apply shell_cmd_runner_ok).
  erewrite bind_Return by (by apply shell_cmd_runner_ok).
  destruct changelog.
  - erewrite bind_Return.
    2:{ erewrite bind_Return by (by apply shell_cmd_runner_ok). reflexivity. }
    destruct (negb (String.eqb git_signing_key ""));
      (erewrite bind_Return by (by apply shell_cmd_runner_ok));
      unfold ret, log; simpl; by rewrite <- !app_assoc.
  - erewrite bind_Return by reflexivity.
    destruct (negb (String.eqb git_signing_key ""));
      (erewrite bind_Return by (by apply shell_cmd_runner_ok));
      unfold ret, log; simpl; by rewrite <- !app_assoc.
Qed.

(** [prepare] from the guardian on, when the tag is free. *)
Lemma prepare_tag_free env args w git_signing_key project release_version w1 :
  Prepare.prepare_release env args w
  = (Return (git_signing_key, project, release_version), w1) →
  Prepare.git_tag_prefix args +:+ release_version ∉ list_tags env (trace w1) →
  Prepare.prepare env args w
  = (let* (executed, filename) :=
       Helper.update_version env release_version false in
     if negb executed then ret false
     else
       terminal Ok ("updated version  in " +:+ filename +:+ " to "
                    +:+ release_version);;
       let* (changelog_bool, changelog_text) :=
         if Prepare.conventional_commits args
         then Prepare.changelog_from_commits env release_version git_signing_key
         else Prepare.changelog_from_file env args release_version in
       terminal Info "Committing changes";;
       let commit_msg := "Automatic release to " +:+ release_version in
       Helper.commit_files env filename commit_msg git_signing_key changelog_bool;;
       (if negb (String.eqb git_signing_key "")
        then shell_cmd_runner env
               ("git tag -u " +:+ git_signing_key +:+ " "
                +:+ (Prepare.git_tag_prefix args +:+ release_version)
                +:+ " -m '" +:+ commit_msg +:+ "'")
        else shell_cmd_runner env
               ("git tag " +:+ (Prepare.git_tag_prefix args +:+ release_version)
                +:+ " -m '" +:+ commit_msg +:+ "'"));;
       write_text Prepare.RELEASE_TEXT_FILE changelog_text;;
       terminal Warning
         ("Please verify git tag "
          +:+ (Prepare.git_tag_prefix args +:+ release_version)
          +:+ ", commit and release text in " +:+ Prepare.RELEASE_TEXT_FILE);;
       terminal Print "Afterwards please execute release";;
       ret true) (log w1 [ListTags]).
Proof.
  intros Hrel Hfree. unfold Prepare.prepare.
  rewrite (bind_Return _ _ _ _ _ Hrel).
  rewrite (bind_Return _ _ _ _ _ (git_list_tags_run env w1)).
  by rewrite bool_decide_eq_false_2.
Qed.

(** X12.  When the tag is free and the version update does not succeed,
    [prepare] returns [False] right away: besides listing the tags and
    the failed update, nothing is called, no file is written, nothing is
    committed or tagged. *)
Theorem prepare_update_fails env args w git_signing_key project release_version
    w1 filename :
  Prepare.prepare_release env args w
  = (Return (git_signing_key, project, release_version), w1) →
  Prepare.git_tag_prefix args +:+ release_version ∉ list_tags env (trace w1) →
  version_main env (trace w1 ++ [ListTags]) ["--quiet"; "update"; release_version]
  = (false, filename) →
  Prepare.prepare env args w
  = (Return false,
     log w1 [ListTags;
             VersionMain ["--quiet"; "update"; release_version];
             Term Error (if String.eqb filename ""
                         then "No project definition found."
                         else "Unable to update version " +:+ release_version
                              +:+ " in " +:+ filename)]).
Proof.
  intros Hrel Hfree Hmain.
  rewrite (prepare_tag_free _ _ _ _ _ _ _ Hrel Hfree).
  erewrite bind_Return by apply update_version_run.
  simpl. rewrite Hmain. simpl. unfold ret, log. simpl. by rewrite <- app_assoc.
Qed.

(** X13.  A failure after the version update is not rolled back.  When the
    update succeeded and CHANGELOG.md holds no section to release, neither
    for the version nor unversioned, [prepare] ends the process with code
    1: the version update has been made, and nothing is written, committed
    or tagged. *)
Theorem prepare_no_unreleased_section env args w git_signing_key project
    release_version w1 filename text :
  Prepare.prepare_release env args w
  = (Return (git_signing_key, project, release_version), w1) →
  Prepare.git_tag_prefix args +:+ release_version ∉ list_tags env (trace w1) →
  version_main env (trace w1 ++ [ListTags]) ["--quiet"; "update"; release_version]
  = (true, filename) →
  Prepare.conventional_commits args = false →
  Py.truthy (Prepare.changelog args) = false →
  files w1 !! "CHANGELOG.md" = Some text →
  (changelog_update env text release_version (Prepare.git_tag_prefix args)
     (Some release_version)).1 = "" →
  (changelog_update env text release_version (Prepare.git_tag_prefix args)
     None).1 = "" →
  Prepare.prepare env args w
  = (SysExit 1,
     log w1 [ListTags;
             VersionMain ["--quiet"; "update"; release_version];
             Term Ok ("updated version  in " +:+ filename +:+ " to "
                      +:+ release_version);
             ReadText "CHANGELOG.md";
             ReadText "CHANGELOG.md";
             Term Error "No unreleased text found in CHANGELOG.md"]).
Proof.
  intros Hrel Hfree Hmain Hcc Hlog Hfile Hfirst Hsecond.
  rewrite (prepare_tag_free _ _ _ _ _ _ _ Hrel Hfree).
  erewrite bind_Return by apply update_version_run.
  simpl. rewrite Hmain. simpl. rewrite Hcc.
  erewrite bind_Return by apply terminal_run.
  unfold Prepare.changelog_from_file. rewrite Hlog.
  unfold bind at 1. unfold bind at 1. unfold ret at 1.
  erewrite bind_Return by (by apply read_text_run).
  destruct (changelog_update env text release_version (Prepare.git_tag_prefix args)
              (Some release_version)) as [updated changelog_text].
  simpl in Hfirst. subst updated. simpl.
  unfold bind at 1.
  erewrite bind_Return by (by apply read_text_run).
  unfold ret at 1.
  destruct (changelog_update env text release_version (Prepare.git_tag_prefix args)
              None) as [updated changelog_text'].
  simpl in Hsecond. subst updated. simpl.
  unfold bind, terminal, emit, sys_exit, log. simpl.
  by rewrite <- !app_assoc.
Qed.

(** X14.  A run of [prepare] that succeeds on CHANGELOG.md.  When the tag
    is free, the version update succeeds, the section to release is found
    at the first attempt and every shell command succeeds, [prepare]
    returns [True] after these calls, in this order: the version update,
    the rewritten CHANGELOG.md, the commit of the project file, the
    version file and CHANGELOG.md, the tag for the prefixed version, and
    the release text, which is the section found.  The commit and the tag
    are signed exactly when there is a signing key. *)
Theorem prepare_succeeds env args w git_signing_key project release_version
    w1 filename text updated changelog_text :
  Prepare.prepare_release env args w
  = (Return (git_signing_key, project, release_version), w1) →
  Prepare.git_tag_prefix args +:+ release_version ∉ list_tags env (trace w1) →
  version_main env (trace w1 ++ [ListTags]) ["--quiet"; "update"; release_version]
  = (true, filename) →
  Prepare.conventional_commits args = false →
  Py.truthy (Prepare.changelog args) = false →
  files w1 !! "CHANGELOG.md" = Some text →
  changelog_update env text release_version (Prepare.git_tag_prefix args)
                   (Some release_version) = (updated, changelog_text) →
  updated ≠ "" →
  (∀ t cmd, (shell_result env t cmd).1 = 0) →
  let git_version := Prepare.git_tag_prefix args +:+ release_version in
  let commit_msg := "Automatic release to " +:+ release_version in
  Prepare.prepare env args w
  = (Return true,
     {| trace :=
          trace w1
          ++ [ListTags;
              VersionMain ["--quiet"; "update"; release_version];
              Term Ok ("updated version  in " +:+ filename +:+ " to "
                       +:+ release_version);
              ReadText "CHANGELOG.md";
              WriteText "CHANGELOG.md" updated;
              Term Ok "Updated CHANGELOG.md";
              Term Info "Committing changes";
              Shell ("git add " +:+ filename);
              Shell "git add *__version__.py || echo 'ignoring __version__'";
              Shell "git add CHANGELOG.md";
              Shell (if negb (String.eqb git_signing_key "")
                     then "git commit -S" +:+ git_signing_key
                          +:+ " --no-verify -m '" +:+ commit_msg +:+ "'"
                     else "git commit --no-verify -m '" +:+ commit_msg +:+ "'");
              Shell (if negb (String.eqb git_signing_key "")
                     then "git tag -u " +:+ git_signing_key +:+ " " +:+ git_version
                          +:+ " -m '" +:+ commit_msg +:+ "'"
                     else "git tag " +:+ git_version
                          +:+ " -m '" +:+ commit_msg +:+ "'");
              WriteText ".release.md" changelog_text;
              Term Warning ("Please verify git tag " +:+ git_version
                            +:+ ", commit and release text in .release.md");
              Term Print "Afterwards please execute release"];
        files := <[".release.md" := changelog_text]>
                   (<["CHANGELOG.md" := updated]> (files w1)) |}).
Proof.
  intros Hrel Hfree Hmain Hcc Hlog Hfile Hupdate Hupdated Hshell git_version commit_msg.
  rewrite (prepare_tag_free _ _ _ _ _ _ _ Hrel Hfree).
  erewrite bind_Return by apply update_version_run.
  simpl. rewrite Hmain. simpl. rewrite Hcc.
  erewrite bind_Return by apply terminal_run.
  erewrite bind_Return.
  2:{ unfold Prepare.changelog_from_file. rewrite Hlog.
      unfold bind at 1. unfold ret at 1.
      erewrite bind_Return by (by apply read_text_run).
      rewrite Hupdate. apply String.eqb_neq in Hupdated. rewrite Hupdated.
      unfold bind at 1. unfold ret at 1. rewrite Hupdated.
      erewrite bind_Return by apply write_text_run.
      erewrite bind_Return by apply terminal_run.
      reflexivity. }
  cbv beta iota.
  erewrite bind_Return by apply terminal_run.
  erewrite bind_Return by (by apply commit_files_run).
  fold git_version commit_msg.
  destruct (negb (String.eqb git_signing_key ""));
    (erewrite bind_Return by (by apply shell_cmd_runner_ok));
    (erewrite bind_Return by apply write_text_run);
    (erewrite bind_Return by apply terminal_run);
    (erewrite bind_Return by apply terminal_run);
    unfold ret, log; simpl; by rewrite <- !app_assoc.
Qed.

Lemma prepare_update_fails_witness :
  Prepare.prepare (Examples2.prepare_env false "") Examples2.prepare_args
                  Examples.world
  = (Return false,
     log Examples.world
         [Term Info "Preparing the release 1.0.0";
          ListTags;
          VersionMain ["--quiet"; "update"; "1.0.0"];
          Term Error "Unable to update version 1.0.0 in pyproject.toml"]).
Proof.
  rewrite (prepare_update_fails (Examples2.prepare_env false "")
             Examples2.prepare_args Examples.world "" "project" "1.0.0"
             (log Examples.world [Term Info "Preparing the release 1.0.0"])
             "pyproject.toml").
  - reflexivity.
  - reflexivity.
  - vm_compute. intros H. by repeat (inversion H as [|? ? ? H']; clear H; rename H' into H).
  - reflexivity.
Defined.

Lemma prepare_no_unreleased_section_witness :
  Prepare.prepare (Examples2.prepare_env true "") Examples2.prepare_args
                  Examples.world
  = (SysExit 1,
     log Examples.world
         [Term Info "Preparing the release 1.0.0";
          ListTags;
          VersionMain ["--quiet"; "update"; "1.0.0"];
          Term Ok "updated version  in pyproject.toml to 1.0.0";
          ReadText "CHANGELOG.md";
          ReadText "CHANGELOG.md";
          Term Error "No unreleased text found in CHANGELOG.md"]).
Proof.
  rewrite (prepare_no_unreleased_section (Examples2.prepare_env true "")
             Examples2.prepare_args Examples.world "" "project" "1.0.0"
             (log Examples.world [Term Info "Preparing the release 1.0.0"])
             "pyproject.toml" "## [Unreleased]").
  - reflexivity.
  - reflexivity.
  - vm_compute. intros H. by repeat (inversion H as [|? ? ? H']; clear H; rename H' into H).
  - reflexivity.
  - reflexivity.
  - reflexivity.
  - reflexivity.
  - reflexivity.
  - reflexivity.
Defined.

Lemma prepare_succeeds_witness :
  (Prepare.prepare (Examples2.prepare_env true "## [1.0.0]")
                   Examples2.prepare_args Examples.world).1
  = Return true.
Proof.
  rewrite (prepare_succeeds (Examples2.prepare_env true "## [1.0.0]")
             Examples2.prepare_args Examples.world "" "project" "1.0.0"
             (log Examples.world [Term Info "Preparing the release 1.0.0"])
             "pyproject.toml" "## [Unreleased]" "## [1.0.0]"
             "## [1.0.0] - 2022-05-17").
  - reflexivity.
  - reflexivity.
  - vm_compute. intros H. by repeat (inversion H as [|? ? ? H']; clear H; rename H' into H).
  - reflexivity.
  - reflexivity.
  - reflexivity.
  - reflexivity.
  - reflexivity.
  - done.
  - intros t cmd. reflexivity.
Defined.


(** ** pull_request_files *)

Section PullRequestFiles.
Import PullRequests.

Lemma FileStatus_of_Some value status :
  FileStatus_of value = Some status ↔ value = JStr (FileStatus_value status).
Proof.
  split; [|intros ->; by destruct status].
  destruct value as [s| |]; simpl; [|done..].
  destruct (String.eqb_spec s "added") as [->|_]; [by intros [= <-]|].
  destruct (String.eqb_spec s "deleted") as [->|_]; [by intros [= <-]|].
  destruct (String.eqb_spec s "modified") as [->|_]; [by intros [= <-]|].
  destruct (String.eqb_spec s "renamed") as [->|_]; [by intros [= <-]|].
  done.
Qed.

Lemma FileStatus_value_inj a b : FileStatus_value a = FileStatus_value b → a = b.
Proof. by destruct a, b. Qed.

(** What one object adds to the list of a status. *)
Lemma files_with_one status (f : gmap string json) s filename :
  f !! "status" = Some (JStr s) → f !! "filename" = Some (JStr filename) →
  files_with status [f]
  = if String.eqb s (FileStatus_value status) then [PathOf filename] else [].
Proof.
  intros Hs Hf. unfold files_with. simpl. rewrite Hs, Hf.
  by destruct (String.eqb s (FileStatus_value status)).
Qed.

Lemma add_file_lookup status_list d f :
  file_object f →
  ∃ d', add_file status_list d f = inr d'
        ∧ ∀ status,
            default [] (d' !! status)
            = default [] (d !! status)
              ++ (if bool_decide (status ∈ status_list)
                  then files_with status [f] else []).
Proof.
  intros (s & filename & Hs & Hf). unfold add_file. rewrite Hs.
  destruct (FileStatus_of (JStr s)) as [st|] eqn:E.
  - apply FileStatus_of_Some in E. injection E as ->.
    destruct (bool_decide (st ∈ status_list)) eqn:Hin.
    + rewrite Hf. eexists. split; [done|]. intros status.
      rewrite (files_with_one status f _ filename Hs Hf). unfold append_file.
      destruct (decide (st = status)) as [->|Hne].
      * rewrite lookup_insert_eq, String.eqb_refl, Hin. done.
      * rewrite lookup_insert_ne by done.
        destruct (String.eqb_spec (FileStatus_value st) (FileStatus_value status))
          as [Heq%FileStatus_value_inj|_]; [done|].
        destruct (bool_decide (status ∈ status_list)); simpl; by rewrite app_nil_r.
    + exists d. split; [done|]. intros status.
      rewrite (files_with_one status f _ filename Hs Hf).
      destruct (String.eqb_spec (FileStatus_value st) (FileStatus_value status))
        as [Heq%FileStatus_value_inj|_].
      * subst. rewrite Hin. simpl. by rewrite app_nil_r.
      * destruct (bool_decide (status ∈ status_list)); simpl; by rewrite app_nil_r.
  - exists d. split; [done|]. intros status.
    rewrite (files_with_one status f _ filename Hs Hf).
    destruct (String.eqb_spec s (FileStatus_value status)) as [->|_].
    + by rewrite (proj2 (FileStatus_of_Some _ status)) in E.
    + destruct (bool_decide (status ∈ status_list)); simpl; by rewrite app_nil_r.
Qed.

Lemma files_with_cons status f data :
  files_with status (f :: data) = files_with status [f] ++ files_with status data.
Proof.
  unfold files_with. simpl.
  destruct (f !! "status") as [[s| |]|]; try done.
  destruct (f !! "filename") as [[filename| |]|]; try done.
  by destruct (String.eqb s (FileStatus_value status)).
Qed.

Lemma add_files_lookup status_list d data :
  Forall file_object data →
  ∃ d', add_files status_list d data = inr d'
        ∧ ∀ status,
            default [] (d' !! status)
            = default [] (d !! status)
              ++ (if bool_decide (status ∈ status_list)
                  then files_with status data else []).
Proof.
  intros Hall. revert d. induction Hall as [|f data Hf _ IH]; intros d.
  - exists d. split; [done|]. intros status. simpl.
    destruct (bool_decide (status ∈ status_list)); by rewrite app_nil_r.
  - destruct (add_file_lookup status_list d f Hf) as (d1 & Hd1 & Hl1).
    destruct (IH d1) as (d2 & Hd2 & Hl2).
    exists d2. split; [simpl; by rewrite Hd1|]. intros status.
    rewrite Hl2, Hl1, (files_with_cons status f data).
    destruct (bool_decide (status ∈ status_list)).
    + symmetry. apply app_assoc.
    + by rewrite !app_nil_r.
Qed.

(** A status is a key only with a file. *)
Lemma add_files_keys status_list d data d' status :
  add_files status_list d data = inr d' →
  (∀ st, d !! st ≠ Some []) →
  d' !! status ≠ Some [].
Proof.
  revert d. induction data as [|f data IH]; intros d; simpl.
  { intros [= <-] Hd. apply Hd. }
  destruct (add_file status_list d f) as [e|d1] eqn:E; [done|].
  intros Hrest Hd. apply (IH d1 Hrest). clear IH Hrest. intros st.
  revert E. unfold add_file.
  destruct (f !! "status") as [value|]; [|done].
  destruct (FileStatus_of value) as [st'|]; [|by intros [= <-]].
  case_bool_decide; [|by intros [= <-]].
  destruct (f !! "filename") as [[filename| |]|]; try done.
  intros [= <-]. unfold append_file.
  destruct (decide (st' = st)) as [->|Hne].
  - rewrite lookup_insert_eq. intros [= Hnil]. by destruct (default [] (d !! st)).
  - by rewrite lookup_insert_ne.
Qed.

(** X15.  For objects that all carry a status and a file name,
    [pull_request_files] returns a dictionary, and never an error: under a
    requested status stand the files that have this status, in the order
    in which they came; a status that was not requested, or that no file
    has, is not a key. *)
Theorem pull_request_files_by_status
    (_request_all : string → list (string * string) → list (gmap string json))
    repo pull_request status_list :
  let data := _request_all ("/repos/" +:+ repo +:+ "/pulls/"
                            +:+ Py.str pull_request +:+ "/files")
                           [("per_page", "100")] in
  Forall file_object data →
  ∃ file_dict,
    pull_request_files _request_all repo pull_request status_list = inr file_dict
    ∧ ∀ status,
        file_dict !! status
        = if bool_decide (status ∈ status_list ∧ files_with status data ≠ [])
          then Some (files_with status data)
          else None.
Proof.
  intros data Hall. unfold pull_request_files. fold data.
  destruct (add_files_lookup status_list ∅ data Hall) as (d & Hd & Hlook).
  exists d. split; [done|]. intros status.
  specialize (Hlook status). rewrite lookup_empty in Hlook. simpl in Hlook.
  pose proof (add_files_keys status_list ∅ data d status Hd) as Hkeys.
  assert (d !! status ≠ Some []) as Hne.
  { apply Hkeys. intros st. by rewrite lookup_empty. }
  destruct (d !! status) as [paths|] eqn:E; simpl in Hlook.
  - subst paths. case_bool_decide as Hin.
    + rewrite bool_decide_eq_true_2; [done|]. split; [done|]. congruence.
    + done.
  - rewrite bool_decide_eq_false_2; [done|]. intros [Hin Hfiles].
    rewrite bool_decide_eq_true_2 in Hlook by done. congruence.
Qed.

Lemma pull_request_files_by_status_witness :
  let data := [ {[ "status" := JStr "added"; "filename" := JStr "a.py" ]};
                {[ "status" := JStr "modified"; "filename" := JStr "b.py" ]};
                {[ "status" := JStr "added"; "filename" := JStr "c.py" ]} ] in
  ∃ file_dict,
    pull_request_files (fun _ _ => data) "greenbone/pontos" 1 [ADDED; DELETED]
    = inr file_dict
    ∧ ∀ status,
        file_dict !! status
        = if bool_decide (status ∈ [ADDED; DELETED] ∧ files_with status data ≠ [])
          then Some (files_with status data)
          else None.
Proof.
  intros data.
  apply (pull_request_files_by_status (fun _ _ => data) "greenbone/pontos" 1
           [ADDED; DELETED]).
  repeat constructor.
  - exists "added", "a.py". split; vm_compute; reflexivity.
  - exists "modified", "b.py". split; vm_compute; reflexivity.
  - exists "added", "c.py". split; vm_compute; reflexivity.
Defined.

(** X16.  An object whose status is unknown, or is not among the requested
    ones, is passed over before its file name is looked at: it can be
    taken out of the data, with or without a file name, and the result is
    the same. *)
Theorem pull_request_files_skips
    (_request_all _request_all' : string → list (string * string)
                                  → list (gmap string json))
    repo pull_request status_list before f after value :
  let api := "/repos/" +:+ repo +:+ "/pulls/" +:+ Py.str pull_request +:+ "/files" in
  _request_all api [("per_page", "100")] = before ++ f :: after →
  _request_all' api [("per_page", "100")] = before ++ after →
  f !! "status" = Some value →
  (∀ status, FileStatus_of value = Some status → status ∉ status_list) →
  pull_request_files _request_all repo pull_request status_list
  = pull_request_files _request_all' repo pull_request status_list.
Proof.
  intros api Hdata Hdata' Hstatus Hskip. unfold pull_request_files. fold api.
  rewrite Hdata, Hdata'. clear Hdata Hdata'.
  generalize (∅ : gmap FileStatus (list Path)).
  induction before as [|g before IH]; intros d; simpl.
  - unfold add_file. rewrite Hstatus.
    destruct (FileStatus_of value) as [status|]; [|done].
    rewrite bool_decide_eq_false_2; [done|]. by apply Hskip.
  - destruct (add_file status_list d g); [done|]. apply IH.
Qed.

Lemma pull_request_files_skips_witness :
  pull_request_files (fun _ _ => Examples2.pull_request_data) "greenbone/pontos" 1
                     [ADDED; MODIFIED]
  = pull_request_files
      (fun _ _ =>
         [ {[ "status" := JStr "added"; "filename" := JStr "a.py" ]};
           {[ "status" := JStr "modified"; "filename" := JStr "b.py" ]};
           {[ "status" := JStr "added"; "filename" := JStr "c.py" ]};
           {[ "status" := JStr "deleted"; "filename" := JStr "d.py" ]} ])
      "greenbone/pontos" 1 [ADDED; MODIFIED].
Proof.
  apply (pull_request_files_skips _ _ "greenbone/pontos" 1 [ADDED; MODIFIED]
           [ {[ "status" := JStr "added"; "filename" := JStr "a.py" ]} ]
           {[ "status" := JStr "copied" ]}
           [ {[ "status" := JStr "modified"; "filename" := JStr "b.py" ]};
             {[ "status" := JStr "added"; "filename" := JStr "c.py" ]};
             {[ "status" := JStr "deleted"; "filename" := JStr "d.py" ]} ]
           (JStr "copied")).
  - reflexivity.
  - reflexivity.
  - vm_compute. reflexivity.
  - intros status. simpl. discriminate.
Defined.

End PullRequestFiles.

(** ** Jobs: release.py and sign.py *)

Section Jobs.
Import Site.
Local Open Scope site_scope.

Lemma after_nil s : after s [] = s.
Proof. destruct s. unfold after. simpl. by rewrite app_nil_r. Qed.

Lemma after_app s cs cs' : after (after s cs) cs' = after s (cs ++ cs').
Proof. unfold after. simpl. by rewrite app_assoc. Qed.

Lemma local_events_app cs cs' :
  local_events (cs ++ cs') = local_events cs ++ local_events cs'.
Proof. unfold local_events. apply omap_app. Qed.

Lemma local_events_Local evs : local_events (Local <$> evs) = evs.
Proof. induction evs as [|e evs IH]; [done|]. simpl. f_equal. exact IH. Qed.

(** A computation of [M] that ends in the world of the state with the
    calls [evs] added and the files [fs], run as a job. *)
Lemma lift_run {A} (m : M A) s r evs fs :
  m (world_of s) = (r, {| trace := local_events (calls s) ++ evs; files := fs |}) →
  lift m s
  = (match r with
     | Return a => Done a
     | SysExit code => Exit code
     | Raise e => Fail (Exn e)
     end,
     {| calls := calls s ++ (Local <$> evs); site_files := fs |}).
Proof.
  intros H. unfold lift. fold (world_of s). rewrite H.
  cbn [trace files world_of]. rewrite drop_app_length. by destruct r.
Qed.

Lemma lift_log {A} (m : M A) s r evs :
  m (world_of s) = (r, log (world_of s) evs) →
  lift m s
  = (match r with
     | Return a => Done a
     | SysExit code => Exit code
     | Raise e => Fail (Exn e)
     end, after s (Local <$> evs)).
Proof. intros H. by apply lift_run. Qed.

Lemma then_Done {A B} (j : Job A) (k : A → Job B) s a s' :
  j s = (Done a, s') → then_ j k s = k a s'.
Proof. intros H. unfold then_. by rewrite H. Qed.

Lemma confined_weaken (P P' : call → Prop) {A} (Q Q' : A → Prop) (j : Job A) :
  (∀ c, P c → P' c) → (∀ a, Q a → Q' a) → confined P Q j → confined P' Q' j.
Proof.
  intros HP HQ Hj s. destruct (Hj s) as (cs & Hs & Hcs & Ha).
  exists cs. split; [done|]. split; [|by auto].
  eapply Forall_impl; [done|]. apply HP.
Qed.

Lemma confined_done P {A} (Q : A → Prop) a : Q a → confined P Q (done a).
Proof.
  intros Ha s. exists []. rewrite after_nil. split; [done|]. split; [done|].
  by intros ? [= <-].
Qed.

Lemma confined_fail P {A} (Q : A → Prop) e : confined P Q (fail e).
Proof. intros s. exists []. by rewrite after_nil. Qed.

Lemma confined_note (P : call → Prop) c : P c → confined P (λ _, True) (note c).
Proof. intros Hc s. exists [c]. split; [done|]. split; [by constructor|done]. Qed.

Lemma confined_then P {A B} (Q : A → Prop) (R : B → Prop)
    (j : Job A) (k : A → Job B) :
  confined P Q j → (∀ a, Q a → confined P R (k a)) → confined P R (then_ j k).
Proof.
  intros Hj Hk s. destruct (Hj s) as (cs & Hs & Hcs & Ha).
  unfold then_. destruct (j s) as [[a|code|e] s1]; simpl in Hs; subst s1.
  - destruct (Hk a (Ha a eq_refl) (after s cs)) as (cs' & Hs' & Hcs' & Hb).
    exists (cs ++ cs'). rewrite Hs', after_app. split; [done|].
    split; [by apply Forall_app|done].
  - by exists cs.
  - by exists cs.
Qed.

Lemma confined_request P {A} (Q : A → Prop) c (answer : list call → http A) :
  P c → (∀ cs a, answer cs = Answer a → Q a) → confined P Q (request c answer).
Proof.
  intros Hc Hanswer s. exists [c]. unfold request, then_, get_calls, note. simpl.
  destruct (answer (calls s)) as [a|text] eqn:E; simpl.
  - split; [done|]. split; [by constructor|]. intros ? [= <-]. by eapply Hanswer.
  - split; [done|]. split; [by constructor|done].
Qed.

Lemma confined_each P {A} (l : list A) (body : A → Job unit) :
  (∀ x, confined P (λ _, True) (body x)) → confined P (λ _, True) (each l body).
Proof.
  intros Hbody. induction l as [|x l IH]; simpl.
  - by apply confined_done.
  - eapply confined_then; [apply Hbody|]. intros _ _. apply IH.
Qed.

(** A computation of [M] that leaves the files as they are, run as a
    job. *)
Lemma confined_lift (P : call → Prop) {A} (m : M A) :
  (∀ w, ∃ evs, (m w).2 = log w evs ∧ Forall (λ e, P (Local e)) evs) →
  confined P (λ _, True) (lift m).
Proof.
  intros Hm s. destruct (Hm (world_of s)) as (evs & Hw & Hevs).
  exists (Local <$> evs).
  rewrite (lift_log m s (m (world_of s)).1 evs).
  2:{ rewrite <- Hw. by destruct (m (world_of s)). }
  split; [by destruct (m (world_of s)).1|]. split; [|done].
  by apply Forall_fmap.
Qed.

Lemma confined_lift_quiet {A} (m : M A) :
  quiet m → confined harmless (λ _, True) (lift m).
Proof. intros Hm. apply confined_lift. intros w. apply Hm. Qed.

Lemma confined_terminal (P : call → Prop) l text :
  P (Local (Term l text)) → confined P (λ _, True) (lift (terminal l text)).
Proof.
  intros Hp. apply confined_lift. intros w. exists [Term l text].
  split; [done|]. by constructor.
Qed.

Lemma confined_shell (P : call → Prop) env cmd :
  P (Local (Shell cmd)) → confined P (λ _, True) (lift (shell_cmd_runner env cmd)).
Proof.
  intros Hp. apply confined_lift. intros w. exists [Shell cmd].
  rewrite shell_cmd_runner_run. split; [done|]. by constructor.
Qed.

Lemma lift_Return {A} (m : M A) s a evs :
  m (world_of s) = (Return a, log (world_of s) evs) →
  lift m s = (Done a, after s (Local <$> evs)).
Proof. intros H. by rewrite (lift_log m s (Return a) evs). Qed.

Lemma lift_terminal l text s :
  lift (terminal l text) s = (Done tt, after s [Local (Term l text)]).
Proof. by apply (lift_Return _ _ _ [_]). Qed.

Lemma lift_shell_ok env cmd s :
  (∀ t cmd, (shell_result env t cmd).1 = 0) →
  ∃ stdout,
    lift (shell_cmd_runner env cmd) s = (Done stdout, after s [Local (Shell cmd)]).
Proof.
  intros Hok. eexists. apply (lift_Return _ _ _ [_]). by apply shell_cmd_runner_ok.
Qed.

Lemma lift_read_text path text s :
  site_files s !! path = Some text →
  lift (read_text path) s = (Done text, after s [Local (ReadText path)]).
Proof. intros H. apply (lift_Return _ _ _ [_]). by apply read_text_run. Qed.

Lemma lift_write_text path text s :
  lift (write_text path text) s
  = (Done tt, {| calls := calls s ++ [Local (WriteText path text)];
                 site_files := <[path := text]> (site_files s) |}).
Proof. by apply (lift_run _ _ (Return tt) [_]). Qed.

Lemma unlink_run path text s :
  site_files s !! path = Some text →
  unlink path s
  = (Done tt, {| calls := calls s ++ [Unlink path];
                 site_files := delete path (site_files s) |}).
Proof. intros H. unfold unlink, then_, note. simpl. by rewrite H. Qed.

Lemma each_run {A} (l : list A) (body : A → Job unit) (f : A → list call) s :
  (∀ x s, body x s = (Done tt, after s (f x))) →
  each l body s = (Done tt, after s (l ≫= f)).
Proof.
  intros Hbody. revert s. induction l as [|x l IH]; intros s.
  - simpl. by rewrite after_nil.
  - cbn [each]. erewrite then_Done by apply Hbody.
    by rewrite IH, after_app, bind_cons.
Qed.

Lemma confined_get_calls (P : call → Prop) : confined P (λ _, True) get_calls.
Proof. intros s. exists []. by rewrite after_nil. Qed.

Lemma quiet_read_text path : quiet (read_text path).
Proof.
  unfold read_text. apply quiet_bind; [by apply quiet_emit|]. intros _ w.
  exists []. rewrite log_nil. split; [|done]. by destruct (files w !! path).
Qed.

Lemma quiet_get_next_dev_version release_version :
  quiet (Helper.get_next_dev_version release_version).
Proof.
  unfold Helper.get_next_dev_version.
  destruct (Version.parse release_version) as [v|]; [|apply quiet_raise].
  destruct (Version.parse _); [apply quiet_ret|apply quiet_raise].
Qed.

Lemma request_run {A} c (answer : list call → http A) s :
  request c answer s
  = (match answer (calls s) with
     | Answer a => Done a
     | HTTPFailure text => Fail (HTTPError text)
     end, after s [c]).
Proof.
  unfold request, then_, get_calls, note. simpl. by destruct (answer (calls s)).
Qed.

Lemma harmless_not_upload c : harmless c → ¬ is_upload c.
Proof. destruct c; simpl; tauto. Qed.

Lemma bind_fmap_singleton {A B} (f : A → B) (l : list A) :
  l ≫= (λ x, [f x]) = f <$> l.
Proof. induction l as [|x l IH]; [done|]. by rewrite bind_cons, IH. Qed.

Lemma lift_shell_fails env cmd s rc stdout :
  shell_result env (trace (world_of s)) cmd = (rc, stdout) →
  rc ≠ 0 →
  lift (shell_cmd_runner env cmd) s
  = (Fail (Exn (CalledProcessError rc)), after s [Local (Shell cmd)]).
Proof.
  intros Hres Hrc. erewrite lift_log by apply shell_cmd_runner_run.
  rewrite Hres. by destruct rc.
Qed.

Section WithEnv.
Context (env : Env) (github : GitHub).

Ltac job_step := eapply (confined_then _ (λ _, True)); [|intros ? _].

Lemma confined_download_assets (P : call → Prop) repo git_version :
  P (DownloadAssets repo git_version) →
  (∀ destination, P (DownloadProgress destination)) →
  confined P (λ _, True) (Sign.download_assets github repo git_version).
Proof.
  intros Hassets Hprogress. unfold Sign.download_assets.
  job_step; [apply confined_get_calls|].
  job_step; [by apply confined_note|].
  destruct (download_release_assets github _ repo git_version)
    as [destinations failure].
  job_step.
  { apply confined_each. intros destination. by apply confined_note. }
  destruct failure; [apply confined_fail|by apply confined_done].
Qed.

(** X17.  A dry run of [sign] uploads nothing, with or without a token:
    whatever GitHub and the shell answer, no call to
    [upload_release_assets] is made, and no file is changed. *)
Theorem sign_dry_run_never_uploads args token :
  Sign.dry_run args = true →
  confined (λ c, ¬ is_upload c) (λ _, True) (Sign.sign env github args token).
Proof.
  intros Hdry. unfold Sign.sign. rewrite Hdry, andb_false_r.
  job_step.
  { destruct (Sign.project args); [by apply confined_done|].
    eapply confined_weaken; [apply harmless_not_upload|done|].
    apply confined_lift_quiet, quiet_get_project_name. }
  job_step.
  { destruct (Sign.release_version args); [by apply confined_done|].
    eapply confined_weaken; [apply harmless_not_upload|done|].
    apply confined_lift_quiet, quiet_get_current_version. }
  job_step; [by apply confined_request; [intros []|]|].
  match goal with |- context [negb ?b] => destruct b end; cbn [negb].
  2:{ job_step; [by apply confined_terminal; intros []|]. by apply confined_done. }
  job_step; [by apply confined_request; [intros []|]|].
  job_step; [by apply confined_note; intros []|].
  job_step; [by apply confined_request; [intros []|]|].
  job_step; [by apply confined_note; intros []|].
  job_step; [by apply confined_download_assets; intros; intros []|].
  job_step; [|by apply confined_done].
  apply confined_each. intros file_path.
  job_step; [by apply confined_terminal; intros []|].
  job_step; [by apply confined_shell; intros []|].
  by apply confined_done.
Qed.

(** X18.  When GitHub does not answer that the release exists, [sign]
    never returns [True] and does nothing: no download, no signature, no
    upload, no file changed; all it does is to ask for what it was not
    given, and to report. *)
Theorem sign_release_missing args token :
  (∀ cs repo tag, release_exists github cs repo tag ≠ Answer true) →
  confined harmless (λ signed, signed = false) (Sign.sign env github args token).
Proof.
  intros Hmissing. unfold Sign.sign.
  destruct (negb (Py.truthy token) && negb (Sign.dry_run args)).
  { job_step; [by apply confined_terminal|]. by apply confined_done. }
  job_step.
  { destruct (Sign.project args); [by apply confined_done|].
    apply confined_lift_quiet, quiet_get_project_name. }
  job_step.
  { destruct (Sign.release_version args); [by apply confined_done|].
    apply confined_lift_quiet, quiet_get_current_version. }
  eapply (confined_then _ (λ exists_, exists_ = false)).
  { apply confined_request; [done|]. intros cs [|] Hcs; [|done].
    by apply Hmissing in Hcs. }
  intros exists_ ->. cbn [negb].
  job_step; [by apply confined_terminal|]. by apply confined_done.
Qed.

(** X19.  When GitHub refuses to create the release, [release] never
    returns [True], keeps the release text and every other file, and
    leaves the version and the changelog alone: apart from questions and
    messages, its only calls are the push and the refused request. *)
Theorem release_refused args token :
  (∀ cs repo tag name body,
     create_release github cs repo tag name body ≠ Answer tt) →
  confined (λ c, harmless c ∨ is_push c ∨ is_create c)
           (λ released, released = false)
           (Release.release env github args token).
Proof.
  intros Hrefused. unfold Release.release.
  assert (∀ {A} (m : M A), quiet m →
            confined (λ c, harmless c ∨ is_push c ∨ is_create c) (λ _, True) (lift m))
    as Hquiet.
  { intros A m Hm. eapply confined_weaken; [|done|by apply confined_lift_quiet].
    by left. }
  destruct (negb (Py.truthy token)).
  { job_step; [by apply confined_terminal; left|]. by apply confined_done. }
  job_step.
  { unfold Release.release_setup.
    job_step.
    { destruct (Release.project args); [by apply confined_done|].
      apply Hquiet, quiet_get_project_name. }
    job_step.
    { destruct (Release.git_signing_key args); [by apply confined_done|].
      apply Hquiet, quiet_find_signing_key. }
    job_step.
    { destruct (Release.release_version args); [by apply confined_done|].
      apply Hquiet, quiet_get_current_version. }
    job_step.
    { destruct (Release.next_version args); [by apply confined_done|].
      apply Hquiet, quiet_get_next_dev_version. }
    by apply confined_done. }
  destruct a as [[[[project git_signing_key] git_remote_name] release_version]
                   next_version].
  job_step; [by apply confined_terminal; left|].
  job_step; [apply confined_shell; right; left; by eexists|].
  job_step; [by apply confined_terminal; left|].
  job_step; [apply Hquiet, quiet_read_text|].
  intros s. cbv beta. rewrite request_run.
  match goal with |- context [create_release github ?cs ?r ?t ?n ?b] =>
    pose proof (Hrefused cs r t n b) as Hno;
    destruct (create_release github cs r t n b) as [[]|text] end; [done|].
  unfold then_. erewrite lift_log by apply terminal_run.
  eexists [_; Local (Term Error text)]. cbn [fst snd].
  split; [by rewrite after_app|]. split; [|by intros ? [= <-]].
  constructor; [by right; right|]. constructor; [by left|]. constructor.
Qed.

(** [release] up to the update of the version, when GitHub creates the
    release and the changelog is CHANGELOG.md. *)
Lemma release_created args token s s1 project git_signing_key git_remote_name
    release_version next_version text markdown :
  Py.truthy token = true →
  Release.release_setup env args s
  = (Done (project, git_signing_key, git_remote_name, release_version,
           next_version), s1) →
  site_files s1 !! ".release.md" = Some text →
  site_files s1 !! "CHANGELOG.md" = Some markdown →
  Release.conventional_commits args = false →
  Py.truthy (Release.changelog args) = false →
  (∀ cs repo tag name body, create_release github cs repo tag name body = Answer tt) →
  (∀ t cmd, (shell_result env t cmd).1 = 0) →
  let updated :=
    add_skeleton github markdown release_version project
                 (Release.git_tag_prefix args) (Release.space args) in
  let commit_msg :=
    ("Automatic adjustments after release" +:+ Py.nl +:+ Py.nl
     +:+ "* Update to version " +:+ next_version +:+ Py.nl)
    +:+ "* Add empty changelog after " +:+ release_version in
  Release.release env github args token s
  = (let! (executed, filename) :=
       lift (Helper.update_version env next_version true) in
     if negb executed then done false
     else
       lift (Helper.commit_files env filename commit_msg git_signing_key true);;;
       lift (shell_cmd_runner env ("git push --follow-tags " +:+ git_remote_name));;;
       done true)
      {| calls :=
           calls s1
           ++ [Local (Term Info "Pushing changes");
               Local (Shell ("git push --follow-tags " +:+ git_remote_name));
               Local (Term Info ("Creating release for v" +:+ release_version));
               Local (ReadText ".release.md");
               CreateRelease (Release.space args +:+ "/" +:+ project)
                             (Release.git_tag_prefix args +:+ release_version)
                             (project +:+ " " +:+ release_version) text;
               Unlink ".release.md";
               Local (ReadText "CHANGELOG.md");
               Local (WriteText "CHANGELOG.md" updated)];
         site_files :=
           <["CHANGELOG.md" := updated]> (delete ".release.md" (site_files s1)) |}.
Proof.
  intros Htoken Hsetup Htext Hmarkdown Hcc Hlog Hcreate Hshell updated commit_msg.
  unfold Release.release. rewrite Htoken. cbn [negb].
  erewrite then_Done by exact Hsetup. cbv beta iota.
  erewrite then_Done by apply lift_terminal.
  destruct (lift_shell_ok env ("git push --follow-tags " +:+ git_remote_name)
              (after s1 [Local (Term Info "Pushing changes")]) Hshell)
    as [stdout Hpush].
  erewrite then_Done by exact Hpush.
  erewrite then_Done by apply lift_terminal.
  erewrite then_Done by (apply (lift_read_text _ text); exact Htext).
  cbv beta. rewrite request_run, Hcreate.
  unfold Release.after_release.
  erewrite then_Done by (apply (unlink_run _ text); exact Htext).
  rewrite Hcc, Hlog. cbn [negb].
  erewrite then_Done.
  2:{ erewrite then_Done by reflexivity.
      erewrite then_Done.
      2:{ apply (lift_read_text _ markdown). cbn [site_files].
          rewrite lookup_delete_ne by done. exact Hmarkdown. }
      erewrite then_Done by apply lift_write_text.
      reflexivity. }
  cbv beta iota. fold updated commit_msg.
  f_equal. unfold after. cbn [calls site_files]. f_equal.
  rewrite <- !app_assoc. reflexivity.
Qed.

(** X20.  With a token, a release text, a CHANGELOG.md, a version update
    that succeeds and shell commands that succeed, once GitHub has created
    the release [release] returns [True] after these calls, in this order:
    the push, the request to GitHub with the release text as body, the
    removal of the release text, the rewritten CHANGELOG.md, the update to
    the next development version, the commit of the project file, the
    version file and CHANGELOG.md, and a second push.  The release text is
    gone afterwards. *)
Theorem release_succeeds args token s s1 project git_signing_key git_remote_name
    release_version next_version text markdown filename :
  Py.truthy token = true →
  Release.release_setup env args s
  = (Done (project, git_signing_key, git_remote_name, release_version,
           next_version), s1) →
  site_files s1 !! ".release.md" = Some text →
  site_files s1 !! "CHANGELOG.md" = Some markdown →
  Release.conventional_commits args = false →
  Py.truthy (Release.changelog args) = false →
  (∀ cs repo tag name body, create_release github cs repo tag name body = Answer tt) →
  (∀ t, version_main env t ["--quiet"; "update"; next_version; "--develop"]
        = (true, filename)) →
  (∀ t cmd, (shell_result env t cmd).1 = 0) →
  let repo := Release.space args +:+ "/" +:+ project in
  let git_version := Release.git_tag_prefix args +:+ release_version in
  let updated :=
    add_skeleton github markdown release_version project
                 (Release.git_tag_prefix args) (Release.space args) in
  let commit_msg :=
    ("Automatic adjustments after release" +:+ Py.nl +:+ Py.nl
     +:+ "* Update to version " +:+ next_version +:+ Py.nl)
    +:+ "* Add empty changelog after " +:+ release_version in
  let push := Local (Shell ("git push --follow-tags " +:+ git_remote_name)) in
  Release.release env github args token s
  = (Done true,
     {| calls :=
          calls s1
          ++ [Local (Term Info "Pushing changes");
              push;
              Local (Term Info ("Creating release for v" +:+ release_version));
              Local (ReadText ".release.md");
              CreateRelease repo git_version (project +:+ " " +:+ release_version)
                            text;
              Unlink ".release.md";
              Local (ReadText "CHANGELOG.md");
              Local (WriteText "CHANGELOG.md" updated);
              Local (VersionMain ["--quiet"; "update"; next_version; "--develop"]);
              Local (Shell ("git add " +:+ filename));
              Local (Shell "git add *__version__.py || echo 'ignoring __version__'");
              Local (Shell "git add CHANGELOG.md");
              Local (Shell (if negb (String.eqb git_signing_key "")
                            then "git commit -S" +:+ git_signing_key
                                 +:+ " --no-verify -m '" +:+ commit_msg +:+ "'"
                            else "git commit --no-verify -m '" +:+ commit_msg
                                 +:+ "'"));
              push];
        site_files :=
          <["CHANGELOG.md" := updated]> (delete ".release.md" (site_files s1)) |}).
Proof.
  intros Htoken Hsetup Htext Hmarkdown Hcc Hlog Hcreate Hmain Hshell
         repo git_version updated commit_msg push.
  rewrite (release_created _ _ _ _ _ _ _ _ _ _ _
             Htoken Hsetup Htext Hmarkdown Hcc Hlog Hcreate Hshell).
  erewrite then_Done.
  2:{ apply lift_Return. apply update_version_run. }
  cbn [app]. rewrite Hmain. cbn [fst snd negb].
  erewrite then_Done.
  2:{ apply lift_Return. by apply commit_files_run. }
  match goal with |- then_ (lift (shell_cmd_runner env ?cmd)) _ ?st = _ =>
    destruct (lift_shell_ok env cmd st Hshell) as [stdout Hpush] end.
  erewrite then_Done by exact Hpush.
  unfold done, after. cbn [calls site_files fmap list_fmap app].
  f_equal. f_equal. rewrite <- !app_assoc. cbn [app]. reflexivity.
Qed.

(** X22.  When the update to the next version fails after GitHub has
    created the release, [release] returns [False] half way: the release
    is created, the release text is removed and CHANGELOG.md is rewritten,
    but nothing is committed and the second push is not made. *)
Theorem release_update_fails args token s s1 project git_signing_key
    git_remote_name release_version next_version text markdown filename :
  Py.truthy token = true →
  Release.release_setup env args s
  = (Done (project, git_signing_key, git_remote_name, release_version,
           next_version), s1) →
  site_files s1 !! ".release.md" = Some text →
  site_files s1 !! "CHANGELOG.md" = Some markdown →
  Release.conventional_commits args = false →
  Py.truthy (Release.changelog args) = false →
  (∀ cs repo tag name body, create_release github cs repo tag name body = Answer tt) →
  (∀ t, version_main env t ["--quiet"; "update"; next_version; "--develop"]
        = (false, filename)) →
  (∀ t cmd, (shell_result env t cmd).1 = 0) →
  let updated :=
    add_skeleton github markdown release_version project
                 (Release.git_tag_prefix args) (Release.space args) in
  Release.release env github args token s
  = (Done false,
     {| calls :=
          calls s1
          ++ [Local (Term Info "Pushing changes");
              Local (Shell ("git push --follow-tags " +:+ git_remote_name));
              Local (Term Info ("Creating release for v" +:+ release_version));
              Local (ReadText ".release.md");
              CreateRelease (Release.space args +:+ "/" +:+ project)
                            (Release.git_tag_prefix args +:+ release_version)
                            (project +:+ " " +:+ release_version) text;
              Unlink ".release.md";
              Local (ReadText "CHANGELOG.md");
              Local (WriteText "CHANGELOG.md" updated);
              Local (VersionMain ["--quiet"; "update"; next_version; "--develop"]);
              Local (Term Error
                       (if String.eqb filename ""
                        then "No project definition found."
                        else "Unable to update version " +:+ next_version
                             +:+ " in " +:+ filename))];
        site_files :=
          <["CHANGELOG.md" := updated]> (delete ".release.md" (site_files s1)) |}).
Proof.
  intros Htoken Hsetup Htext Hmarkdown Hcc Hlog Hcreate Hmain Hshell updated.
  rewrite (release_created _ _ _ _ _ _ _ _ _ _ _
             Htoken Hsetup Htext Hmarkdown Hcc Hlog Hcreate Hshell).
  erewrite then_Done.
  2:{ apply lift_Return. apply update_version_run. }
  cbn [app]. rewrite Hmain. cbn [fst snd negb].
  unfold done, after. cbn [calls site_files fmap list_fmap app].
  f_equal. f_equal. rewrite <- !app_assoc. cbn [app]. reflexivity.
Qed.

(** X21.  When the project and the version are given, the release
    exists, every download and every shell command succeeds and the
    upload yields [uploaded] without an error, [sign] (not a dry run, with
    a token) returns [True] after these calls, in this order: the
    question for the release, the downloads of the zip file, of the
    tarball and of the assets, one signature for each downloaded file,
    zip file and tarball first, a single upload of the [.asc] file of
    each of them, and one message for each uploaded file. *)
Theorem sign_succeeds args token s project release_version assets uploaded :
  Py.truthy token = true →
  Sign.dry_run args = false →
  Sign.project args = Some project →
  Sign.release_version args = Some release_version →
  let git_version := Sign.git_tag_prefix args +:+ release_version in
  let repo := Sign.space args +:+ "/" +:+ project in
  let zip_destination :=
    path_str github (project +:+ "-" +:+ release_version +:+ ".zip") in
  let tarball_destination :=
    path_str github (project +:+ "-" +:+ release_version +:+ ".tar.gz") in
  let file_paths := [zip_destination; tarball_destination] ++ assets in
  let upload_files :=
    (λ p, (path_str github (p +:+ ".asc"), "application/pgp-signature"))
      <$> file_paths in
  (∀ cs, release_exists github cs repo git_version = Answer true) →
  (∀ cs, download_release_zip github cs repo git_version zip_destination
         = Answer tt) →
  (∀ cs, download_release_tarball github cs repo git_version tarball_destination
         = Answer tt) →
  (∀ cs, download_release_assets github cs repo git_version = (assets, None)) →
  (∀ cs, upload_release_assets github cs repo git_version upload_files
         = (uploaded, None)) →
  (∀ t cmd, (shell_result env t cmd).1 = 0) →
  Sign.sign env github args token s
  = (Done true,
     after s
       ([ReleaseExists repo git_version;
         DownloadZip repo git_version zip_destination;
         DownloadProgress zip_destination;
         DownloadTarball repo git_version tarball_destination;
         DownloadProgress tarball_destination;
         DownloadAssets repo git_version]
        ++ (DownloadProgress <$> assets)
        ++ (file_paths ≫= λ file_path,
              [Local (Term Info ("Signing " +:+ file_path));
               Local (Shell (Sign.gpg args file_path))])
        ++ [Local (Term Info ("Uploading assets: "
                              +:+ list_repr github (fst <$> upload_files)));
            UploadAssets repo git_version upload_files]
        ++ ((λ uploaded_file, Local (Term Ok ("Uploaded: " +:+ uploaded_file)))
              <$> uploaded))).
Proof.
  intros Htoken Hdry Hproject Hversion git_version repo zip_destination
         tarball_destination file_paths upload_files
         Hexists Hzip Htarball Hassets Hupload Hshell.
  unfold Sign.sign. rewrite Htoken, Hdry, Hproject, Hversion. cbn [negb andb].
  erewrite then_Done by reflexivity.
  erewrite then_Done by reflexivity.
  fold git_version repo.
  erewrite then_Done by (rewrite request_run, Hexists; reflexivity).
  cbn [negb]. fold zip_destination tarball_destination.
  erewrite then_Done by (rewrite request_run, Hzip; reflexivity).
  erewrite then_Done by reflexivity.
  erewrite then_Done by (rewrite request_run, Htarball; reflexivity).
  erewrite then_Done by reflexivity.
  erewrite then_Done.
  2:{ unfold Sign.download_assets.
      erewrite then_Done by reflexivity.
      erewrite then_Done by reflexivity.
      rewrite Hassets.
      erewrite then_Done.
      2:{ apply (each_run _ _ (λ destination, [DownloadProgress destination])).
          done. }
      reflexivity. }
  fold file_paths.
  erewrite then_Done.
  2:{ apply (each_run _ _ (λ file_path,
                             [Local (Term Info ("Signing " +:+ file_path));
                              Local (Shell (Sign.gpg args file_path))])).
      intros file_path s'.
      erewrite then_Done by apply lift_terminal.
      destruct (lift_shell_ok env (Sign.gpg args file_path)
                  (after s' [Local (Term Info ("Signing " +:+ file_path))]) Hshell)
        as [stdout Hgpg].
      erewrite then_Done by exact Hgpg.
      unfold done. by rewrite after_app. }
  fold upload_files.
  erewrite then_Done by apply lift_terminal.
  unfold Sign.upload.
  erewrite then_Done by reflexivity.
  erewrite then_Done by reflexivity.
  rewrite Hupload.
  erewrite then_Done.
  2:{ apply (each_run _ _ (λ uploaded_file,
                             [Local (Term Ok ("Uploaded: " +:+ uploaded_file))])).
      intros uploaded_file s'. apply lift_terminal. }
  unfold done, note, after. cbn [calls site_files]. f_equal. f_equal.
  rewrite !bind_fmap_singleton, <- !app_assoc. reflexivity.
Qed.

(** X23.  When the command that signs the zip file fails, [sign] ends
    there with the error of the command: the release was asked for and
    everything was downloaded, the first signature was tried, and nothing
    else is signed, nothing is uploaded and nothing is returned. *)
Theorem sign_failure_uploads_nothing args token s project release_version assets
    rc stdout :
  Py.truthy token = true ∨ Sign.dry_run args = true →
  Sign.project args = Some project →
  Sign.release_version args = Some release_version →
  let git_version := Sign.git_tag_prefix args +:+ release_version in
  let repo := Sign.space args +:+ "/" +:+ project in
  let zip_destination :=
    path_str github (project +:+ "-" +:+ release_version +:+ ".zip") in
  let tarball_destination :=
    path_str github (project +:+ "-" +:+ release_version +:+ ".tar.gz") in
  (∀ cs, release_exists github cs repo git_version = Answer true) →
  (∀ cs, download_release_zip github cs repo git_version zip_destination
         = Answer tt) →
  (∀ cs, download_release_tarball github cs repo git_version tarball_destination
         = Answer tt) →
  (∀ cs, download_release_assets github cs repo git_version = (assets, None)) →
  (∀ t, shell_result env t (Sign.gpg args zip_destination) = (rc, stdout)) →
  rc ≠ 0 →
  Sign.sign env github args token s
  = (Fail (Exn (CalledProcessError rc)),
     after s
       ([ReleaseExists repo git_version;
         DownloadZip repo git_version zip_destination;
         DownloadProgress zip_destination;
         DownloadTarball repo git_version tarball_destination;
         DownloadProgress tarball_destination;
         DownloadAssets repo git_version]
        ++ (DownloadProgress <$> assets)
        ++ [Local (Term Info ("Signing " +:+ zip_destination));
            Local (Shell (Sign.gpg args zip_destination))])).
Proof.
  intros Htoken Hproject Hversion git_version repo zip_destination
         tarball_destination Hexists Hzip Htarball Hassets Hgpg Hrc.
  unfold Sign.sign. rewrite Hproject, Hversion.
  assert (negb (Py.truthy token) && negb (Sign.dry_run args) = false) as ->.
  { destruct Htoken as [-> | ->]; [done|]. apply andb_false_r. }
  erewrite then_Done by reflexivity.
  erewrite then_Done by reflexivity.
  fold git_version repo.
  erewrite then_Done by (rewrite request_run, Hexists; reflexivity).
  cbn [negb]. fold zip_destination tarball_destination.
  erewrite then_Done by (rewrite request_run, Hzip; reflexivity).
  erewrite then_Done by reflexivity.
  erewrite then_Done by (rewrite request_run, Htarball; reflexivity).
  erewrite then_Done by reflexivity.
  erewrite then_Done.
  2:{ unfold Sign.download_assets.
      erewrite then_Done by reflexivity.
      erewrite then_Done by reflexivity.
      rewrite Hassets.
      erewrite then_Done.
      2:{ apply (each_run _ _ (λ destination, [DownloadProgress destination])).
          done. }
      reflexivity. }
  cbn [app each].
  unfold then_ at 1 2.
  erewrite then_Done by apply lift_terminal.
  unfold then_ at 1.
  erewrite lift_shell_fails by (apply Hgpg || done).
  unfold note, after. cbn [calls site_files]. f_equal. f_equal.
  rewrite bind_fmap_singleton, <- !app_assoc. reflexivity.
Qed.

End WithEnv.

Lemma sign_dry_run_never_uploads_witness :
  confined (λ c, ¬ is_upload c) (λ _, True)
           (Sign.sign Examples2.env (Examples2.github (Answer tt))
                      (Examples2.sign_args true) None).
Proof.
  apply (sign_dry_run_never_uploads Examples2.env (Examples2.github (Answer tt))
           (Examples2.sign_args true) None).
  reflexivity.
Defined.

Lemma sign_release_missing_witness :
  confined harmless (λ signed, signed = false)
           (Sign.sign Examples2.env Examples2.github_without_release
                      (Examples2.sign_args false) (Some "token")).
Proof.
  apply (sign_release_missing Examples2.env Examples2.github_without_release
           (Examples2.sign_args false) (Some "token")).
  intros cs repo tag. simpl. discriminate.
Defined.

Lemma release_refused_witness :
  confined (λ c, harmless c ∨ is_push c ∨ is_create c)
           (λ released, released = false)
           (Release.release Examples2.env
              (Examples2.github (HTTPFailure "Authorization required"))
              Examples2.release_args (Some "token")).
Proof.
  apply (release_refused Examples2.env
           (Examples2.github (HTTPFailure "Authorization required"))
           Examples2.release_args (Some "token")).
  intros cs repo tag name body. simpl. discriminate.
Defined.

Lemma release_succeeds_witness :
  Release.release Examples2.env (Examples2.github (Answer tt))
                  Examples2.release_args (Some "token") Examples2.site
  = (Done true,
     {| calls :=
          [Local (Term Info "Pushing changes");
           Local (Shell "git push --follow-tags upstream");
           Local (Term Info "Creating release for v0.0.1");
           Local (ReadText ".release.md");
           CreateRelease "greenbone/foo" "v0.0.1" "foo 0.0.1" "notes";
           Unlink ".release.md";
           Local (ReadText "CHANGELOG.md");
           Local (WriteText "CHANGELOG.md"
                            ("## [Unreleased]" +:+ Py.nl +:+ "# Changelog"));
           Local (VersionMain ["--quiet"; "update"; "0.0.2.dev1"; "--develop"]);
           Local (Shell "git add MyProject.conf");
           Local (Shell "git add *__version__.py || echo 'ignoring __version__'");
           Local (Shell "git add CHANGELOG.md");
           Local (Shell ("git commit -S1234 --no-verify -m '"
                         +:+ "Automatic adjustments after release" +:+ Py.nl
                         +:+ Py.nl +:+ "* Update to version 0.0.2.dev1" +:+ Py.nl
                         +:+ "* Add empty changelog after 0.0.1'"));
           Local (Shell "git push --follow-tags upstream")];
        site_files :=
          <["CHANGELOG.md" := "## [Unreleased]" +:+ Py.nl +:+ "# Changelog"]>
            (delete ".release.md" (site_files Examples2.site)) |}).
Proof.
  apply (release_succeeds Examples2.env (Examples2.github (Answer tt))
           Examples2.release_args (Some "token") Examples2.site Examples2.site
           "foo" "1234" "upstream" "0.0.1" "0.0.2.dev1" "notes" "# Changelog"
           "MyProject.conf").
  - reflexivity.
  - reflexivity.
  - vm_compute. reflexivity.
  - vm_compute. reflexivity.
  - reflexivity.
  - reflexivity.
  - intros cs repo tag name body. reflexivity.
  - intros t. reflexivity.
  - intros t cmd. reflexivity.
Defined.

Lemma release_update_fails_witness :
  Release.release (Examples2.prepare_env false "") (Examples2.github (Answer tt))
                  Examples2.release_args (Some "token") Examples2.site
  = (Done false,
     {| calls :=
          [Local (Term Info "Pushing changes");
           Local (Shell "git push --follow-tags upstream");
           Local (Term Info "Creating release for v0.0.1");
           Local (ReadText ".release.md");
           CreateRelease "greenbone/foo" "v0.0.1" "foo 0.0.1" "notes";
           Unlink ".release.md";
           Local (ReadText "CHANGELOG.md");
           Local (WriteText "CHANGELOG.md"
                            ("## [Unreleased]" +:+ Py.nl +:+ "# Changelog"));
           Local (VersionMain ["--quiet"; "update"; "0.0.2.dev1"; "--develop"]);
           Local (Term Error "Unable to update version 0.0.2.dev1 in pyproject.toml")];
        site_files :=
          <["CHANGELOG.md" := "## [Unreleased]" +:+ Py.nl +:+ "# Changelog"]>
            (delete ".release.md" (site_files Examples2.site)) |}).
Proof.
  apply (release_update_fails (Examples2.prepare_env false "")
           (Examples2.github (Answer tt))
           Examples2.release_args (Some "token") Examples2.site Examples2.site
           "foo" "1234" "upstream" "0.0.1" "0.0.2.dev1" "notes" "# Changelog"
           "pyproject.toml").
  - reflexivity.
  - reflexivity.
  - vm_compute. reflexivity.
  - vm_compute. reflexivity.
  - reflexivity.
  - reflexivity.
  - intros cs repo tag name body. reflexivity.
  - intros t. reflexivity.
  - intros t cmd. reflexivity.
Defined.

Lemma sign_failure_uploads_nothing_witness :
  Sign.sign Examples2.env_without_gpg (Examples2.github (Answer tt))
            (Examples2.sign_args false) (Some "token") Examples2.site
  = (Fail (Exn (CalledProcessError 2)),
     after Examples2.site
       [ReleaseExists "greenbone/foo" "v0.0.1";
        DownloadZip "greenbone/foo" "v0.0.1" "foo-0.0.1.zip";
        DownloadProgress "foo-0.0.1.zip";
        DownloadTarball "greenbone/foo" "v0.0.1" "foo-0.0.1.tar.gz";
        DownloadProgress "foo-0.0.1.tar.gz";
        DownloadAssets "greenbone/foo" "v0.0.1";
        DownloadProgress "foo.deb";
        Local (Term Info "Signing foo-0.0.1.zip");
        Local (Shell "gpg --default-key 1234 --yes --detach-sign --armor foo-0.0.1.zip")]).
Proof.
  apply (sign_failure_uploads_nothing Examples2.env_without_gpg
           (Examples2.github (Answer tt)) (Examples2.sign_args false)
           (Some "token") Examples2.site "foo" "0.0.1" ["foo.deb"] 2 "").
  - left. reflexivity.
  - reflexivity.
  - reflexivity.
  - intros cs. reflexivity.
  - intros cs. reflexivity.
  - intros cs. reflexivity.
  - intros cs. reflexivity.
  - intros t. reflexivity.
  - discriminate.
Defined.

Lemma sign_succeeds_witness :
  Sign.sign Examples2.env (Examples2.github (Answer tt))
            (Examples2.sign_args false) (Some "token") Examples2.site
  = (Done true,
     after Examples2.site
       [ReleaseExists "greenbone/foo" "v0.0.1";
        DownloadZip "greenbone/foo" "v0.0.1" "foo-0.0.1.zip";
        DownloadProgress "foo-0.0.1.zip";
        DownloadTarball "greenbone/foo" "v0.0.1" "foo-0.0.1.tar.gz";
        DownloadProgress "foo-0.0.1.tar.gz";
        DownloadAssets "greenbone/foo" "v0.0.1";
        DownloadProgress "foo.deb";
        Local (Term Info "Signing foo-0.0.1.zip");
        Local (Shell "gpg --default-key 1234 --yes --detach-sign --armor foo-0.0.1.zip");
        Local (Term Info "Signing foo-0.0.1.tar.gz");
        Local (Shell "gpg --default-key 1234 --yes --detach-sign --armor foo-0.0.1.tar.gz");
        Local (Term Info "Signing foo.deb");
        Local (Shell "gpg --default-key 1234 --yes --detach-sign --armor foo.deb");
        Local (Term Info "Uploading assets: ['foo-0.0.1.zip.asc', 'foo-0.0.1.tar.gz.asc', 'foo.deb.asc']");
        UploadAssets "greenbone/foo" "v0.0.1"
                     [("foo-0.0.1.zip.asc", "application/pgp-signature");
                      ("foo-0.0.1.tar.gz.asc", "application/pgp-signature");
                      ("foo.deb.asc", "application/pgp-signature")];
        Local (Term Ok "Uploaded: foo-0.0.1.zip.asc");
        Local (Term Ok "Uploaded: foo-0.0.1.tar.gz.asc");
        Local (Term Ok "Uploaded: foo.deb.asc")]).
Proof.
  apply (sign_succeeds Examples2.env (Examples2.github (Answer tt))
           (Examples2.sign_args false) (Some "token") Examples2.site
           "foo" "0.0.1" ["foo.deb"]
           ["foo-0.0.1.zip.asc"; "foo-0.0.1.tar.gz.asc"; "foo.deb.asc"]).
  - reflexivity.
  - reflexivity.
  - reflexivity.
  - reflexivity.
  - intros cs. reflexivity.
  - intros cs. reflexivity.
  - intros cs. reflexivity.
  - intros cs. reflexivity.
  - intros cs. reflexivity.
  - intros t cmd. reflexivity.
Defined.

End Jobs.
